(** * FramelessWidgetsHelper: per-window state, hit testing, button dispatch

    A shallow embedding of [src/widgets/framelesswidgetshelper.cpp].

    The file under study is glue over the Qt widget API.  The Qt value
    classes it computes with ([QSize], [QRect], [QRegion], [QSizePolicy],
    window flags) are written out below; the part of Qt that is an object
    graph (who is whose parent, which native handle a widget has, which
    slots a button class declares) is a [Toolkit] record the development is
    parameterised over.  The mutable part (the global
    [g_widgetsHelper], the properties of each widget the helper reads or
    writes, and the calls that leave the module) is the [State] threaded
    through every operation.

    Build configuration: [Q_ASSERT] expands to nothing under [QT_NO_DEBUG];
    the embedding is that of such a build, in which the guard that follows
    each assertion is the code that runs. *)

From Stdlib Require Import ZArith Bool List String Lia.
From stdpp Require Import base option gmap list.
Import ListNotations.

Local Open Scope Z_scope.

(** ** Qt value classes

    Coordinates and sizes are Qt [int]s; they are taken as integers, for
    widgets whose coordinates stay within the range of [int]. *)

Record QPoint := mkQPoint { xp : Z; yp : Z }.

(** [QSize]: a default-constructed size is (-1, -1). *)
Record QSize := mkQSize { wd : Z; ht : Z }.

Definition QSize_default : QSize := mkQSize (-1) (-1).

(** [QSize::isEmpty]: either dimension below 1. *)
Definition QSize_isEmpty (s : QSize) : bool := (wd s <? 1) || (ht s <? 1).

Definition QSize_eqb (a b : QSize) : bool := (wd a =? wd b) && (ht a =? ht b).

Definition QSize_expandedTo (a b : QSize) : QSize :=
  mkQSize (Z.max (wd a) (wd b)) (Z.max (ht a) (ht b)).

Definition QSize_boundedTo (a b : QSize) : QSize :=
  mkQSize (Z.min (wd a) (wd b)) (Z.min (ht a) (ht b)).

(** [QRect] keeps its two corners; the default rectangle is (0,0)-(-1,-1),
    the null rectangle of width and height 0. *)
Record QRect := mkQRect { x1 : Z; y1 : Z; x2 : Z; y2 : Z }.

Definition QRect_default : QRect := mkQRect 0 0 (-1) (-1).

(** [QRect(const QPoint &topLeft, const QSize &size)]. *)
Definition QRect_fromPointSize (topLeft : QPoint) (size : QSize) : QRect :=
  mkQRect (xp topLeft) (yp topLeft)
          (xp topLeft + wd size - 1) (yp topLeft + ht size - 1).

Definition QRect_width (r : QRect) : Z := x2 r - x1 r + 1.
Definition QRect_height (r : QRect) : Z := y2 r - y1 r + 1.
Definition QRect_size (r : QRect) : QSize := mkQSize (QRect_width r) (QRect_height r).
Definition QRect_topLeft (r : QRect) : QPoint := mkQPoint (x1 r) (y1 r).

Definition QRect_isNull (r : QRect) : bool :=
  (x2 r =? x1 r - 1) && (y2 r =? y1 r - 1).

Definition QRect_isEmpty (r : QRect) : bool := (x2 r <? x1 r) || (y2 r <? y1 r).

(** [QRect::contains(const QPoint &, bool proper = false)]: a null rectangle
    contains nothing; a rectangle whose corners are the wrong way round is
    read with its corners swapped. *)
Definition QRect_contains (r : QRect) (p : QPoint) : bool :=
  if QRect_isNull r then false
  else
    let '(l, rr) := if x2 r <? x1 r - 1 then (x2 r, x1 r) else (x1 r, x2 r) in
    if (xp p <? l) || (rr <? xp p) then false
    else
      let '(t, b) := if y2 r <? y1 r - 1 then (y2 r, y1 r) else (y1 r, y2 r) in
      if (yp p <? t) || (b <? yp p) then false else true.

(** The points of a rectangle: those between its corners, both included.
    An empty rectangle has none. *)
Definition QRect_inside (r : QRect) (p : QPoint) : Prop :=
  x1 r <= xp p <= x2 r /\ y1 r <= yp p <= y2 r.

Definition QRect_insideb (r : QRect) (p : QPoint) : bool :=
  (x1 r <=? xp p) && (xp p <=? x2 r) && (y1 r <=? yp p) && (yp p <=? y2 r).

(** [QRegion] is a set of points; only construction from a rectangle,
    subtraction and the membership test are used.  A region built from an
    empty rectangle is the empty region. *)
Definition QRegion := QPoint -> bool.

Definition QRegion_fromRect (r : QRect) : QRegion :=
  fun p => negb (QRect_isEmpty r) && QRect_insideb r p.

(** [region -= rect]. *)
Definition QRegion_subtract (region : QRegion) (r : QRect) : QRegion :=
  fun p => region p && negb (QRegion_fromRect r p).

Definition QRegion_contains (region : QRegion) (p : QPoint) : bool := region p.

(** [QSizePolicy]: equality compares every field of the policy. *)
Inductive Policy :=
  | Fixed | Minimum | Maximum | Preferred | MinimumExpanding | Expanding | Ignored.

Record QSizePolicy := mkQSizePolicy {
  horizontalPolicy : Policy;
  verticalPolicy : Policy;
  horizontalStretch : Z;
  verticalStretch : Z;
  controlType : Z;
  hasHeightForWidth : bool;
  hasWidthForHeight : bool;
  retainSizeWhenHidden : bool
}.

(** [QSizePolicy(horizontal, vertical)], control type [DefaultType]. *)
Definition QSizePolicy_make (h v : Policy) : QSizePolicy :=
  mkQSizePolicy h v 0 0 1 false false false.

Definition Policy_eqb (a b : Policy) : bool :=
  match a, b with
  | Fixed, Fixed | Minimum, Minimum | Maximum, Maximum | Preferred, Preferred
  | MinimumExpanding, MinimumExpanding | Expanding, Expanding
  | Ignored, Ignored => true
  | _, _ => false
  end.

Definition QSizePolicy_eqb (a b : QSizePolicy) : bool :=
  Policy_eqb (horizontalPolicy a) (horizontalPolicy b)
  && Policy_eqb (verticalPolicy a) (verticalPolicy b)
  && (horizontalStretch a =? horizontalStretch b)
  && (verticalStretch a =? verticalStretch b)
  && (controlType a =? controlType b)
  && Bool.eqb (hasHeightForWidth a) (hasHeightForWidth b)
  && Bool.eqb (hasWidthForHeight a) (hasWidthForHeight b)
  && Bool.eqb (retainSizeWhenHidden a) (retainSizeWhenHidden b).

(** Constants of the Qt headers. *)
Definition MSWindowsFixedSizeDialogHint : Z := 0x100.
Definition QWIDGETSIZE_MAX : Z := 16777215.
Definition WindowNoState : Z := 0.
Definition WindowMinimized : Z := 1.

(** [QFlags]: [a | b], [a & b], [~a] and the conversion to [bool]. *)
Definition QFlags_testAny (flags mask : Z) : bool := negb (Z.land flags mask =? 0).

(** ** Enumerations of the library's [Global] namespace *)

Inductive SystemButtonType :=
  | Unknown | WindowIcon | Help | Minimize | Maximize | Restore | Close.

Inductive ButtonState := Unspecified | Hovered | Pressed | Clicked.

(** ** Objects *)

(** A widget is known by its address; [QWidget *] is [option Widget], with
    [None] for [nullptr].  A [QPointer<QWidget>] is modelled the same way
    (widgets are not destroyed by any operation of this file). *)
Abbreviation Widget := positive (only parsing).
Abbreviation QWidgetPtr := (option positive) (only parsing).
Abbreviation Helper := positive (only parsing).
Abbreviation WId := N (only parsing).

Definition QWidgetPtr_eqb (a b : QWidgetPtr) : bool := bool_decide (a = b).

(** The closures stored in [SystemParameters] capture the window and the
    helper; a default-constructed value holds no closure. *)
Inductive SystemParameters :=
  | NoParameters
  | ParametersOf (q : Helper) (window : Widget).

Record WidgetsHelperData := mkData {
  attached : bool;
  params : SystemParameters;
  titleBarWidget : QWidgetPtr;
  hitTestVisibleWidgets : list QWidgetPtr;
  windowIconButton : QWidgetPtr;
  contextHelpButton : QWidgetPtr;
  minimizeButton : QWidgetPtr;
  maximizeButton : QWidgetPtr;
  closeButton : QWidgetPtr
}.

(** The member initialisers of [struct WidgetsHelperData]. *)
Definition WidgetsHelperData_default : WidgetsHelperData :=
  mkData false NoParameters None [] None None None None None.

(** The properties of a [QWidget] that the helper reads or writes. *)
Record QWidgetProps := mkProps {
  windowFlags : Z;
  geometry : QRect;
  minimumSize : QSize;
  maximumSize : QSize;
  sizePolicy : QSizePolicy;
  hidden : bool;
  windowState : Z;
  WA_DontCreateNativeAncestors : bool;
  WA_NativeWindow : bool
}.

(** The part of Qt and of the rest of the library that the operations
    consult but never change. *)
Record Toolkit := mkToolkit {
  (** [qobject_cast<QWidget *>(q->parent())] *)
  parentWidgetOf : Helper -> QWidgetPtr;
  QWidget_nativeParentWidget : Widget -> QWidgetPtr;
  QWidget_window : Widget -> Widget;
  QWidget_winId : Widget -> WId;
  QWidget_mapTo : Widget -> Widget -> QPoint -> QPoint;
  QWidget_mapToGlobal : Widget -> QPoint -> QPoint;
  (** [QPointF(QPointF(p) * window->devicePixelRatioF()).toPoint()] *)
  scaledToNative : Widget -> QPoint -> QPoint;
  QMetaObject_indexOfSlot : Widget -> string -> Z;
  QMetaObject_indexOfSignal : Widget -> string -> Z;
  (** whether the build defines [Q_OS_WINDOWS] *)
  Q_OS_WINDOWS : bool;
  (** constants of [framelesshelpercore_global.h] *)
  kDefaultWindowSize : QSize;
  kDefaultResizeBorderThickness : Z;
  (** [Utils::isWindowFrameBorderVisible()] *)
  isWindowFrameBorderVisible : bool;
  (** [Utils::windowStatesToWindowState] *)
  windowStatesToWindowState : Z -> Z;
  (** [FramelessConfig::instance()->isSet(Option::CenterWindowBeforeShow)] *)
  centerWindowBeforeShow : bool;
  (** the position [Utils::moveWindowToDesktopCenter] hands to its
      [setWindowPosition] callback for a window of the given size, if it
      calls it at all *)
  desktopCenterPosition : Widget -> QSize -> option QPoint
}.

(** Calls that leave the module, in the order they are made. *)
Inductive Event :=
  | MutexLock
  | MutexUnlock
  | Emit_titleBarWidgetChanged (q : Helper)
  | InvokeMethod (obj : Widget) (member : string) (arg : option bool)
  | SetAeroSnappingEnabled (windowId : WId) (enable : bool)
  | AddWindow (p : SystemParameters)
  | SingleShot (q : Helper) (window : Widget)
  | Raise (window : Widget)
  | ActivateWindow (window : Widget)
  | MoveWindowToDesktopCenter (window : Widget)
  | ShowSystemMenu (windowId : WId) (nativePos : QPoint)
  | StartSystemMove (window : Widget) (pos : QPoint)
  | StartSystemResize (window : Widget) (edges : Z) (pos : QPoint).

(** [g_widgetsHelper] ([mutex], [data]), the widgets, and the calls made so
    far. *)
Record State := mkState {
  mutex : bool;
  data : gmap N WidgetsHelperData;
  widgets : Widget -> QWidgetProps;
  trace : list Event
}.

(** ** The monad of the operations

    An operation takes the state and either returns a value and the new
    state, or never returns: [QMutex] is not recursive, and a thread that
    locks it while holding it blocks for good.  [None] is that outcome. *)
Definition M (A : Type) : Type := State -> option (A * State).

Definition ret {A} (a : A) : M A := fun s => Some (a, s).

Definition bind {A B} (m : M A) (k : A -> M B) : M B :=
  fun s => match m s with
           | Some (a, s') => k a s'
           | None => None
           end.

Declare Scope helper_scope.
Delimit Scope helper_scope with helper.
Notation "x <- m ;; k" := (bind m (fun x => k))
  (at level 100, m at next level, right associativity) : helper_scope.
Notation "m ;; k" := (bind m (fun _ => k))
  (at level 100, right associativity) : helper_scope.
Local Open Scope helper_scope.

Definition get : M State := fun s => Some (s, s).

Definition emit (e : Event) : M unit :=
  fun s => Some (tt, mkState (mutex s) (data s) (widgets s) (trace s ++ [e])).

(** [QMutex::lock] and [QMutex::unlock]. *)
Definition lock : M unit :=
  fun s => if mutex s then None
           else Some (tt, mkState true (data s) (widgets s) (trace s ++ [MutexLock])).

Definition unlock : M unit :=
  fun s => Some (tt, mkState false (data s) (widgets s) (trace s ++ [MutexUnlock])).

(** A [QMutexLocker] that lives until the end of [body]. *)
Definition QMutexLocker {A} (body : M A) : M A :=
  lock ;; r <- body ;; unlock ;; ret r.

Definition set_data (d : gmap N WidgetsHelperData) : M unit :=
  fun s => Some (tt, mkState (mutex s) d (widgets s) (trace s)).

(** ** [QHash<WId, WidgetsHelperData>] *)

Definition QHash_contains (h : gmap N WidgetsHelperData) (k : WId) : bool :=
  match h !! k with Some _ => true | None => false end.

(** [QHash::value]: the stored value, or a default-constructed one. *)
Definition QHash_value (h : gmap N WidgetsHelperData) (k : WId) : WidgetsHelperData :=
  match h !! k with Some v => v | None => WidgetsHelperData_default end.

(** ** [QWidget] calls *)

Definition setProps (w : Widget) (f : QWidgetProps -> QWidgetProps) : M unit :=
  fun s => Some (tt, mkState (mutex s) (data s)
                       (fun w' => if Pos.eqb w' w then f (widgets s w) else widgets s w')
                       (trace s)).

Definition QWidget_size (s : State) (w : Widget) : QSize := QRect_size (geometry (widgets s w)).
Definition QWidget_width (s : State) (w : Widget) : Z := QRect_width (geometry (widgets s w)).

Definition with_windowFlags (f : Z) (p : QWidgetProps) : QWidgetProps :=
  mkProps f (geometry p) (minimumSize p) (maximumSize p) (sizePolicy p)
          (hidden p) (windowState p) (WA_DontCreateNativeAncestors p) (WA_NativeWindow p).

Definition with_geometry (g : QRect) (p : QWidgetProps) : QWidgetProps :=
  mkProps (windowFlags p) g (minimumSize p) (maximumSize p) (sizePolicy p)
          (hidden p) (windowState p) (WA_DontCreateNativeAncestors p) (WA_NativeWindow p).

Definition with_minimumSize (m : QSize) (p : QWidgetProps) : QWidgetProps :=
  mkProps (windowFlags p) (geometry p) m (maximumSize p) (sizePolicy p)
          (hidden p) (windowState p) (WA_DontCreateNativeAncestors p) (WA_NativeWindow p).

Definition with_maximumSize (m : QSize) (p : QWidgetProps) : QWidgetProps :=
  mkProps (windowFlags p) (geometry p) (minimumSize p) m (sizePolicy p)
          (hidden p) (windowState p) (WA_DontCreateNativeAncestors p) (WA_NativeWindow p).

Definition with_hidden (h : bool) (p : QWidgetProps) : QWidgetProps :=
  mkProps (windowFlags p) (geometry p) (minimumSize p) (maximumSize p) (sizePolicy p)
          h (windowState p) (WA_DontCreateNativeAncestors p) (WA_NativeWindow p).

Definition with_windowState (st : Z) (p : QWidgetProps) : QWidgetProps :=
  mkProps (windowFlags p) (geometry p) (minimumSize p) (maximumSize p) (sizePolicy p)
          (hidden p) st (WA_DontCreateNativeAncestors p) (WA_NativeWindow p).

Definition with_attributes (a b : bool) (p : QWidgetProps) : QWidgetProps :=
  mkProps (windowFlags p) (geometry p) (minimumSize p) (maximumSize p) (sizePolicy p)
          (hidden p) (windowState p) a b.

(** Sizes handed to [setMinimumSize] and [setMaximumSize] are brought into
    the range from 0 to [QWIDGETSIZE_MAX]. *)
Definition clampSize (sz : QSize) : QSize :=
  mkQSize (Z.max 0 (Z.min (wd sz) QWIDGETSIZE_MAX)) (Z.max 0 (Z.min (ht sz) QWIDGETSIZE_MAX)).

Definition resized (sz : QSize) (p : QWidgetProps) : QWidgetProps :=
  with_geometry (QRect_fromPointSize (QRect_topLeft (geometry p)) sz) p.

(** [QWidget::setMinimumSize]: the widget grows to the minimum if it is
    smaller. *)
Definition QWidget_setMinimumSize (w : Widget) (sz : QSize) : M unit :=
  setProps w (fun p =>
    let m := clampSize sz in
    resized (QSize_expandedTo (QRect_size (geometry p)) m) (with_minimumSize m p)).

(** [QWidget::setMaximumSize]: the widget shrinks to the maximum if it is
    larger. *)
Definition QWidget_setMaximumSize (w : Widget) (sz : QSize) : M unit :=
  setProps w (fun p =>
    let m := clampSize sz in
    resized (QSize_boundedTo (QRect_size (geometry p)) m) (with_maximumSize m p)).

(** [QWidget::setFixedSize]: minimum and maximum both become the size, and
    the widget takes it. *)
Definition QWidget_setFixedSize (w : Widget) (sz : QSize) : M unit :=
  setProps w (fun p =>
    let m := clampSize sz in
    resized m (with_maximumSize m (with_minimumSize m p))).

Definition QWidget_setWindowFlags (w : Widget) (f : Z) : M unit :=
  setProps w (with_windowFlags f).

Definition QWidget_move (w : Widget) (pos : QPoint) : M unit :=
  setProps w (fun p => with_geometry (QRect_fromPointSize pos (QRect_size (geometry p))) p).

Definition QWidget_isMinimized (s : State) (w : Widget) : bool :=
  QFlags_testAny (windowState (widgets s w)) WindowMinimized.

(** ** [FramelessWidgetsHelperPrivate] *)

Section Private.

Variable tk : Toolkit.
Variable q : Helper.

(** [getWindow]: the native parent of the helper's parent widget if it has
    one, otherwise that widget's window; null when the helper's parent is
    not a widget. *)
Definition getWindow : QWidgetPtr :=
  match parentWidgetOf tk q with
  | None => None
  | Some parentWidget =>
      match QWidget_nativeParentWidget tk parentWidget with
      | Some nativeParentWidget => Some nativeParentWidget
      | None => Some (QWidget_window tk parentWidget)
      end
  end.

Definition isWindowFixedSize (s : State) : bool :=
  match getWindow with
  | None => false
  | Some window =>
      let p := widgets s window in
      if QFlags_testAny (windowFlags p) MSWindowsFixedSizeDialogHint then true
      else
        let minSize := minimumSize p in
        let maxSize := maximumSize p in
        if negb (QSize_isEmpty minSize) && negb (QSize_isEmpty maxSize)
           && QSize_eqb minSize maxSize then true
        else if QSizePolicy_eqb (sizePolicy p) (QSizePolicy_make Fixed Fixed) then true
        else false
  end.

Definition setWindowFixedSize (value : bool) : M unit :=
  match getWindow with
  | None => ret tt
  | Some window =>
      s <- get ;;
      if Bool.eqb (isWindowFixedSize s) value then ret tt
      else
        (if value then
           QWidget_setFixedSize window (QWidget_size s window) ;;
           s1 <- get ;;
           QWidget_setWindowFlags window
             (Z.lor (windowFlags (widgets s1 window)) MSWindowsFixedSizeDialogHint)
         else
           QWidget_setWindowFlags window
             (Z.land (windowFlags (widgets s window)) (Z.lnot MSWindowsFixedSizeDialogHint)) ;;
           QWidget_setMinimumSize window (kDefaultWindowSize tk) ;;
           QWidget_setMaximumSize window (mkQSize QWIDGETSIZE_MAX QWIDGETSIZE_MAX)) ;;
        if Q_OS_WINDOWS tk
        then emit (SetAeroSnappingEnabled (QWidget_winId tk window) (negb value))
        else ret tt
  end.

(** [getWindowDataMutable]: a pointer into the hash, that is the key of the
    entry it points to; the entry is created when it is missing.  The
    caller holds the mutex. *)
Definition getWindowDataMutable : M (option N) :=
  match getWindow with
  | None => ret None
  | Some window =>
      let windowId := QWidget_winId tk window in
      s <- get ;;
      (if negb (QHash_contains (data s) windowId)
       then set_data (<[windowId := WidgetsHelperData_default]> (data s))
       else ret tt) ;;
      ret (Some windowId)
  end.

(** [getWindowData]: a copy of the entry; the entry is created when it is
    missing. *)
Definition getWindowData : M WidgetsHelperData :=
  match getWindow with
  | None => ret WidgetsHelperData_default
  | Some window =>
      let windowId := QWidget_winId tk window in
      QMutexLocker (
        s <- get ;;
        (if negb (QHash_contains (data s) windowId)
         then set_data (<[windowId := WidgetsHelperData_default]> (data s))
         else ret tt) ;;
        s1 <- get ;;
        ret (QHash_value (data s1) windowId))
  end.

(** Reading and writing through the pointer [getWindowDataMutable] gave. *)
Definition deref (p : N) : M WidgetsHelperData :=
  s <- get ;; ret (QHash_value (data s) p).

Definition store (p : N) (f : WidgetsHelperData -> WidgetsHelperData) : M unit :=
  s <- get ;; set_data (<[p := f (QHash_value (data s) p)]> (data s)).

Definition with_titleBarWidget (w : QWidgetPtr) (d : WidgetsHelperData) :=
  mkData (attached d) (params d) w (hitTestVisibleWidgets d)
         (windowIconButton d) (contextHelpButton d) (minimizeButton d)
         (maximizeButton d) (closeButton d).

Definition with_hitTestVisibleWidgets (l : list QWidgetPtr) (d : WidgetsHelperData) :=
  mkData (attached d) (params d) (titleBarWidget d) l
         (windowIconButton d) (contextHelpButton d) (minimizeButton d)
         (maximizeButton d) (closeButton d).

Definition with_windowIconButton (w : QWidgetPtr) (d : WidgetsHelperData) :=
  mkData (attached d) (params d) (titleBarWidget d) (hitTestVisibleWidgets d)
         w (contextHelpButton d) (minimizeButton d) (maximizeButton d) (closeButton d).

Definition with_contextHelpButton (w : QWidgetPtr) (d : WidgetsHelperData) :=
  mkData (attached d) (params d) (titleBarWidget d) (hitTestVisibleWidgets d)
         (windowIconButton d) w (minimizeButton d) (maximizeButton d) (closeButton d).

Definition with_minimizeButton (w : QWidgetPtr) (d : WidgetsHelperData) :=
  mkData (attached d) (params d) (titleBarWidget d) (hitTestVisibleWidgets d)
         (windowIconButton d) (contextHelpButton d) w (maximizeButton d) (closeButton d).

Definition with_maximizeButton (w : QWidgetPtr) (d : WidgetsHelperData) :=
  mkData (attached d) (params d) (titleBarWidget d) (hitTestVisibleWidgets d)
         (windowIconButton d) (contextHelpButton d) (minimizeButton d) w (closeButton d).

Definition with_closeButton (w : QWidgetPtr) (d : WidgetsHelperData) :=
  mkData (attached d) (params d) (titleBarWidget d) (hitTestVisibleWidgets d)
         (windowIconButton d) (contextHelpButton d) (minimizeButton d) (maximizeButton d) w.

Definition with_params (p : SystemParameters) (d : WidgetsHelperData) :=
  mkData (attached d) p (titleBarWidget d) (hitTestVisibleWidgets d)
         (windowIconButton d) (contextHelpButton d) (minimizeButton d)
         (maximizeButton d) (closeButton d).

Definition with_attached (a : bool) (d : WidgetsHelperData) :=
  mkData a (params d) (titleBarWidget d) (hitTestVisibleWidgets d)
         (windowIconButton d) (contextHelpButton d) (minimizeButton d)
         (maximizeButton d) (closeButton d).

Definition setTitleBarWidget (widget : QWidgetPtr) : M unit :=
  match widget with
  | None => ret tt
  | Some _ =>
      QMutexLocker (
        data <- getWindowDataMutable ;;
        match data with
        | None => ret tt
        | Some data =>
            d <- deref data ;;
            if QWidgetPtr_eqb (titleBarWidget d) widget then ret tt
            else
              store data (with_titleBarWidget widget) ;;
              emit (Emit_titleBarWidgetChanged q)
        end)
  end.

Definition getTitleBarWidget : M QWidgetPtr :=
  d <- getWindowData ;; ret (titleBarWidget d).

(** [QList::contains]. *)
Definition QList_contains (l : list QWidgetPtr) (w : QWidgetPtr) : bool :=
  existsb (QWidgetPtr_eqb w) l.

(** [QList::removeAll]. *)
Definition QList_removeAll (l : list QWidgetPtr) (w : QWidgetPtr) : list QWidgetPtr :=
  List.filter (fun x => negb (QWidgetPtr_eqb x w)) l.

(** [static constexpr const bool visible = true]: the branch under
    [if constexpr (!visible && exists)] is discarded when the file is
    compiled. *)
Definition visible : bool := true.

Definition setHitTestVisible (widget : QWidgetPtr) : M unit :=
  match widget with
  | None => ret tt
  | Some _ =>
      QMutexLocker (
        data <- getWindowDataMutable ;;
        match data with
        | None => ret tt
        | Some data =>
            d <- deref data ;;
            let exists_ := QList_contains (hitTestVisibleWidgets d) widget in
            (if visible && negb exists_
             then store data (fun d => with_hitTestVisibleWidgets
                                         (hitTestVisibleWidgets d ++ [widget]) d)
             else ret tt) ;;
            (if negb visible
             then (if exists_
                   then store data (fun d => with_hitTestVisibleWidgets
                                               (QList_removeAll (hitTestVisibleWidgets d) widget) d)
                   else ret tt)
             else ret tt)
        end)
  end.

Definition moveWindowToDesktopCenter : M unit :=
  match getWindow with
  | None => ret tt
  | Some window =>
      emit (MoveWindowToDesktopCenter window) ;;
      s <- get ;;
      match desktopCenterPosition tk window (QWidget_size s window) with
      | Some pos => QWidget_move window pos
      | None => ret tt
      end
  end.

Definition attachToWindow : M unit :=
  match getWindow with
  | None => ret tt
  | Some window =>
      lock ;;
      data <- getWindowDataMutable ;;
      match data with
      | None => unlock ;; ret tt
      | Some data =>
          d <- deref data ;;
          let attached := attached d in
          unlock ;;
          if attached then ret tt
          else
            setProps window (fun p => with_attributes true (WA_NativeWindow p) p) ;;
            setProps window (fun p => with_attributes (WA_DontCreateNativeAncestors p) true p) ;;
            let params := ParametersOf q window in
            lock ;;
            store data (with_params params) ;;
            store data (with_attached true) ;;
            unlock ;;
            emit (AddWindow params) ;;
            emit (SingleShot q window)
      end
  end.

(** The body of the lambda handed to [QTimer::singleShot] by
    [attachToWindow]; it runs from the event loop. *)
Definition attachToWindow_singleShot (window : Widget) : M unit :=
  (if centerWindowBeforeShow tk then moveWindowToDesktopCenter else ret tt) ;;
  setProps window (with_hidden false).

Definition mapWidgetGeometryToScene (widget : QWidgetPtr) (s : State) : QRect :=
  match widget with
  | None => QRect_default
  | Some widget =>
      match getWindow with
      | None => QRect_default
      | Some window =>
          let originPoint := QWidget_mapTo tk widget window (mkQPoint 0 0) in
          let size := QWidget_size s widget in
          QRect_fromPointSize originPoint size
      end
  end.

(** [if (ptr) { if (ptr->geometry().contains(pos)) ... }]. *)
Definition geometryContains (s : State) (ptr : QWidgetPtr) (pos : QPoint) : bool :=
  match ptr with
  | Some w => QRect_contains (geometry (widgets s w)) pos
  | None => false
  end.

(** [isInSystemButtons]: [button] is the cell the out-pointer refers to,
    [None] for a null pointer; the result pairs the return value with the
    cell after the call. *)
Definition isInSystemButtons (pos : QPoint) (button : option SystemButtonType)
  : M (bool * option SystemButtonType) :=
  match button with
  | None => ret (false, None)
  | Some _ =>
      let button := Some Unknown in
      data <- getWindowData ;;
      s <- get ;;
      if geometryContains s (windowIconButton data) pos then ret (true, Some WindowIcon)
      else if geometryContains s (contextHelpButton data) pos then ret (true, Some Help)
      else if geometryContains s (minimizeButton data) pos then ret (true, Some Minimize)
      else if geometryContains s (maximizeButton data) pos then ret (true, Some Maximize)
      else if geometryContains s (closeButton data) pos then ret (true, Some Close)
      else ret (false, button)
  end.

(** The body of both loops of [isInTitleBarDraggableArea]. *)
Definition subtractWidget (s : State) (region : QRegion) (widget : QWidgetPtr) : QRegion :=
  match widget with
  | Some _ => QRegion_subtract region (mapWidgetGeometryToScene widget s)
  | None => region
  end.

Definition isInTitleBarDraggableArea (pos : QPoint) : M bool :=
  data <- getWindowData ;;
  match titleBarWidget data with
  | None => ret false
  | Some _ =>
      s <- get ;;
      let region := QRegion_fromRect (mapWidgetGeometryToScene (titleBarWidget data) s) in
      let systemButtons := [windowIconButton data; contextHelpButton data;
                            minimizeButton data; maximizeButton data; closeButton data] in
      let region := fold_left (subtractWidget s) systemButtons region in
      let region :=
        match hitTestVisibleWidgets data with
        | [] => region
        | _ :: _ => fold_left (subtractWidget s) (hitTestVisibleWidgets data) region
        end in
      ret (QRegion_contains region pos)
  end.

Definition shouldIgnoreMouseEvents (pos : QPoint) (s : State) : bool :=
  match getWindow with
  | None => false
  | Some window =>
      let withinFrameBorder :=
        if yp pos <? kDefaultResizeBorderThickness tk then true
        else if Q_OS_WINDOWS tk && isWindowFrameBorderVisible tk then false
        else (xp pos <? kDefaultResizeBorderThickness tk)
             || (QWidget_width s window - kDefaultResizeBorderThickness tk <=? xp pos) in
      (windowStatesToWindowState tk (windowState (widgets s window)) =? WindowNoState)
      && withinFrameBorder
  end.

(** The lambda [updateButtonState] of [setSystemButtonState]. *)
Definition updateButtonState (state : ButtonState) (btn : QWidgetPtr) : M unit :=
  match btn with
  | None => ret tt
  | Some btn =>
      match state with
      | Unspecified =>
          emit (InvokeMethod btn "setPressed" (Some false)) ;;
          emit (InvokeMethod btn "setHovered" (Some false))
      | Hovered =>
          emit (InvokeMethod btn "setPressed" (Some false)) ;;
          emit (InvokeMethod btn "setHovered" (Some true))
      | Pressed =>
          emit (InvokeMethod btn "setHovered" (Some true)) ;;
          emit (InvokeMethod btn "setPressed" (Some true))
      | Clicked =>
          emit (InvokeMethod btn "setPressed" (Some false)) ;;
          emit (InvokeMethod btn "setHovered" (Some true)) ;;
          emit (InvokeMethod btn "clicked" None)
      end
  end.

Definition setSystemButtonState (button : SystemButtonType) (state : ButtonState) : M unit :=
  match button with
  | Unknown => ret tt
  | _ =>
      data <- getWindowData ;;
      let widgetButton :=
        match button with
        | Unknown => None
        | WindowIcon => windowIconButton data
        | Help => contextHelpButton data
        | Minimize => minimizeButton data
        | Maximize | Restore => maximizeButton data
        | Close => closeButton data
        end in
      match widgetButton with
      | None => ret tt
      | Some btn =>
          let pressedIndex := QMetaObject_indexOfSlot tk btn "setPressed(bool)" in
          let hoveredIndex := QMetaObject_indexOfSlot tk btn "setHovered(bool)" in
          let clickedIndex := QMetaObject_indexOfSignal tk btn "clicked()" in
          if (0 <=? pressedIndex) && (0 <=? hoveredIndex) && (0 <=? clickedIndex)
          then updateButtonState state widgetButton
          else ret tt
      end
  end.

Definition bringWindowToFront : M unit :=
  match getWindow with
  | None => ret tt
  | Some window =>
      s <- get ;;
      (if hidden (widgets s window) then setProps window (with_hidden false) else ret tt) ;;
      s1 <- get ;;
      (if QWidget_isMinimized s1 window
       then setProps window
              (with_windowState (Z.land (windowState (widgets s1 window)) (Z.lnot WindowMinimized)))
       else ret tt) ;;
      emit (Raise window) ;;
      emit (ActivateWindow window)
  end.

Definition showSystemMenu (pos : QPoint) : M unit :=
  if Q_OS_WINDOWS tk then
    match getWindow with
    | None => ret tt
    | Some window =>
        let globalPos := QWidget_mapToGlobal tk window pos in
        let nativePos := scaledToNative tk window globalPos in
        emit (ShowSystemMenu (QWidget_winId tk window) nativePos)
    end
  else ret tt.

Definition windowStartSystemMove2 (pos : QPoint) : M unit :=
  match getWindow with
  | None => ret tt
  | Some window => emit (StartSystemMove window pos)
  end.

Definition windowStartSystemResize2 (edges : Z) (pos : QPoint) : M unit :=
  match getWindow with
  | None => ret tt
  | Some window =>
      if edges =? 0 then ret tt
      else emit (StartSystemResize window edges pos)
  end.

Definition setSystemButton (widget : QWidgetPtr) (buttonType : SystemButtonType) : M unit :=
  match widget, buttonType with
  | None, _ | _, Unknown => ret tt
  | Some _, _ =>
      QMutexLocker (
        data <- getWindowDataMutable ;;
        match data with
        | None => ret tt
        | Some data =>
            match buttonType with
            | Unknown => ret tt
            | WindowIcon => store data (with_windowIconButton widget)
            | Help => store data (with_contextHelpButton widget)
            | Minimize => store data (with_minimizeButton widget)
            | Maximize | Restore => store data (with_maximizeButton widget)
            | Close => store data (with_closeButton widget)
            end
        end)
  end.

End Private.

(** ** [FramelessWidgetsHelper]

    The members of the public class repeat the guard on their argument and
    forward to the private object. *)
Module FramelessWidgetsHelper.
Section Public.

Variable tk : Toolkit.
Variable q : Helper.

Definition titleBarWidget : M QWidgetPtr := getTitleBarWidget tk q.

Definition isWindowFixedSize (s : State) : bool := isWindowFixedSize tk q s.

Definition extendsContentIntoTitleBar : M unit := ret tt.

Definition setTitleBarWidget (widget : QWidgetPtr) : M unit :=
  match widget with
  | None => ret tt
  | Some _ => setTitleBarWidget tk q widget
  end.

Definition setSystemButton (widget : QWidgetPtr) (buttonType : SystemButtonType) : M unit :=
  match widget, buttonType with
  | None, _ | _, Unknown => ret tt
  | Some _, _ => setSystemButton tk q widget buttonType
  end.

Definition setHitTestVisible (widget : QWidgetPtr) : M unit :=
  match widget with
  | None => ret tt
  | Some _ => setHitTestVisible tk q widget
  end.

Definition showSystemMenu (pos : QPoint) : M unit := showSystemMenu tk q pos.

Definition windowStartSystemMove2 (pos : QPoint) : M unit := windowStartSystemMove2 tk q pos.

Definition windowStartSystemResize2 (edges : Z) (pos : QPoint) : M unit :=
  if edges =? 0 then ret tt else windowStartSystemResize2 tk q edges pos.

Definition moveWindowToDesktopCenter : M unit := moveWindowToDesktopCenter tk q.

Definition bringWindowToFront : M unit := bringWindowToFront tk q.

Definition setWindowFixedSize (value : bool) : M unit := setWindowFixedSize tk q value.

End Public.
End FramelessWidgetsHelper.

(** ** The operations as one transition system *)

Inductive Call :=
  | Call_isWindowFixedSize
  | Call_setWindowFixedSize (value : bool)
  | Call_setTitleBarWidget (widget : QWidgetPtr)
  | Call_getTitleBarWidget
  | Call_setHitTestVisible (widget : QWidgetPtr)
  | Call_attachToWindow
  | Call_attachToWindow_singleShot (window : Widget)
  | Call_mapWidgetGeometryToScene (widget : QWidgetPtr)
  | Call_isInSystemButtons (pos : QPoint) (button : option SystemButtonType)
  | Call_isInTitleBarDraggableArea (pos : QPoint)
  | Call_shouldIgnoreMouseEvents (pos : QPoint)
  | Call_setSystemButtonState (button : SystemButtonType) (state : ButtonState)
  | Call_moveWindowToDesktopCenter
  | Call_bringWindowToFront
  | Call_showSystemMenu (pos : QPoint)
  | Call_windowStartSystemMove2 (pos : QPoint)
  | Call_windowStartSystemResize2 (edges : Z) (pos : QPoint)
  | Call_setSystemButton (widget : QWidgetPtr) (buttonType : SystemButtonType).

(** The state a call leaves, when it returns. *)
Definition after {A} (m : M A) (s : State) : option State :=
  match m s with Some (_, s') => Some s' | None => None end.

Definition exec (tk : Toolkit) (q : Helper) (c : Call) (s : State) : option State :=
  match c with
  | Call_isWindowFixedSize => Some s
  | Call_setWindowFixedSize value => after (setWindowFixedSize tk q value) s
  | Call_setTitleBarWidget widget => after (setTitleBarWidget tk q widget) s
  | Call_getTitleBarWidget => after (getTitleBarWidget tk q) s
  | Call_setHitTestVisible widget => after (setHitTestVisible tk q widget) s
  | Call_attachToWindow => after (attachToWindow tk q) s
  | Call_attachToWindow_singleShot window => after (attachToWindow_singleShot tk q window) s
  | Call_mapWidgetGeometryToScene _ => Some s
  | Call_isInSystemButtons pos button => after (isInSystemButtons tk q pos button) s
  | Call_isInTitleBarDraggableArea pos => after (isInTitleBarDraggableArea tk q pos) s
  | Call_shouldIgnoreMouseEvents _ => Some s
  | Call_setSystemButtonState button state => after (setSystemButtonState tk q button state) s
  | Call_moveWindowToDesktopCenter => after (moveWindowToDesktopCenter tk q) s
  | Call_bringWindowToFront => after (bringWindowToFront tk q) s
  | Call_showSystemMenu pos => after (showSystemMenu tk q pos) s
  | Call_windowStartSystemMove2 pos => after (windowStartSystemMove2 tk q pos) s
  | Call_windowStartSystemResize2 edges pos => after (windowStartSystemResize2 tk q edges pos) s
  | Call_setSystemButton widget buttonType => after (setSystemButton tk q widget buttonType) s
  end.

(** [Q_GLOBAL_STATIC(WidgetsHelper, g_widgetsHelper)]: the mutex is free and
    the hash is empty when the program starts. *)
Definition initial (s : State) : Prop :=
  mutex s = false /\ data s = ∅ /\ trace s = [].

(** The states the program can be in between two calls: any helper may make
    any call. *)
Inductive reachable (tk : Toolkit) : State -> Prop :=
  | reachable_initial s : initial s -> reachable tk s
  | reachable_exec s q c s' :
      reachable tk s -> exec tk q c s = Some s' -> reachable tk s'.

(** ** Views used in the statements *)

(** The entry of the helper's window, as [getWindowData] would return it. *)
Definition windowData (tk : Toolkit) (q : Helper) (s : State) : WidgetsHelperData :=
  match getWindow tk q with
  | Some window => QHash_value (data s) (QWidget_winId tk window)
  | None => WidgetsHelperData_default
  end.

(** The hash after a lookup that creates the entry it misses. *)
Definition ensured (h : gmap N WidgetsHelperData) (k : WId) : gmap N WidgetsHelperData :=
  if QHash_contains h k then h else <[k := WidgetsHelperData_default]> h.

Definition is_mutex_event (e : Event) : bool :=
  match e with MutexLock | MutexUnlock => true | _ => false end.

(** The calls of a trace that leave the module. *)
Definition effects (t : list Event) : list Event :=
  List.filter (fun e => negb (is_mutex_event e)) t.

(** Nothing was changed between [s] and [s']: same hash, same widgets, the
    mutex as it was, and no call left the module. *)
Definition unchanged (s s' : State) : Prop :=
  data s' = data s /\ widgets s' = widgets s /\ mutex s' = mutex s
  /\ effects (trace s') = effects (trace s).

(** The five system buttons of an entry, as the loop visits them. *)
Definition systemButtons (d : WidgetsHelperData) : list QWidgetPtr :=
  [windowIconButton d; contextHelpButton d; minimizeButton d;
   maximizeButton d; closeButton d].

(** The buttons of an entry with the type each is reported as, in the order
    window icon, help, minimize, maximize, close. *)
Definition buttonOrder (d : WidgetsHelperData) : list (QWidgetPtr * SystemButtonType) :=
  [(windowIconButton d, WindowIcon); (contextHelpButton d, Help);
   (minimizeButton d, Minimize); (maximizeButton d, Maximize);
   (closeButton d, Close)].

(** A button class that declares the two slots and the signal the helper
    drives. *)
Definition exposesButtonInterface (tk : Toolkit) (btn : Widget) : Prop :=
  0 <= QMetaObject_indexOfSlot tk btn "setPressed(bool)"
  /\ 0 <= QMetaObject_indexOfSlot tk btn "setHovered(bool)"
  /\ 0 <= QMetaObject_indexOfSignal tk btn "clicked()".

(** The mutex operations of a trace. *)
Definition syncs (t : list Event) : list Event := List.filter is_mutex_event t.

(** [k] critical sections, one after the other. *)
Fixpoint criticalSections (k : nat) : list Event :=
  match k with
  | O => []
  | S k => MutexLock :: MutexUnlock :: criticalSections k
  end.

(** A list of hit-test-visible widgets that was only appended to, and that
    is still without duplicates, and without null pointer, if it was. *)
Definition grows (l l' : list QWidgetPtr) : Prop :=
  (exists more, l' = l ++ more)
  /\ (List.NoDup l -> List.NoDup l')
  /\ (~ In None l -> ~ In None l').

(** What a call of helper [q] may have done between two states in which the
    mutex is free: it released the mutex as often as it locked it, it wrote
    to no entry of the hash but that of its window, and it removed no
    hit-test-visible widget. *)
Definition step_ok (tk : Toolkit) (q : Helper) (s s' : State) : Prop :=
  mutex s' = false
  /\ (exists k, syncs (trace s') = syncs (trace s) ++ criticalSections k)
  /\ (forall wid, (forall window, getWindow tk q = Some window ->
                                  wid <> QWidget_winId tk window) ->
                  data s' !! wid = data s !! wid)
  /\ (forall wid, grows (hitTestVisibleWidgets (QHash_value (data s) wid))
                        (hitTestVisibleWidgets (QHash_value (data s') wid))).

(** An operation that, called with the mutex free, returns with it free. *)
Definition sound (tk : Toolkit) (q : Helper) {A} (m : M A) : Prop :=
  forall s, mutex s = false -> exists a s', m s = Some (a, s') /\ step_ok tk q s s'.

(** The calls that never reach the global hash. *)
Definition reachesHash (c : Call) : bool :=
  match c with
  | Call_setTitleBarWidget _ | Call_getTitleBarWidget | Call_setHitTestVisible _
  | Call_attachToWindow | Call_isInSystemButtons _ _
  | Call_isInTitleBarDraggableArea _ | Call_setSystemButtonState _ _
  | Call_setSystemButton _ _ => true
  | _ => false
  end.

(** The field [setSystemButton] writes for a button type. *)
Definition with_button (buttonType : SystemButtonType) (widget : QWidgetPtr)
    (d : WidgetsHelperData) : WidgetsHelperData :=
  match buttonType with
  | Unknown => d
  | WindowIcon => with_windowIconButton widget d
  | Help => with_contextHelpButton widget d
  | Minimize => with_minimizeButton widget d
  | Maximize | Restore => with_maximizeButton widget d
  | Close => with_closeButton widget d
  end.

(** The calls that construct the [QMutexLocker] of the three setters: the
    widget is not null (and the button type is known). *)
Definition constructsLocker (c : Call) : bool :=
  match c with
  | Call_setTitleBarWidget (Some _) | Call_setHitTestVisible (Some _) => true
  | Call_setSystemButton (Some _) Unknown => false
  | Call_setSystemButton (Some _) _ => true
  | _ => false
  end.

(** The critical sections a call on a helper whose window resolves makes
    through [getWindowData]: one, and none when [getWindow] gives no window
    ([getWindowData] returns before it constructs its [QMutexLocker]). *)
Definition windowSections (tk : Toolkit) (q : Helper) : nat :=
  match getWindow tk q with
  | Some _ => 1
  | None => 0
  end.

(** The critical sections of a call made in state [s], read off the
    operations: the three setters construct their [QMutexLocker] after the
    check of their arguments and before they look for the window; the
    readers lock in [getWindowData] only, [isInSystemButtons] after the
    check of its out-pointer and [setSystemButtonState] after the check of
    the button type; [attachToWindow] locks once to read [attached] and
    once more to write when the window is not attached yet; the other
    operations have no lock in their text. *)
Definition lockCount (tk : Toolkit) (q : Helper) (c : Call) (s : State) : nat :=
  match c with
  | Call_setTitleBarWidget (Some _) | Call_setHitTestVisible (Some _) => 1
  | Call_setSystemButton (Some _) buttonType =>
      match buttonType with Unknown => 0 | _ => 1 end
  | Call_getTitleBarWidget | Call_isInTitleBarDraggableArea _
  | Call_isInSystemButtons _ (Some _) => windowSections tk q
  | Call_setSystemButtonState button _ =>
      match button with Unknown => 0 | _ => windowSections tk q end
  | Call_attachToWindow =>
      match getWindow tk q with
      | None => 0
      | Some _ => if attached (windowData tk q s) then 1 else 2
      end
  | _ => 0
  end.

(** An operation that never touches the mutex or the hash. *)
Definition lockfree {A} (m : M A) : Prop :=
  forall s, exists a s',
    m s = Some (a, s') /\ mutex s' = mutex s /\ data s' = data s
    /\ syncs (trace s') = syncs (trace s).

(** ** Further views, for the properties beyond the claims *)

(** The pure part of [isInTitleBarDraggableArea]: the answer for an entry
    [d] of the hash, the widgets being as in [s]. *)
Definition draggableArea (tk : Toolkit) (q : Helper) (d : WidgetsHelperData)
    (s : State) (pos : QPoint) : bool :=
  match titleBarWidget d with
  | None => false
  | Some _ =>
      let region := QRegion_fromRect (mapWidgetGeometryToScene tk q (titleBarWidget d) s) in
      let region := fold_left (subtractWidget tk q s) (systemButtons d) region in
      let region := fold_left (subtractWidget tk q s) (hitTestVisibleWidgets d) region in
      QRegion_contains region pos
  end.

(** What an entry never loses: its attached flag, and having a title bar
    and each of its buttons. *)
Definition persists (d d' : WidgetsHelperData) : Prop :=
  (attached d = true -> attached d' = true)
  /\ (titleBarWidget d <> None -> titleBarWidget d' <> None)
  /\ (windowIconButton d <> None -> windowIconButton d' <> None)
  /\ (contextHelpButton d <> None -> contextHelpButton d' <> None)
  /\ (minimizeButton d <> None -> minimizeButton d' <> None)
  /\ (maximizeButton d <> None -> maximizeButton d' <> None)
  /\ (closeButton d <> None -> closeButton d' <> None).

(** Between [s] and [s']: no entry of the hash was removed or lost what
    [persists] lists, no widget outside [allowed] was changed, and no event
    selected by [p] was produced. *)
Definition step_keeps (allowed : Widget -> Prop) (p : Event -> bool) (s s' : State) : Prop :=
  (forall wid, data s !! wid <> None -> data s' !! wid <> None)
  /\ (forall wid, persists (QHash_value (data s) wid) (QHash_value (data s') wid))
  /\ (forall w, ~ allowed w -> widgets s' w = widgets s w)
  /\ List.filter p (trace s') = List.filter p (trace s).

Definition keeps (allowed : Widget -> Prop) (p : Event -> bool) {A} (m : M A) : Prop :=
  forall s a s', m s = Some (a, s') -> step_keeps allowed p s s'.

(** The calls that write a property of a widget. *)
Definition changesWidgets (c : Call) : bool :=
  match c with
  | Call_setWindowFixedSize _ | Call_attachToWindow | Call_attachToWindow_singleShot _
  | Call_moveWindowToDesktopCenter | Call_bringWindowToFront => true
  | _ => false
  end.

(** The widgets a call of helper [q] may change: none unless the call is
    one of [changesWidgets], and then the helper's window, and for the
    deferred part of [attachToWindow] the window it was given. *)
Definition mayChange (tk : Toolkit) (q : Helper) (c : Call) (w : Widget) : Prop :=
  changesWidgets c = true
  /\ (getWindow tk q = Some w \/ c = Call_attachToWindow_singleShot w).

Definition isTitleBarWidgetChanged (e : Event) : bool :=
  match e with Emit_titleBarWidgetChanged _ => true | _ => false end.

Definition isRegistration (e : Event) : bool :=
  match e with AddWindow _ | SingleShot _ _ => true | _ => false end.

(** The signal of the helper, and the two calls by which a window is handed
    to the [FramelessManager] and its first show is scheduled. *)
Definition isSignalOrRegistration (e : Event) : bool :=
  match e with
  | Emit_titleBarWidgetChanged _ | AddWindow _ | SingleShot _ _ => true
  | _ => false
  end.

(** [FramelessManager::addWindow] for a window with the given window id. *)
Definition isAddWindowFor (tk : Toolkit) (wid : WId) (e : Event) : bool :=
  match e with
  | AddWindow (ParametersOf _ window) => N.eqb (QWidget_winId tk window) wid
  | _ => false
  end.

Definition countAddWindow (tk : Toolkit) (wid : WId) (t : list Event) : nat :=
  length (List.filter (isAddWindowFor tk wid) t).

(** ** A window with a title bar, used to run the definitions

    Widget 1 is a top-level window, 2 its title bar, 3 to 7 the minimize,
    maximize, close, icon and help buttons in the title bar, 8 a search box
    in the title bar; widget 9 is a second top-level window.  Helper 1
    belongs to window 1, helper 3 to window 9, and helper 2 has a parent
    that is not a widget. *)
Module Demo.

Definition offset (w : Widget) : QPoint :=
  match w with
  | 3%positive => mkQPoint 710 0
  | 4%positive => mkQPoint 740 0
  | 5%positive => mkQPoint 770 0
  | 6%positive => mkQPoint 0 0
  | 7%positive => mkQPoint 680 0
  | 8%positive => mkQPoint 300 5
  | _ => mkQPoint 0 0
  end.

Definition extent (w : Widget) : QSize :=
  match w with
  | 1%positive | 9%positive => mkQSize 800 600
  | 2%positive => mkQSize 800 30
  | 8%positive => mkQSize 200 20
  | _ => mkQSize 30 30
  end.

Definition tk : Toolkit := {|
  parentWidgetOf := fun q =>
    match q with
    | 1%positive => Some 1%positive
    | 3%positive => Some 9%positive
    | _ => None
    end;
  QWidget_nativeParentWidget := fun _ => None;
  QWidget_window := fun w => match w with 9%positive => 9%positive | _ => 1%positive end;
  QWidget_winId := fun w => Npos w;
  QWidget_mapTo := fun w _ p => mkQPoint (xp (offset w) + xp p) (yp (offset w) + yp p);
  QWidget_mapToGlobal := fun _ p => mkQPoint (100 + xp p) (100 + yp p);
  scaledToNative := fun _ p => p;
  QMetaObject_indexOfSlot := fun w _ =>
    match w with 3%positive | 4%positive | 5%positive => 5 | _ => -1 end;
  QMetaObject_indexOfSignal := fun w _ =>
    match w with 3%positive | 4%positive | 5%positive => 2 | _ => -1 end;
  Q_OS_WINDOWS := true;
  kDefaultWindowSize := mkQSize 160 160;
  kDefaultResizeBorderThickness := 8;
  isWindowFrameBorderVisible := false;
  windowStatesToWindowState := fun st => st;
  centerWindowBeforeShow := false;
  desktopCenterPosition := fun _ _ => None
|}.

Definition props (w : Widget) : QWidgetProps := {|
  windowFlags := 1;
  geometry := QRect_fromPointSize (offset w) (extent w);
  minimumSize := mkQSize 0 0;
  maximumSize := mkQSize QWIDGETSIZE_MAX QWIDGETSIZE_MAX;
  sizePolicy := QSizePolicy_make Preferred Preferred;
  hidden := false;
  windowState := 0;
  WA_DontCreateNativeAncestors := false;
  WA_NativeWindow := false
|}.

(** The program at start-up. *)
Definition s0 : State := mkState false ∅ props [].

(** The same, window 1 having been given the size policy (Fixed, Fixed). *)
Definition s0_fixedPolicy : State :=
  mkState false ∅
    (fun w => match w with
              | 1%positive =>
                  mkProps 1 (geometry (props w)) (minimumSize (props w))
                    (maximumSize (props w)) (QSizePolicy_make Fixed Fixed) false 0 false false
              | _ => props w
              end)
    [].

(** Run a list of calls of helper 1. *)
Fixpoint run (cs : list Call) (s : State) : option State :=
  match cs with
  | [] => Some s
  | c :: cs => match exec tk 1%positive c s with
               | Some s' => run cs s'
               | None => None
               end
  end.

(** Window 1 with its title bar, three buttons and the search box
    registered. *)
Definition s_titled : State :=
  match run [Call_setTitleBarWidget (Some 2%positive);
             Call_setSystemButton (Some 3%positive) Minimize;
             Call_setSystemButton (Some 4%positive) Maximize;
             Call_setSystemButton (Some 5%positive) Close;
             Call_setHitTestVisible (Some 8%positive)] s0 with
  | Some s => s
  | None => s0
  end.

End Demo.

(** A second set-up: as [Demo], with a helper 4 whose parent is the title
    bar, widget 2, so that helpers 1 and 4 have the same window; and the
    state after helper 1 has attached its window. *)
Module Demo2.

Definition tk : Toolkit := {|
  parentWidgetOf := fun q =>
    match q with
    | 4%positive => Some 2%positive
    | _ => parentWidgetOf Demo.tk q
    end;
  QWidget_nativeParentWidget := QWidget_nativeParentWidget Demo.tk;
  QWidget_window := QWidget_window Demo.tk;
  QWidget_winId := QWidget_winId Demo.tk;
  QWidget_mapTo := QWidget_mapTo Demo.tk;
  QWidget_mapToGlobal := QWidget_mapToGlobal Demo.tk;
  scaledToNative := scaledToNative Demo.tk;
  QMetaObject_indexOfSlot := QMetaObject_indexOfSlot Demo.tk;
  QMetaObject_indexOfSignal := QMetaObject_indexOfSignal Demo.tk;
  Q_OS_WINDOWS := Q_OS_WINDOWS Demo.tk;
  kDefaultWindowSize := kDefaultWindowSize Demo.tk;
  kDefaultResizeBorderThickness := kDefaultResizeBorderThickness Demo.tk;
  isWindowFrameBorderVisible := isWindowFrameBorderVisible Demo.tk;
  windowStatesToWindowState := windowStatesToWindowState Demo.tk;
  centerWindowBeforeShow := centerWindowBeforeShow Demo.tk;
  desktopCenterPosition := desktopCenterPosition Demo.tk
|}.

Definition s_attached : State :=
  match exec Demo.tk 1 Call_attachToWindow Demo.s0 with
  | Some s => s
  | None => Demo.s0
  end.

End Demo2.

(** * Properties *)

(** ** Rectangles and regions *)

Lemma QRect_insideb_spec r p : QRect_insideb r p = true <-> QRect_inside r p.
Proof.
  unfold QRect_insideb, QRect_inside.
  rewrite !andb_true_iff, !Z.leb_le. tauto.
Qed.

Lemma QRect_inside_nonempty r p : QRect_inside r p -> QRect_isEmpty r = false.
Proof.
  unfold QRect_inside, QRect_isEmpty. intros [Hx Hy].
  apply orb_false_iff. split; apply Z.ltb_ge; lia.
Qed.

Lemma QRegion_fromRect_spec r p : QRegion_fromRect r p = true <-> QRect_inside r p.
Proof.
  unfold QRegion_fromRect. split.
  - intros H. apply andb_true_iff in H as [_ H]. now apply QRect_insideb_spec.
  - intros H. rewrite (QRect_inside_nonempty r p H). now apply QRect_insideb_spec.
Qed.

Lemma QRect_size_fromPointSize p sz : QRect_size (QRect_fromPointSize p sz) = sz.
Proof.
  destruct p, sz. unfold QRect_size, QRect_width, QRect_height, QRect_fromPointSize.
  simpl. f_equal; lia.
Qed.

Lemma QRect_topLeft_fromPointSize p sz : QRect_topLeft (QRect_fromPointSize p sz) = p.
Proof. now destruct p. Qed.

(** For a size that is not negative, [QRect::contains] and membership in the
    region of the rectangle agree. *)
Lemma QRect_contains_fromPointSize p sz pos :
  0 <= wd sz -> 0 <= ht sz ->
  QRect_contains (QRect_fromPointSize p sz) pos
  = QRegion_fromRect (QRect_fromPointSize p sz) pos.
Proof.
  intros Hw Hh.
  unfold QRect_contains, QRegion_fromRect, QRect_isNull, QRect_isEmpty,
    QRect_insideb, QRect_fromPointSize; simpl.
  repeat match goal with
         | |- context [?a =? ?b] => destruct (Z.eqb_spec a b)
         | |- context [?a <? ?b] => destruct (Z.ltb_spec a b)
         | |- context [?a <=? ?b] => destruct (Z.leb_spec a b)
         end; simpl; try reflexivity; try lia.
Qed.

Section Facts.

Variable tk : Toolkit.
Variable q : Helper.

(** ** The hash *)

Lemma QHash_value_ensured h k k' : QHash_value (ensured h k) k' = QHash_value h k'.
Proof.
  unfold ensured, QHash_contains, QHash_value.
  destruct (h !! k) eqn:E; [reflexivity|].
  destruct (decide (k = k')) as [->|Hne].
  - now rewrite lookup_insert_eq, E.
  - now rewrite lookup_insert_ne.
Qed.

Lemma lookup_ensured_ne h k k' : k <> k' -> ensured h k !! k' = h !! k'.
Proof.
  intros Hne. unfold ensured. destruct (QHash_contains h k); [reflexivity|].
  now apply lookup_insert_ne.
Qed.

Lemma ensured_contains h k : QHash_contains h k = true -> ensured h k = h.
Proof. intros H. unfold ensured. now rewrite H. Qed.

Lemma QHash_contains_ensured h k : QHash_contains (ensured h k) k = true.
Proof.
  unfold ensured. destruct (QHash_contains h k) eqn:E; [exact E|].
  unfold QHash_contains. now rewrite lookup_insert_eq.
Qed.

Lemma QHash_value_insert h k v : QHash_value (<[k := v]> h) k = v.
Proof. unfold QHash_value. now rewrite lookup_insert_eq. Qed.

Lemma QHash_value_insert_ne h k k' v :
  k <> k' -> QHash_value (<[k := v]> h) k' = QHash_value h k'.
Proof. intros Hne. unfold QHash_value. now rewrite lookup_insert_ne. Qed.

(** ** What [getWindowDataMutable] and [getWindowData] do *)

Lemma getWindowDataMutable_null s :
  getWindow tk q = None -> getWindowDataMutable tk q s = Some (None, s).
Proof. intros H. unfold getWindowDataMutable. now rewrite H. Qed.

Lemma getWindowDataMutable_run window s :
  getWindow tk q = Some window ->
  getWindowDataMutable tk q s
  = Some (Some (QWidget_winId tk window),
          mkState (mutex s) (ensured (data s) (QWidget_winId tk window))
                  (widgets s) (trace s)).
Proof.
  intros H. unfold getWindowDataMutable. rewrite H.
  unfold bind, get, ret, set_data, ensured.
  destruct (QHash_contains (data s) (QWidget_winId tk window)); simpl; [|reflexivity].
  now destruct s.
Qed.

Lemma getWindowData_null s :
  getWindow tk q = None -> getWindowData tk q s = Some (WidgetsHelperData_default, s).
Proof. intros H. unfold getWindowData. now rewrite H. Qed.

Lemma getWindowData_run window s :
  getWindow tk q = Some window -> mutex s = false ->
  getWindowData tk q s
  = Some (windowData tk q s,
          mkState false (ensured (data s) (QWidget_winId tk window))
                  (widgets s) (trace s ++ [MutexLock; MutexUnlock])).
Proof.
  intros H Hm. unfold getWindowData, windowData. rewrite H.
  unfold QMutexLocker, bind, lock, unlock, get, ret, set_data. rewrite Hm. simpl.
  pose proof (QHash_value_ensured (data s) (QWidget_winId tk window)
                (QWidget_winId tk window)) as Hv.
  unfold ensured in *.
  destruct (QHash_contains (data s) (QWidget_winId tk window)); simpl in *;
    rewrite <- app_assoc; simpl; now rewrite ?Hv.
Qed.

(** [getWindowData] blocks when the mutex is held and there is a window. *)
Lemma getWindowData_blocked window s :
  getWindow tk q = Some window -> mutex s = true -> getWindowData tk q s = None.
Proof.
  intros H Hm. unfold getWindowData. rewrite H.
  unfold QMutexLocker, bind, lock. now rewrite Hm.
Qed.

End Facts.

(** ** Geometry mapping *)

Section Geometry.

Variable tk : Toolkit.
Variable q : Helper.

(** C6. For a non-null widget and a helper whose window [getWindow]
    resolves, [mapWidgetGeometryToScene] returns the rectangle whose top
    left corner is the widget's point (0,0) mapped with [QWidget::mapTo]
    into that window and whose size is the widget's size; for a null widget
    and for a helper without a window it returns the default rectangle,
    which is empty.  The window is the top-level window of the helper's
    parent widget, unless that widget has a native parent, which then
    stands for it. *)
Theorem mapWidgetGeometryToScene_adapter (s : State) :
  (forall widget window,
     getWindow tk q = Some window ->
     let r := mapWidgetGeometryToScene tk q (Some widget) s in
     QRect_topLeft r = QWidget_mapTo tk widget window (mkQPoint 0 0)
     /\ QRect_size r = QWidget_size s widget)
  /\ mapWidgetGeometryToScene tk q None s = QRect_default
  /\ (getWindow tk q = None ->
      forall widget, mapWidgetGeometryToScene tk q widget s = QRect_default)
  /\ QRect_isEmpty QRect_default = true
  /\ (forall parentWidget,
        parentWidgetOf tk q = Some parentWidget ->
        getWindow tk q
        = Some (match QWidget_nativeParentWidget tk parentWidget with
                | Some nativeParentWidget => nativeParentWidget
                | None => QWidget_window tk parentWidget
                end)).
Proof.
  repeat split.
  - unfold mapWidgetGeometryToScene. rewrite H.
    apply QRect_topLeft_fromPointSize.
  - unfold mapWidgetGeometryToScene. rewrite H.
    apply QRect_size_fromPointSize.
  - intros H [w|]; unfold mapWidgetGeometryToScene; [now rewrite H | reflexivity].
  - intros parentWidget Hp. unfold getWindow. rewrite Hp.
    now destruct (QWidget_nativeParentWidget tk parentWidget).
Qed.

(** ** The draggable part of the title bar *)

(** A point is left in the region after the loop exactly when it was in the
    region before and in none of the rectangles taken away. *)
Lemma fold_subtractWidget s l : forall region pos,
  fold_left (subtractWidget tk q s) l region pos = true <->
  region pos = true
  /\ forall w, In (Some w) l ->
       ~ QRect_inside (mapWidgetGeometryToScene tk q (Some w) s) pos.
Proof.
  induction l as [|a l IH]; intros region pos; cbn [fold_left In].
  - split; [intros H; split; [exact H | intros w []] | now intros [H _]].
  - rewrite IH. destruct a as [w|]; cbn [subtractWidget].
    + unfold QRegion_subtract at 1. rewrite andb_true_iff, negb_true_iff.
      split.
      * intros [[Hr Hn] Hl]. split; [exact Hr|].
        intros w' [Hw|Hw]; [|now apply Hl].
        injection Hw as <-. intros Hin.
        apply QRegion_fromRect_spec in Hin. congruence.
      * intros [Hr Hl]. split; [split; [exact Hr|] | intros w' Hw; apply Hl; now right].
        destruct (QRegion_fromRect (mapWidgetGeometryToScene tk q (Some w) s) pos) eqn:E;
          [|reflexivity].
        exfalso. apply (Hl w); [now left | now apply QRegion_fromRect_spec].
    + split.
      * intros [Hr Hl]. split; [exact Hr|].
        intros w' [Hw|Hw]; [discriminate | now apply Hl].
      * intros [Hr Hl]. split; [exact Hr | intros w' Hw; apply Hl; now right].
Qed.

(** C1. Called with the mutex free, [isInTitleBarDraggableArea] returns, and
    it returns true exactly when the entry of the helper's window has a
    title bar widget, the point is inside the title bar's rectangle mapped
    to the window, and it is inside the mapped rectangle of no non-null
    system button of the entry and of no widget of the entry's
    hit-test-visible list. *)
Theorem isInTitleBarDraggableArea_iff (pos : QPoint) (s : State) :
  mutex s = false ->
  exists b s',
    isInTitleBarDraggableArea tk q pos s = Some (b, s')
    /\ (b = true <->
        exists titleBar,
          titleBarWidget (windowData tk q s) = Some titleBar
          /\ QRect_inside (mapWidgetGeometryToScene tk q (Some titleBar) s) pos
          /\ (forall button, In (Some button) (systemButtons (windowData tk q s)) ->
                ~ QRect_inside (mapWidgetGeometryToScene tk q (Some button) s) pos)
          /\ (forall widget, In (Some widget) (hitTestVisibleWidgets (windowData tk q s)) ->
                ~ QRect_inside (mapWidgetGeometryToScene tk q (Some widget) s) pos)).
Proof.
  intros Hm. unfold isInTitleBarDraggableArea, bind.
  destruct (getWindow tk q) as [window|] eqn:Hw.
  - rewrite (getWindowData_run tk q window s Hw Hm).
    set (d := windowData tk q s).
    set (s1 := mkState false _ _ _).
    assert (Hmap : forall w, mapWidgetGeometryToScene tk q w s1 = mapWidgetGeometryToScene tk q w s)
      by reflexivity.
    assert (Hfold : forall l region p,
               fold_left (subtractWidget tk q s1) l region p
               = fold_left (subtractWidget tk q s) l region p).
    { induction l as [|a l IH]; intros region p; simpl; [reflexivity|].
      rewrite IH. reflexivity. }
    destruct (titleBarWidget d) as [tb|] eqn:Htb.
    + unfold get, ret, QRegion_contains. eexists _, s1. split; [reflexivity|].
      rewrite Hmap.
      assert (Hhit : forall region,
                 match hitTestVisibleWidgets d with
                 | [] => region
                 | _ :: _ => fold_left (subtractWidget tk q s1) (hitTestVisibleWidgets d) region
                 end pos
                 = fold_left (subtractWidget tk q s) (hitTestVisibleWidgets d) region pos).
      { intros region. destruct (hitTestVisibleWidgets d); [reflexivity | apply Hfold]. }
      rewrite Hhit, fold_subtractWidget, Hfold, fold_subtractWidget, QRegion_fromRect_spec.
      split.
      * intros [[Hin Hb] Hh]. exists tb. auto.
      * intros (tb' & Heq & Hin & Hb & Hh). injection Heq as <-. auto.
    + unfold ret. eexists false, s1. split; [reflexivity|].
      split; [discriminate|]. intros (tb & Heq & _). discriminate.
  - rewrite (getWindowData_null tk q s Hw). simpl. unfold ret.
    eexists false, s. split; [reflexivity|].
    split; [discriminate|].
    intros (tb & Heq & _). unfold windowData in Heq. rewrite Hw in Heq. discriminate.
Qed.

End Geometry.

(** ** System buttons *)

Section Buttons.

Variable tk : Toolkit.
Variable q : Helper.

Lemma isInSystemButtons_run pos v0 s :
  mutex s = false ->
  exists s',
    isInSystemButtons tk q pos (Some v0) s
    = Some (match List.find (fun e => geometryContains s (fst e) pos)
                            (buttonOrder (windowData tk q s)) with
            | Some (_, type) => (true, Some type)
            | None => (false, Some Unknown)
            end, s')
    /\ widgets s' = widgets s /\ mutex s' = false.
Proof.
  intros Hm. unfold isInSystemButtons, bind.
  destruct (getWindow tk q) as [window|] eqn:Hw.
  - rewrite (getWindowData_run tk q window s Hw Hm).
    set (d := windowData tk q s). set (s1 := mkState false _ _ _).
    unfold get, ret. eexists s1. split; [|split; reflexivity].
    f_equal. f_equal.
    assert (Hg : forall ptr, geometryContains s1 ptr pos = geometryContains s ptr pos)
      by reflexivity.
    rewrite !Hg. unfold buttonOrder. cbn [List.find fst].
    repeat match goal with
           | |- context [geometryContains s ?p pos] =>
               destruct (geometryContains s p pos); try reflexivity
           end.
  - rewrite (getWindowData_null tk q s Hw).
    assert (Hd : windowData tk q s = WidgetsHelperData_default)
      by (unfold windowData; now rewrite Hw).
    rewrite Hd. unfold get, ret. simpl. eexists s. repeat split. exact Hm.
Qed.

(** C9. Called with a non-null out-pointer and the mutex free,
    [isInSystemButtons] returns, and neither the return value nor the value
    left in [*button] depends on what [*button] held before.  If the point
    is in the geometry of no registered button, it returns false and leaves
    [Unknown] in [*button].  Otherwise it returns true and leaves the type
    of the first button, in the order window icon, help, minimize,
    maximize, close, whose geometry contains the point: no earlier button
    in that order contains it. *)
Theorem isInSystemButtons_priority (pos : QPoint) (v0 : SystemButtonType) (s : State) :
  mutex s = false ->
  exists r out s',
    isInSystemButtons tk q pos (Some v0) s = Some ((r, Some out), s')
    /\ (forall v1, isInSystemButtons tk q pos (Some v1) s = Some ((r, Some out), s'))
    /\ ((forall e, In e (buttonOrder (windowData tk q s)) ->
           geometryContains s (fst e) pos = false) ->
        r = false /\ out = Unknown)
    /\ ((exists e, In e (buttonOrder (windowData tk q s))
                   /\ geometryContains s (fst e) pos = true) ->
        r = true
        /\ exists before ptr after,
             buttonOrder (windowData tk q s) = before ++ (ptr, out) :: after
             /\ geometryContains s ptr pos = true
             /\ forall e, In e before -> geometryContains s (fst e) pos = false).
Proof.
  intros Hm.
  assert (Hsame : forall v1, isInSystemButtons tk q pos (Some v1) s
                             = isInSystemButtons tk q pos (Some v0) s) by reflexivity.
  destruct (isInSystemButtons_run pos v0 s Hm) as (s' & Hrun & _ & _).
  set (l := buttonOrder (windowData tk q s)) in *.
  set (f := fun e : QWidgetPtr * SystemButtonType => geometryContains s (fst e) pos) in *.
  assert (Hfind : forall l0,
             match List.find f l0 with
             | Some (ptr, type) =>
                 exists before after, l0 = before ++ (ptr, type) :: after
                                      /\ f (ptr, type) = true
                                      /\ forall e, In e before -> f e = false
             | None => forall e, In e l0 -> f e = false
             end).
  { induction l0 as [|a l0 IH]; cbn [List.find].
    - intros e [].
    - destruct (f a) eqn:Ea.
      + destruct a as [ptr type]. exists [], l0. repeat split; [exact Ea | intros e []].
      + destruct (List.find f l0) as [[ptr type]|].
        * destruct IH as (before & after & -> & Hf & Hb).
          exists (a :: before), after. repeat split; [exact Hf|].
          intros e [<-|He]; [exact Ea | now apply Hb].
        * intros e [<-|He]; [exact Ea | now apply IH]. }
  specialize (Hfind l).
  destruct (List.find f l) as [[ptr type]|] eqn:Ef.
  - exists true, type, s'. split; [exact Hrun|]. split; [intros v1; now rewrite Hsame|].
    destruct Hfind as (before & after & Hl & Hf & Hb).
    split.
    + intros Hnone. exfalso.
      assert (Hin : In (ptr, type) l) by (rewrite Hl; apply in_elt).
      specialize (Hnone _ Hin). unfold f in Hf. congruence.
    + intros _. split; [reflexivity|]. exists before, ptr, after. auto.
  - exists false, Unknown, s'. split; [exact Hrun|]. split; [intros v1; now rewrite Hsame|].
    split; [auto|].
    intros (e & Hin & He). specialize (Hfind e Hin). unfold f in Hfind. congruence.
Qed.

(** The widget a button type is dispatched to. *)
Lemma setSystemButtonState_run button state s :
  mutex s = false -> button <> Unknown ->
  forall window btn,
    getWindow tk q = Some window ->
    In (button, Some btn)
       [(WindowIcon, windowIconButton (windowData tk q s));
        (Help, contextHelpButton (windowData tk q s));
        (Minimize, minimizeButton (windowData tk q s));
        (Maximize, maximizeButton (windowData tk q s));
        (Restore, maximizeButton (windowData tk q s));
        (Close, closeButton (windowData tk q s))] ->
    exposesButtonInterface tk btn ->
    setSystemButtonState tk q button state s
    = updateButtonState state (Some btn)
        (mkState false (ensured (data s) (QWidget_winId tk window)) (widgets s)
                 (trace s ++ [MutexLock; MutexUnlock])).
Proof.
  intros Hm Hu window btn Hw Hin (Hp & Hh & Hc).
  apply Z.leb_le in Hp, Hh, Hc.
  pose proof (getWindowData_run tk q window s Hw Hm) as Hrun.
  set (d := windowData tk q s) in *.
  cbn [In] in Hin.
  destruct Hin as [H|[H|[H|[H|[H|[H|[]]]]]]]; injection H as <- Hb;
    unfold setSystemButtonState, bind; rewrite Hrun, Hb, Hp, Hh, Hc; reflexivity.
Qed.

(** C2. For a helper with a window, a button type whose stored widget is
    [btn] ([Maximize] and [Restore] both name the stored maximize button),
    and [btn] declaring [setPressed(bool)], [setHovered(bool)] and
    [clicked()]: called with the mutex free, [setSystemButtonState] returns
    having changed no widget, and after the one lock and unlock of the
    lookup it has invoked on [btn], in this order, [setPressed(false)] and
    [setHovered(false)] for [Unspecified]; [setPressed(false)] and
    [setHovered(true)] for [Hovered]; [setHovered(true)] and
    [setPressed(true)] for [Pressed]; [setPressed(false)],
    [setHovered(true)] and [clicked()] for [Clicked]; and nothing else.
    [Maximize] and [Restore] give the same result in every state. *)
Theorem setSystemButtonState_dispatch (button : SystemButtonType) (state : ButtonState)
    (s : State) (window btn : Widget) :
  mutex s = false ->
  getWindow tk q = Some window ->
  In (button, Some btn)
     [(WindowIcon, windowIconButton (windowData tk q s));
      (Help, contextHelpButton (windowData tk q s));
      (Minimize, minimizeButton (windowData tk q s));
      (Maximize, maximizeButton (windowData tk q s));
      (Restore, maximizeButton (windowData tk q s));
      (Close, closeButton (windowData tk q s))] ->
  exposesButtonInterface tk btn ->
  (exists s',
     setSystemButtonState tk q button state s = Some (tt, s')
     /\ widgets s' = widgets s
     /\ mutex s' = false
     /\ data s' = data s
     /\ trace s' = trace s ++ [MutexLock; MutexUnlock] ++
          match state with
          | Unspecified => [InvokeMethod btn "setPressed" (Some false);
                            InvokeMethod btn "setHovered" (Some false)]
          | Hovered => [InvokeMethod btn "setPressed" (Some false);
                        InvokeMethod btn "setHovered" (Some true)]
          | Pressed => [InvokeMethod btn "setHovered" (Some true);
                        InvokeMethod btn "setPressed" (Some true)]
          | Clicked => [InvokeMethod btn "setPressed" (Some false);
                        InvokeMethod btn "setHovered" (Some true);
                        InvokeMethod btn "clicked" None]
          end)
  /\ (forall st s0, setSystemButtonState tk q Maximize st s0
                    = setSystemButtonState tk q Restore st s0).
Proof.
  intros Hm Hw Hin Hexp.
  assert (Hu : button <> Unknown).
  { cbn [In] in Hin. intros ->.
    destruct Hin as [H|[H|[H|[H|[H|[H|[]]]]]]]; discriminate. }
  assert (Hcont : QHash_contains (data s) (QWidget_winId tk window) = true).
  { unfold windowData in Hin. rewrite Hw in Hin.
    unfold QHash_value, QHash_contains in *.
    destruct (data s !! QWidget_winId tk window); [reflexivity|].
    cbn in Hin. destruct Hin as [H|[H|[H|[H|[H|[H|[]]]]]]]; discriminate. }
  split; [|reflexivity].
  rewrite (setSystemButtonState_run button state s Hm Hu window btn Hw Hin Hexp).
  rewrite (ensured_contains _ _ Hcont).
  unfold updateButtonState, bind, emit.
  destruct state; cbn [mutex data widgets trace];
    eexists; (split; [reflexivity|]); cbn [mutex data widgets trace];
    repeat split; rewrite <- ?app_assoc; reflexivity.
Qed.

End Buttons.

(** ** Fixed window size *)

Section FixedSize.

Variable tk : Toolkit.
Variable q : Helper.

Lemma QFlags_set_hint f :
  QFlags_testAny (Z.lor f MSWindowsFixedSizeDialogHint) MSWindowsFixedSizeDialogHint = true.
Proof.
  unfold QFlags_testAny. apply negb_true_iff, Z.eqb_neq. intros H.
  assert (Hb : Z.testbit (Z.land (Z.lor f MSWindowsFixedSizeDialogHint)
                                 MSWindowsFixedSizeDialogHint) 8 = false)
    by (rewrite H; apply Z.bits_0).
  rewrite Z.land_spec, Z.lor_spec in Hb.
  replace (Z.testbit MSWindowsFixedSizeDialogHint 8) with true in Hb by reflexivity.
  rewrite orb_true_r in Hb. discriminate.
Qed.

Lemma QFlags_clear_hint f :
  QFlags_testAny (Z.land f (Z.lnot MSWindowsFixedSizeDialogHint))
                 MSWindowsFixedSizeDialogHint = false.
Proof.
  unfold QFlags_testAny. apply negb_false_iff, Z.eqb_eq.
  rewrite <- Z.land_assoc, (Z.land_comm (Z.lnot _)), Z.land_lnot_diag.
  apply Z.land_0_r.
Qed.

(** [setWindowFixedSize(true)] always ends with the window reported fixed. *)
Lemma setWindowFixedSize_true window s :
  getWindow tk q = Some window ->
  exists s', setWindowFixedSize tk q true s = Some (tt, s')
             /\ isWindowFixedSize tk q s' = true.
Proof.
  intros Hw. unfold setWindowFixedSize. rewrite Hw. unfold bind at 1. unfold get at 1.
  destruct (isWindowFixedSize tk q s) eqn:Hfix; cbn [Bool.eqb].
  - exists s. split; [reflexivity | exact Hfix].
  - unfold bind, get, ret, emit, QWidget_setFixedSize, QWidget_setWindowFlags, setProps.
    cbn [widgets mutex data trace].
    destruct (Q_OS_WINDOWS tk); eexists; (split; [reflexivity|]);
      unfold isWindowFixedSize; rewrite Hw; cbn [widgets];
      rewrite Pos.eqb_refl; unfold with_windowFlags at 1; cbn [windowFlags];
      now rewrite QFlags_set_hint.
Qed.

(** [setWindowFixedSize(false)] leaves the size policy as it was: a window
    whose size policy is (Fixed, Fixed) is still reported fixed. *)
Lemma setWindowFixedSize_false_fixedPolicy window s :
  getWindow tk q = Some window ->
  sizePolicy (widgets s window) = QSizePolicy_make Fixed Fixed ->
  exists s', setWindowFixedSize tk q false s = Some (tt, s')
             /\ sizePolicy (widgets s' window) = QSizePolicy_make Fixed Fixed
             /\ isWindowFixedSize tk q s' = true.
Proof.
  intros Hw Hp.
  assert (Hfix : forall s0, sizePolicy (widgets s0 window) = QSizePolicy_make Fixed Fixed ->
                            isWindowFixedSize tk q s0 = true).
  { intros s0 H0. unfold isWindowFixedSize. rewrite Hw, H0.
    destruct (QFlags_testAny _ _); [reflexivity|].
    destruct (_ && _); reflexivity. }
  unfold setWindowFixedSize. rewrite Hw. unfold bind at 1. unfold get at 1.
  rewrite (Hfix s Hp). cbn [Bool.eqb].
  unfold bind, get, ret, emit, QWidget_setMinimumSize, QWidget_setMaximumSize,
    QWidget_setWindowFlags, setProps.
  cbn [widgets mutex data trace].
  destruct (Q_OS_WINDOWS tk); eexists; (split; [reflexivity|]);
    match goal with |- ?A /\ _ => assert (Hs : A) end;
    try (cbn [widgets]; rewrite !Pos.eqb_refl; cbn; rewrite ?Pos.eqb_refl; exact Hp);
    (split; [exact Hs | exact (Hfix _ Hs)]).
Qed.

Lemma QSize_eqb_neq a b : a <> b -> QSize_eqb a b = false.
Proof.
  intros Hne. unfold QSize_eqb. destruct a as [w h], b as [w' h']. cbn [wd ht].
  destruct (Z.eqb_spec w w') as [->|]; [|reflexivity].
  destruct (Z.eqb_spec h h') as [->|]; [|reflexivity].
  now contradiction Hne.
Qed.

(** [setWindowFixedSize(false)] ends with the window reported resizable when
    its size policy is not (Fixed, Fixed) (and the default window size is
    not the largest size a widget can have). *)
Lemma setWindowFixedSize_false_otherPolicy window s :
  getWindow tk q = Some window ->
  QSizePolicy_eqb (sizePolicy (widgets s window)) (QSizePolicy_make Fixed Fixed) = false ->
  clampSize (kDefaultWindowSize tk) <> mkQSize QWIDGETSIZE_MAX QWIDGETSIZE_MAX ->
  exists s', setWindowFixedSize tk q false s = Some (tt, s')
             /\ isWindowFixedSize tk q s' = false.
Proof.
  intros Hw Hp Hk.
  unfold setWindowFixedSize. rewrite Hw. unfold bind at 1. unfold get at 1.
  destruct (isWindowFixedSize tk q s) eqn:Hfix; cbn [Bool.eqb].
  - unfold bind, get, ret, emit, QWidget_setMinimumSize, QWidget_setMaximumSize,
      QWidget_setWindowFlags, setProps.
    cbn [widgets mutex data trace].
    destruct (Q_OS_WINDOWS tk); eexists; (split; [reflexivity|]);
      unfold isWindowFixedSize; rewrite Hw; cbn [widgets]; rewrite !Pos.eqb_refl;
      unfold resized, with_geometry, with_maximumSize, with_minimumSize, with_windowFlags;
      cbn [windowFlags minimumSize maximumSize sizePolicy geometry];
      rewrite QFlags_clear_hint, Hp;
      replace (clampSize (mkQSize QWIDGETSIZE_MAX QWIDGETSIZE_MAX))
        with (mkQSize QWIDGETSIZE_MAX QWIDGETSIZE_MAX) by reflexivity;
      rewrite (QSize_eqb_neq _ _ Hk), andb_false_r; reflexivity.
  - exists s. split; [reflexivity | exact Hfix].
Qed.

End FixedSize.

(** C3. The round trip fails for window 1 of [Demo.s0_fixedPolicy], whose
    size policy is (Fixed, Fixed): [isWindowFixedSize] is true before,
    [setWindowFixedSize(false)] returns having cleared the hint and reset
    the minimum and maximum sizes, and [isWindowFixedSize] is still true
    after it, not false. *)
Theorem setWindowFixedSize_false_keeps_fixed_policy :
  isWindowFixedSize Demo.tk 1 Demo.s0_fixedPolicy = true
  /\ exists s',
       setWindowFixedSize Demo.tk 1 false Demo.s0_fixedPolicy = Some (tt, s')
       /\ QFlags_testAny (windowFlags (widgets s' 1%positive))
                         MSWindowsFixedSizeDialogHint = false
       /\ minimumSize (widgets s' 1%positive) = mkQSize 160 160
       /\ maximumSize (widgets s' 1%positive) = mkQSize QWIDGETSIZE_MAX QWIDGETSIZE_MAX
       /\ isWindowFixedSize Demo.tk 1 s' = true.
Proof.
  split; [reflexivity|].
  eexists. split; [reflexivity|]. repeat split.
Qed.

(** ** The operations that write to the hash *)

Section Mutators.

Variable tk : Toolkit.
Variable q : Helper.

Lemma windowData_ensured window s m w t :
  getWindow tk q = Some window ->
  QHash_value (data (mkState m (ensured (data s) (QWidget_winId tk window)) w t))
              (QWidget_winId tk window)
  = windowData tk q s.
Proof.
  intros Hw. cbn [data]. rewrite QHash_value_ensured. unfold windowData. now rewrite Hw.
Qed.

Lemma setTitleBarWidget_run widget window s :
  mutex s = false -> getWindow tk q = Some window ->
  setTitleBarWidget tk q (Some widget) s
  = Some (tt,
          if QWidgetPtr_eqb (titleBarWidget (windowData tk q s)) (Some widget)
          then mkState false (ensured (data s) (QWidget_winId tk window)) (widgets s)
                       (trace s ++ [MutexLock; MutexUnlock])
          else mkState false
                 (<[QWidget_winId tk window :=
                      with_titleBarWidget (Some widget) (windowData tk q s)]>
                    (ensured (data s) (QWidget_winId tk window)))
                 (widgets s)
                 (trace s ++ [MutexLock; Emit_titleBarWidgetChanged q; MutexUnlock])).
Proof.
  intros Hm Hw. unfold setTitleBarWidget, QMutexLocker.
  unfold bind at 1. unfold lock. rewrite Hm.
  unfold bind at 1. unfold bind at 1.
  rewrite (getWindowDataMutable_run tk q window _ Hw). cbn [mutex data widgets trace].
  unfold bind at 1. unfold deref, bind at 1. unfold get at 1, ret at 1.
  rewrite (windowData_ensured window s _ _ _ Hw).
  destruct (QWidgetPtr_eqb (titleBarWidget (windowData tk q s)) (Some widget)).
  - unfold ret, bind, unlock. cbn [mutex data widgets trace].
    now rewrite <- app_assoc.
  - unfold store, bind, get, set_data, emit, unlock, ret. cbn [mutex data widgets trace].
    rewrite QHash_value_ensured. unfold windowData. rewrite Hw.
    now rewrite <- !app_assoc.
Qed.

Lemma setTitleBarWidget_nowindow widget s :
  mutex s = false -> getWindow tk q = None ->
  setTitleBarWidget tk q (Some widget) s
  = Some (tt, mkState false (data s) (widgets s) (trace s ++ [MutexLock; MutexUnlock])).
Proof.
  intros Hm Hw. unfold setTitleBarWidget, QMutexLocker.
  unfold bind at 1. unfold lock. rewrite Hm.
  unfold bind at 1. unfold bind at 1.
  rewrite (getWindowDataMutable_null tk q _ Hw).
  unfold ret, bind, unlock. cbn [mutex data widgets trace].
  now rewrite <- app_assoc.
Qed.

Lemma setHitTestVisible_run widget window s :
  mutex s = false -> getWindow tk q = Some window ->
  setHitTestVisible tk q (Some widget) s
  = Some (tt,
          mkState false
            (if QList_contains (hitTestVisibleWidgets (windowData tk q s)) (Some widget)
             then ensured (data s) (QWidget_winId tk window)
             else <[QWidget_winId tk window :=
                      with_hitTestVisibleWidgets
                        (hitTestVisibleWidgets (windowData tk q s) ++ [Some widget])
                        (windowData tk q s)]>
                    (ensured (data s) (QWidget_winId tk window)))
            (widgets s) (trace s ++ [MutexLock; MutexUnlock])).
Proof.
  intros Hm Hw. unfold setHitTestVisible, QMutexLocker.
  unfold bind at 1. unfold lock. rewrite Hm.
  unfold bind at 1. unfold bind at 1.
  rewrite (getWindowDataMutable_run tk q window _ Hw). cbn [mutex data widgets trace].
  unfold bind at 1. unfold deref, bind at 1. unfold get at 1, ret at 1.
  rewrite (windowData_ensured window s _ _ _ Hw).
  unfold visible. cbn [andb negb].
  destruct (QList_contains (hitTestVisibleWidgets (windowData tk q s)) (Some widget));
    cbn [negb].
  - unfold ret, bind, unlock. cbn [mutex data widgets trace].
    now rewrite <- app_assoc.
  - unfold store, bind, get, set_data, unlock, ret. cbn [mutex data widgets trace].
    rewrite QHash_value_ensured. unfold windowData. rewrite Hw.
    now rewrite <- !app_assoc.
Qed.

Lemma setHitTestVisible_nowindow widget s :
  mutex s = false -> getWindow tk q = None ->
  setHitTestVisible tk q (Some widget) s
  = Some (tt, mkState false (data s) (widgets s) (trace s ++ [MutexLock; MutexUnlock])).
Proof.
  intros Hm Hw. unfold setHitTestVisible, QMutexLocker.
  unfold bind at 1. unfold lock. rewrite Hm.
  unfold bind at 1. unfold bind at 1.
  rewrite (getWindowDataMutable_null tk q _ Hw).
  unfold ret, bind, unlock. cbn [mutex data widgets trace].
  now rewrite <- app_assoc.
Qed.

Lemma setSystemButton_run widget buttonType window s :
  mutex s = false -> getWindow tk q = Some window -> buttonType <> Unknown ->
  setSystemButton tk q (Some widget) buttonType s
  = Some (tt,
          mkState false
            (<[QWidget_winId tk window :=
                 with_button buttonType (Some widget) (windowData tk q s)]>
               (ensured (data s) (QWidget_winId tk window)))
            (widgets s) (trace s ++ [MutexLock; MutexUnlock])).
Proof.
  intros Hm Hw Hu.
  destruct buttonType; [congruence|..];
    unfold setSystemButton, QMutexLocker;
    (unfold bind at 1; unfold lock; rewrite Hm;
     unfold bind at 1; unfold bind at 1;
     rewrite (getWindowDataMutable_run tk q window _ Hw); cbn [mutex data widgets trace];
     unfold store, bind, get, set_data, unlock, ret; cbn [mutex data widgets trace];
     rewrite QHash_value_ensured; unfold windowData; rewrite Hw;
     now rewrite <- !app_assoc).
Qed.

Lemma setSystemButton_nowindow widget buttonType s :
  mutex s = false -> getWindow tk q = None -> buttonType <> Unknown ->
  setSystemButton tk q (Some widget) buttonType s
  = Some (tt, mkState false (data s) (widgets s) (trace s ++ [MutexLock; MutexUnlock])).
Proof.
  intros Hm Hw Hu.
  destruct buttonType; [congruence|..];
    unfold setSystemButton, QMutexLocker;
    (unfold bind at 1; unfold lock; rewrite Hm;
     unfold bind at 1; unfold bind at 1;
     rewrite (getWindowDataMutable_null tk q _ Hw);
     unfold ret, bind, unlock; cbn [mutex data widgets trace];
     now rewrite <- app_assoc).
Qed.

Lemma attachToWindow_attached window s :
  mutex s = false -> getWindow tk q = Some window ->
  attached (windowData tk q s) = true ->
  attachToWindow tk q s
  = Some (tt, mkState false (ensured (data s) (QWidget_winId tk window)) (widgets s)
                      (trace s ++ [MutexLock; MutexUnlock])).
Proof.
  intros Hm Hw Ha. unfold attachToWindow. rewrite Hw.
  unfold bind at 1. unfold lock. rewrite Hm.
  unfold bind at 1.
  rewrite (getWindowDataMutable_run tk q window _ Hw). cbn [mutex data widgets trace].
  unfold bind at 1. unfold deref, bind at 1. unfold get at 1, ret at 1.
  rewrite (windowData_ensured window s _ _ _ Hw).
  unfold bind at 1. unfold unlock at 1. cbn [mutex data widgets trace].
  rewrite Ha. unfold ret. now rewrite <- app_assoc.
Qed.

Lemma attachToWindow_fresh window s :
  mutex s = false -> getWindow tk q = Some window ->
  attached (windowData tk q s) = false ->
  exists W,
    attachToWindow tk q s
    = Some (tt,
            mkState false
              (<[QWidget_winId tk window :=
                   with_attached true
                     (with_params (ParametersOf q window) (windowData tk q s))]>
                 (<[QWidget_winId tk window :=
                      with_params (ParametersOf q window) (windowData tk q s)]>
                    (ensured (data s) (QWidget_winId tk window))))
              W
              (trace s ++ [MutexLock; MutexUnlock; MutexLock; MutexUnlock;
                           AddWindow (ParametersOf q window); SingleShot q window]))
    /\ W window = with_attributes true true (widgets s window)
    /\ forall w', w' <> window -> W w' = widgets s w'.
Proof.
  intros Hm Hw Ha. unfold attachToWindow. rewrite Hw.
  unfold bind at 1. unfold lock. rewrite Hm.
  unfold bind at 1.
  rewrite (getWindowDataMutable_run tk q window _ Hw). cbn [mutex data widgets trace].
  unfold bind at 1. unfold deref, bind at 1. unfold get at 1, ret at 1.
  rewrite (windowData_ensured window s _ _ _ Hw).
  unfold bind at 1. unfold unlock at 1. cbn [mutex data widgets trace].
  rewrite Ha.
  unfold store, setProps, lock, bind, get, set_data, emit, unlock, ret.
  cbn [mutex data widgets trace].
  rewrite QHash_value_ensured, QHash_value_insert. unfold windowData. rewrite Hw.
  rewrite <- !app_assoc. cbn [app].
  eexists. split; [reflexivity|]. split.
  - now rewrite !Pos.eqb_refl.
  - intros w' Hne. apply Pos.eqb_neq in Hne. now rewrite Hne.
Qed.

End Mutators.

(** ** The title bar widget *)

Section TitleBar.

Variable tk : Toolkit.
Variable q : Helper.

Lemma effects_app t t' : effects (t ++ t') = effects t ++ effects t'.
Proof. unfold effects. apply List.filter_app. Qed.

Lemma syncs_app t t' : syncs (t ++ t') = syncs t ++ syncs t'.
Proof. unfold syncs. apply List.filter_app. Qed.

Lemma getTitleBarWidget_run s :
  mutex s = false ->
  exists s', getTitleBarWidget tk q s = Some (titleBarWidget (windowData tk q s), s').
Proof.
  intros Hm. unfold getTitleBarWidget, bind.
  destruct (getWindow tk q) as [window|] eqn:Hw.
  - rewrite (getWindowData_run tk q window s Hw Hm). eexists. reflexivity.
  - rewrite (getWindowData_null tk q s Hw). unfold windowData. rewrite Hw.
    eexists. reflexivity.
Qed.

(** C10. For a non-null widget and a helper whose window resolves, called
    with the mutex free: if the entry of the window already stores the
    widget as title bar, [setTitleBarWidget] returns having changed neither
    the hash nor any widget and having made no call out of the module, so
    no signal; otherwise it returns having stored the widget in the entry,
    the other fields as they were, and having emitted
    [titleBarWidgetChanged] once and made no other call out, and
    [getTitleBarWidget] then returns the widget. *)
Theorem setTitleBarWidget_signal (widget window : Widget) (s : State) :
  mutex s = false ->
  getWindow tk q = Some window ->
  (titleBarWidget (windowData tk q s) = Some widget ->
   exists s',
     setTitleBarWidget tk q (Some widget) s = Some (tt, s')
     /\ data s' = data s /\ widgets s' = widgets s /\ mutex s' = false
     /\ effects (trace s') = effects (trace s))
  /\ (titleBarWidget (windowData tk q s) <> Some widget ->
      exists s',
        setTitleBarWidget tk q (Some widget) s = Some (tt, s')
        /\ windowData tk q s' = with_titleBarWidget (Some widget) (windowData tk q s)
        /\ widgets s' = widgets s /\ mutex s' = false
        /\ effects (trace s') = effects (trace s) ++ [Emit_titleBarWidgetChanged q]
        /\ exists s'', getTitleBarWidget tk q s' = Some (Some widget, s'')).
Proof.
  intros Hm Hw.
  pose proof (setTitleBarWidget_run tk q widget window s Hm Hw) as Hrun.
  split; intros Hstored.
  - unfold QWidgetPtr_eqb in Hrun. rewrite bool_decide_eq_true_2 in Hrun by exact Hstored.
    eexists. split; [exact Hrun|]. cbn [data widgets mutex trace].
    repeat split.
    + apply ensured_contains.
      unfold windowData in Hstored. rewrite Hw in Hstored.
      unfold QHash_value, QHash_contains in *.
      destruct (data s !! QWidget_winId tk window); [reflexivity | discriminate].
    + rewrite effects_app. cbn. apply app_nil_r.
  - unfold QWidgetPtr_eqb in Hrun. rewrite bool_decide_eq_false_2 in Hrun by exact Hstored.
    eexists. split; [exact Hrun|].
    assert (Hd : windowData tk q
                   (mkState false
                      (<[QWidget_winId tk window :=
                           with_titleBarWidget (Some widget) (windowData tk q s)]>
                         (ensured (data s) (QWidget_winId tk window)))
                      (widgets s)
                      (trace s ++ [MutexLock; Emit_titleBarWidgetChanged q; MutexUnlock]))
                 = with_titleBarWidget (Some widget) (windowData tk q s)).
    { unfold windowData at 1. rewrite Hw. cbn [data]. apply QHash_value_insert. }
    split; [exact Hd|]. cbn [data widgets mutex trace].
    repeat split.
    + rewrite effects_app. reflexivity.
    + match goal with
      | |- exists s'', getTitleBarWidget tk q ?s1 = _ =>
          destruct (getTitleBarWidget_run s1 eq_refl) as (s'' & Hget)
      end.
      exists s''. rewrite Hget, Hd. reflexivity.
Qed.

End TitleBar.

(** ** Every call, from a state with the mutex free *)

Section Soundness.

Variable tk : Toolkit.
Variable q : Helper.

Lemma grows_refl l : grows l l.
Proof. split; [exists []; now rewrite app_nil_r | auto]. Qed.

Lemma grows_trans l1 l2 l3 : grows l1 l2 -> grows l2 l3 -> grows l1 l3.
Proof.
  intros [[m1 ->] [H1 N1]] [[m2 ->] [H2 N2]]. split; [|auto].
  exists (m1 ++ m2). now rewrite app_assoc.
Qed.

Lemma NoDup_snoc (l : list QWidgetPtr) x :
  List.NoDup l -> ~ In x l -> List.NoDup (l ++ [x]).
Proof.
  induction 1 as [|a l Ha Hl IH]; intros Hx; cbn [app].
  - constructor; [intros [] | constructor].
  - constructor.
    + rewrite in_app_iff. intros [H|[H|[]]]; [contradiction|].
      subst. apply Hx. now left.
    + apply IH. intros H. apply Hx. now right.
Qed.

Lemma QList_contains_false l w : QList_contains l w = false -> ~ In w l.
Proof.
  unfold QList_contains. intros H Hin.
  assert (Ht : existsb (QWidgetPtr_eqb w) l = true).
  { apply existsb_exists. exists w. split; [exact Hin|].
    unfold QWidgetPtr_eqb. now apply bool_decide_eq_true_2. }
  congruence.
Qed.

Lemma QList_contains_true l w : QList_contains l w = true -> In w l.
Proof.
  unfold QList_contains. intros H. apply existsb_exists in H as (x & Hin & Hx).
  unfold QWidgetPtr_eqb in Hx. apply bool_decide_eq_true_1 in Hx. now subst.
Qed.

Lemma criticalSections_add j k :
  criticalSections j ++ criticalSections k = criticalSections (j + k).
Proof. induction j as [|j IH]; cbn; [reflexivity | now rewrite IH]. Qed.

Lemma step_ok_refl s : mutex s = false -> step_ok tk q s s.
Proof.
  intros Hm. split; [exact Hm|]. split; [|split].
  - exists 0%nat. cbn. now rewrite app_nil_r.
  - reflexivity.
  - intros wid. apply grows_refl.
Qed.

Lemma step_ok_trans s1 s2 s3 : step_ok tk q s1 s2 -> step_ok tk q s2 s3 -> step_ok tk q s1 s3.
Proof.
  intros (_ & [j Hj] & Hf1 & Hg1) (Hm & [k Hk] & Hf2 & Hg2).
  split; [exact Hm|]. split; [|split].
  - exists (j + k)%nat. now rewrite Hk, Hj, <- app_assoc, criticalSections_add.
  - intros wid Hne. now rewrite Hf2, Hf1.
  - intros wid. eapply grows_trans; [apply Hg1 | apply Hg2].
Qed.

(** A step that leaves the hash alone and adds [t] to the trace. *)
Lemma step_ok_same_data s W t k :
  syncs t = criticalSections k ->
  step_ok tk q s (mkState false (data s) W (trace s ++ t)).
Proof.
  intros Ht. split; [reflexivity|]. cbn [data trace]. split; [|split].
  - exists k. now rewrite syncs_app, Ht.
  - reflexivity.
  - intros wid. apply grows_refl.
Qed.

(** A step that creates the entry of the window if it is missing. *)
Lemma step_ok_ensured s window W t k :
  getWindow tk q = Some window ->
  syncs t = criticalSections k ->
  step_ok tk q s (mkState false (ensured (data s) (QWidget_winId tk window)) W (trace s ++ t)).
Proof.
  intros Hw Ht. split; [reflexivity|]. cbn [data trace]. split; [|split].
  - exists k. now rewrite syncs_app, Ht.
  - intros wid Hne. apply lookup_ensured_ne. intros Heq. now apply (Hne window Hw).
  - intros wid. rewrite QHash_value_ensured. apply grows_refl.
Qed.

(** A step that writes [d'] to the entry of the window. *)
Lemma step_ok_insert s window d' W t k :
  getWindow tk q = Some window ->
  syncs t = criticalSections k ->
  grows (hitTestVisibleWidgets (windowData tk q s)) (hitTestVisibleWidgets d') ->
  step_ok tk q s
    (mkState false (<[QWidget_winId tk window := d']>
                      (ensured (data s) (QWidget_winId tk window)))
             W (trace s ++ t)).
Proof.
  intros Hw Ht Hg. split; [reflexivity|]. cbn [data trace]. split; [|split].
  - exists k. now rewrite syncs_app, Ht.
  - intros wid Hne.
    assert (Hd : QWidget_winId tk window <> wid)
      by (intros Heq; now apply (Hne window Hw)).
    rewrite lookup_insert_ne by exact Hd. now apply lookup_ensured_ne.
  - intros wid. destruct (decide (QWidget_winId tk window = wid)) as [<-|Hd].
    + rewrite QHash_value_insert. unfold windowData in Hg. now rewrite Hw in Hg.
    + rewrite QHash_value_insert_ne by exact Hd. rewrite QHash_value_ensured.
      apply grows_refl.
Qed.

Lemma sound_ret {A} (a : A) : sound tk q (ret a).
Proof. intros s Hm. exists a, s. split; [reflexivity | now apply step_ok_refl]. Qed.

Lemma sound_get : sound tk q get.
Proof. intros s Hm. exists s, s. split; [reflexivity | now apply step_ok_refl]. Qed.

Lemma sound_bind {A B} (m : M A) (k : A -> M B) :
  sound tk q m -> (forall a, sound tk q (k a)) -> sound tk q (bind m k).
Proof.
  intros Hs Hk s Hm. destruct (Hs s Hm) as (a & s1 & Hrun & Hok).
  destruct (Hk a s1 (proj1 Hok)) as (b & s2 & Hrun2 & Hok2).
  exists b, s2. split; [|eapply step_ok_trans; eassumption].
  unfold bind. now rewrite Hrun.
Qed.

Lemma sound_emit e : is_mutex_event e = false -> sound tk q (emit e).
Proof.
  intros He s Hm. exists tt. eexists. split; [reflexivity|]. rewrite Hm.
  apply (step_ok_same_data s (widgets s) [e] 0). unfold syncs. cbn. now rewrite He.
Qed.

Lemma sound_setProps w f : sound tk q (setProps w f).
Proof.
  intros s Hm. exists tt. eexists. split; [reflexivity|]. rewrite Hm.
  rewrite <- (app_nil_r (trace s)). now apply (step_ok_same_data s _ [] 0).
Qed.

Lemma sound_getWindowData : sound tk q (getWindowData tk q).
Proof.
  intros s Hm. destruct (getWindow tk q) as [window|] eqn:Hw.
  - rewrite (getWindowData_run tk q window s Hw Hm). eexists _, _.
    split; [reflexivity|]. now apply (step_ok_ensured s window _ _ 1).
  - rewrite (getWindowData_null tk q s Hw). eexists _, _.
    split; [reflexivity | now apply step_ok_refl].
Qed.

Lemma sound_setTitleBarWidget widget : sound tk q (setTitleBarWidget tk q widget).
Proof.
  intros s Hm. destruct widget as [widget|];
    [|exists tt, s; split; [reflexivity | now apply step_ok_refl]].
  destruct (getWindow tk q) as [window|] eqn:Hw.
  - rewrite (setTitleBarWidget_run tk q widget window s Hm Hw). eexists _, _.
    split; [reflexivity|].
    destruct (QWidgetPtr_eqb _ _).
    + now apply (step_ok_ensured s window _ _ 1).
    + apply (step_ok_insert s window _ _ _ 1); [exact Hw | reflexivity | apply grows_refl].
  - rewrite (setTitleBarWidget_nowindow tk q widget s Hm Hw). eexists _, _.
    split; [reflexivity|]. now apply (step_ok_same_data s _ _ 1).
Qed.

Lemma sound_setHitTestVisible widget : sound tk q (setHitTestVisible tk q widget).
Proof.
  intros s Hm. destruct widget as [widget|];
    [|exists tt, s; split; [reflexivity | now apply step_ok_refl]].
  destruct (getWindow tk q) as [window|] eqn:Hw.
  - rewrite (setHitTestVisible_run tk q widget window s Hm Hw). eexists _, _.
    split; [reflexivity|].
    destruct (QList_contains _ _) eqn:Hc.
    + now apply (step_ok_ensured s window _ _ 1).
    + apply (step_ok_insert s window _ _ _ 1); [exact Hw | reflexivity |].
      cbn [with_hitTestVisibleWidgets hitTestVisibleWidgets]. split; [|split].
      * eexists. reflexivity.
      * intros Hnd. apply NoDup_snoc; [exact Hnd | now apply QList_contains_false].
      * intros Hnone Hin. apply in_app_or in Hin as [Hin|[Hin|[]]];
          [contradiction | discriminate].
  - rewrite (setHitTestVisible_nowindow tk q widget s Hm Hw). eexists _, _.
    split; [reflexivity|]. now apply (step_ok_same_data s _ _ 1).
Qed.

Lemma sound_setSystemButton widget buttonType :
  sound tk q (setSystemButton tk q widget buttonType).
Proof.
  intros s Hm. destruct widget as [widget|];
    [|exists tt, s; split; [reflexivity | now apply step_ok_refl]].
  assert (Hdec : buttonType = Unknown \/ buttonType <> Unknown)
    by (destruct buttonType; (now left) || (right; discriminate)).
  destruct Hdec as [->|Hu];
    [exists tt, s; split; [reflexivity | now apply step_ok_refl]|].
  destruct (getWindow tk q) as [window|] eqn:Hw.
  - rewrite (setSystemButton_run tk q widget buttonType window s Hm Hw Hu). eexists _, _.
    split; [reflexivity|].
    apply (step_ok_insert s window _ _ _ 1); [exact Hw | reflexivity |].
    destruct buttonType; apply grows_refl.
  - rewrite (setSystemButton_nowindow tk q widget buttonType s Hm Hw Hu). eexists _, _.
    split; [reflexivity|]. now apply (step_ok_same_data s _ _ 1).
Qed.

Lemma sound_attachToWindow : sound tk q (attachToWindow tk q).
Proof.
  intros s Hm. destruct (getWindow tk q) as [window|] eqn:Hw.
  - destruct (attached (windowData tk q s)) eqn:Ha.
    + rewrite (attachToWindow_attached tk q window s Hm Hw Ha). eexists _, _.
      split; [reflexivity|]. now apply (step_ok_ensured s window _ _ 1).
    + destruct (attachToWindow_fresh tk q window s Hm Hw Ha) as (W & Hrun & _).
      rewrite Hrun. eexists _, _. split; [reflexivity|].
      rewrite insert_insert_eq.
      apply (step_ok_insert s window _ _ _ 2); [exact Hw | reflexivity | apply grows_refl].
  - exists tt, s. split; [|now apply step_ok_refl].
    unfold attachToWindow. now rewrite Hw.
Qed.

Ltac sound_step :=
  first
    [ apply sound_ret
    | apply sound_get
    | apply sound_emit; reflexivity
    | apply sound_setProps
    | apply sound_getWindowData
    | apply sound_bind; [|intros ?]
    | match goal with
      | |- sound _ _ (match ?x with _ => _ end) => destruct x
      | |- sound _ _ (if ?x then _ else _) => destruct x
      end ].

Lemma sound_after {A} (m : M A) s :
  sound tk q m -> mutex s = false ->
  exists s', after m s = Some s' /\ step_ok tk q s s'.
Proof.
  intros Hs Hm. destruct (Hs s Hm) as (a & s' & Hrun & Hok).
  exists s'. unfold after. now rewrite Hrun.
Qed.

(** Every call made with the mutex free returns, and what it did is within
    [step_ok]. *)
Lemma exec_sound c s :
  mutex s = false -> exists s', exec tk q c s = Some s' /\ step_ok tk q s s'.
Proof.
  intros Hm.
  destruct c; cbn [exec];
    try (exists s; split; [reflexivity | now apply step_ok_refl]);
    apply sound_after; try exact Hm.
  - unfold setWindowFixedSize, QWidget_setFixedSize, QWidget_setWindowFlags,
      QWidget_setMinimumSize, QWidget_setMaximumSize. repeat sound_step.
  - apply sound_setTitleBarWidget.
  - unfold getTitleBarWidget. repeat sound_step.
  - apply sound_setHitTestVisible.
  - apply sound_attachToWindow.
  - unfold attachToWindow_singleShot, moveWindowToDesktopCenter, QWidget_move.
    repeat sound_step.
  - unfold isInSystemButtons. repeat sound_step.
  - unfold isInTitleBarDraggableArea. repeat sound_step.
  - unfold setSystemButtonState, updateButtonState. repeat sound_step.
  - unfold moveWindowToDesktopCenter, QWidget_move. repeat sound_step.
  - unfold bringWindowToFront. repeat sound_step.
  - unfold showSystemMenu. repeat sound_step.
  - unfold windowStartSystemMove2. repeat sound_step.
  - unfold windowStartSystemResize2. repeat sound_step.
  - apply sound_setSystemButton.
Qed.

End Soundness.

(** ** The operations that never reach the hash *)

Section Lockfree.

Variable tk : Toolkit.
Variable q : Helper.

Lemma lockfree_ret {A} (a : A) : lockfree (ret a).
Proof. intros s. exists a, s. auto. Qed.

Lemma lockfree_get : lockfree get.
Proof. intros s. exists s, s. auto. Qed.

Lemma lockfree_bind {A B} (m : M A) (k : A -> M B) :
  lockfree m -> (forall a, lockfree (k a)) -> lockfree (bind m k).
Proof.
  intros Hs Hk s. destruct (Hs s) as (a & s1 & Hrun & Hm1 & Hd1 & Ht1).
  destruct (Hk a s1) as (b & s2 & Hrun2 & Hm2 & Hd2 & Ht2).
  exists b, s2. unfold bind. rewrite Hrun. repeat split; congruence.
Qed.

Lemma lockfree_emit e : is_mutex_event e = false -> lockfree (emit e).
Proof.
  intros He s. exists tt. eexists. split; [reflexivity|]. cbn [mutex data trace].
  repeat split. rewrite syncs_app. unfold syncs at 2. cbn. rewrite He. apply app_nil_r.
Qed.

Lemma lockfree_setProps w f : lockfree (setProps w f).
Proof. intros s. exists tt. eexists. split; [reflexivity|]. auto. Qed.

Ltac lockfree_step :=
  first
    [ apply lockfree_ret
    | apply lockfree_get
    | apply lockfree_emit; reflexivity
    | apply lockfree_setProps
    | apply lockfree_bind; [|intros ?]
    | match goal with
      | |- lockfree (match ?x with _ => _ end) => destruct x
      | |- lockfree (if ?x then _ else _) => destruct x
      end ].

Lemma lockfree_after {A} (m : M A) s :
  lockfree m ->
  exists s', after m s = Some s' /\ mutex s' = mutex s /\ data s' = data s
             /\ syncs (trace s') = syncs (trace s).
Proof.
  intros Hs. destruct (Hs s) as (a & s' & Hrun & H).
  exists s'. unfold after. now rewrite Hrun.
Qed.

(** The calls outside [reachesHash] return whatever the mutex is, and leave
    the mutex, the hash and the record of mutex operations as they were. *)
Lemma exec_lockfree c s :
  reachesHash c = false ->
  exists s', exec tk q c s = Some s' /\ mutex s' = mutex s /\ data s' = data s
             /\ syncs (trace s') = syncs (trace s).
Proof.
  intros Hc.
  destruct c; try discriminate Hc; cbn [exec];
    try (exists s; repeat split; reflexivity);
    apply lockfree_after.
  - unfold setWindowFixedSize, QWidget_setFixedSize, QWidget_setWindowFlags,
      QWidget_setMinimumSize, QWidget_setMaximumSize. repeat lockfree_step.
  - unfold attachToWindow_singleShot, moveWindowToDesktopCenter, QWidget_move.
    repeat lockfree_step.
  - unfold moveWindowToDesktopCenter, QWidget_move. repeat lockfree_step.
  - unfold bringWindowToFront. repeat lockfree_step.
  - unfold showSystemMenu. repeat lockfree_step.
  - unfold windowStartSystemMove2. repeat lockfree_step.
  - unfold windowStartSystemResize2. repeat lockfree_step.
Qed.

End Lockfree.

(** ** Null guards *)

Section Guards.

Variable tk : Toolkit.
Variable q : Helper.

Lemma unchanged_critical_section s :
  mutex s = false ->
  unchanged s (mkState false (data s) (widgets s) (trace s ++ [MutexLock; MutexUnlock])).
Proof.
  intros Hm. unfold unchanged. cbn [data widgets mutex trace].
  repeat split; [now rewrite Hm|]. rewrite effects_app. cbn. apply app_nil_r.
Qed.

Lemma unchanged_refl s : unchanged s s.
Proof. unfold unchanged. auto. Qed.

(** C4. When [getWindow] gives no window, each listed operation returns its
    neutral value: [isWindowFixedSize] false, [mapWidgetGeometryToScene]
    the default rectangle, [getWindowData] a default entry,
    [isInSystemButtons] false with [Unknown] in [*button], and the others
    nothing; the state is the one before the call, except that the three
    setters, which construct their [QMutexLocker] before they look for the
    window, have locked and released the mutex (so they are called here
    with the mutex free).  When the widget or the out-pointer argument is
    null, the operation returns its neutral value and the very state it was
    called in, whatever the window and the mutex are.  Every result is an
    ordinary return. *)
Theorem null_guards (s : State) :
  (getWindow tk q = None ->
   isWindowFixedSize tk q s = false
   /\ (forall value, setWindowFixedSize tk q value s = Some (tt, s))
   /\ (mutex s = false ->
       (forall widget, exists s',
            setTitleBarWidget tk q widget s = Some (tt, s') /\ unchanged s s')
       /\ (forall widget, exists s',
              setHitTestVisible tk q widget s = Some (tt, s') /\ unchanged s s')
       /\ (forall widget buttonType, exists s',
              setSystemButton tk q widget buttonType s = Some (tt, s') /\ unchanged s s'))
   /\ moveWindowToDesktopCenter tk q s = Some (tt, s)
   /\ bringWindowToFront tk q s = Some (tt, s)
   /\ (forall pos, showSystemMenu tk q pos s = Some (tt, s))
   /\ (forall pos, windowStartSystemMove2 tk q pos s = Some (tt, s))
   /\ (forall edges pos, windowStartSystemResize2 tk q edges pos s = Some (tt, s))
   /\ (forall pos v0,
         isInSystemButtons tk q pos (Some v0) s = Some ((false, Some Unknown), s))
   /\ (forall widget, mapWidgetGeometryToScene tk q widget s = QRect_default)
   /\ getWindowData tk q s = Some (WidgetsHelperData_default, s))
  /\ setTitleBarWidget tk q None s = Some (tt, s)
  /\ setHitTestVisible tk q None s = Some (tt, s)
  /\ (forall buttonType, setSystemButton tk q None buttonType s = Some (tt, s))
  /\ (forall pos, isInSystemButtons tk q pos None s = Some ((false, None), s))
  /\ mapWidgetGeometryToScene tk q None s = QRect_default.
Proof.
  split; [intros Hw | repeat split].
  - split; [unfold isWindowFixedSize; now rewrite Hw|].
    split; [intros v; unfold setWindowFixedSize; now rewrite Hw|].
    split.
    { intros Hm. split; [|split].
      - intros [widget|].
        + rewrite (setTitleBarWidget_nowindow tk q widget s Hm Hw).
          eexists. split; [reflexivity | now apply unchanged_critical_section].
        + exists s. split; [reflexivity | apply unchanged_refl].
      - intros [widget|].
        + rewrite (setHitTestVisible_nowindow tk q widget s Hm Hw).
          eexists. split; [reflexivity | now apply unchanged_critical_section].
        + exists s. split; [reflexivity | apply unchanged_refl].
      - intros [widget|] buttonType.
        + assert (Hdec : buttonType = Unknown \/ buttonType <> Unknown)
            by (destruct buttonType; (now left) || (right; discriminate)).
          destruct Hdec as [->|Hu].
          * exists s. split; [reflexivity | apply unchanged_refl].
          * rewrite (setSystemButton_nowindow tk q widget buttonType s Hm Hw Hu).
            eexists. split; [reflexivity | now apply unchanged_critical_section].
        + exists s. split; [reflexivity | apply unchanged_refl]. }
    split; [unfold moveWindowToDesktopCenter; now rewrite Hw|].
    split; [unfold bringWindowToFront; now rewrite Hw|].
    split; [intros pos; unfold showSystemMenu; rewrite Hw; now destruct (Q_OS_WINDOWS tk)|].
    split; [intros pos; unfold windowStartSystemMove2; now rewrite Hw|].
    split; [intros e pos; unfold windowStartSystemResize2; now rewrite Hw|].
    split.
    { intros pos v0. unfold isInSystemButtons, bind.
      now rewrite (getWindowData_null tk q s Hw). }
    split; [|now apply getWindowData_null].
    intros [w|]; unfold mapWidgetGeometryToScene; [now rewrite Hw | reflexivity].
Qed.

(** The public members behave as the private operations they forward to:
    the guard they repeat is the one the private operation starts with. *)
Lemma public_forwarding (s : State) :
  (forall widget,
     FramelessWidgetsHelper.setTitleBarWidget tk q widget s
     = setTitleBarWidget tk q widget s)
  /\ (forall widget,
        FramelessWidgetsHelper.setHitTestVisible tk q widget s
        = setHitTestVisible tk q widget s)
  /\ (forall widget buttonType,
        FramelessWidgetsHelper.setSystemButton tk q widget buttonType s
        = setSystemButton tk q widget buttonType s)
  /\ (forall edges pos,
        FramelessWidgetsHelper.windowStartSystemResize2 tk q edges pos s
        = windowStartSystemResize2 tk q edges pos s).
Proof.
  split; [now intros [w|]|]. split; [now intros [w|]|].
  split; [intros [w|] []; reflexivity|].
  intros edges pos.
  unfold FramelessWidgetsHelper.windowStartSystemResize2, windowStartSystemResize2.
  destruct (edges =? 0) eqn:E; [|reflexivity].
  now destruct (getWindow tk q).
Qed.

End Guards.

(** ** One entry per window *)

Section Frame.

Variable tk : Toolkit.
Variable q : Helper.

(** C5. The state of a helper is the entry of the global hash at the window
    id of its window ([windowData] reads nothing else).  Whatever call a
    helper makes ([setTitleBarWidget], [setSystemButton],
    [setHitTestVisible], [attachToWindow] or any other), called with the
    mutex free it returns, and every entry of the hash at a key other than
    the window id of the helper's window is as before, present or absent;
    with no window, every entry is.  So the entry another helper reads is
    as before whenever its window has another window id. *)
Theorem per_window_frame (c : Call) (s : State) :
  mutex s = false ->
  exists s',
    exec tk q c s = Some s'
    /\ (forall wid,
          (forall window, getWindow tk q = Some window -> wid <> QWidget_winId tk window) ->
          data s' !! wid = data s !! wid)
    /\ (forall q',
          (forall window window',
             getWindow tk q = Some window -> getWindow tk q' = Some window' ->
             QWidget_winId tk window' <> QWidget_winId tk window) ->
          windowData tk q' s' = windowData tk q' s).
Proof.
  intros Hm. destruct (exec_sound tk q c s Hm) as (s' & Hrun & _ & _ & Hframe & _).
  exists s'. split; [exact Hrun|]. split; [exact Hframe|].
  intros q' Hother. unfold windowData.
  destruct (getWindow tk q') as [window'|] eqn:Hw'; [|reflexivity].
  unfold QHash_value. rewrite Hframe; [reflexivity|].
  intros window Hw. now apply Hother.
Qed.

End Frame.

(** ** The mutex *)

Section Mutex.

Variable tk : Toolkit.
Variable q : Helper.

Lemma exec_locker c s :
  mutex s = false -> constructsLocker c = true ->
  exists s', exec tk q c s = Some s' /\ mutex s' = false
             /\ syncs (trace s') = syncs (trace s) ++ criticalSections 1.
Proof.
  intros Hm Hc.
  destruct c as [| | [widget|] | | [widget|] | | | | | | | | | | | | | [widget|] buttonType];
    try discriminate Hc; cbn [exec]; unfold after.
  - destruct (getWindow tk q) as [window|] eqn:Hw.
    + rewrite (setTitleBarWidget_run tk q widget window s Hm Hw).
      eexists. split; [reflexivity|].
      destruct (QWidgetPtr_eqb _ _); cbn [mutex trace]; now rewrite syncs_app.
    + rewrite (setTitleBarWidget_nowindow tk q widget s Hm Hw).
      eexists. split; [reflexivity|]. cbn [mutex trace]. now rewrite syncs_app.
  - destruct (getWindow tk q) as [window|] eqn:Hw.
    + rewrite (setHitTestVisible_run tk q widget window s Hm Hw).
      eexists. split; [reflexivity|]. cbn [mutex trace]. now rewrite syncs_app.
    + rewrite (setHitTestVisible_nowindow tk q widget s Hm Hw).
      eexists. split; [reflexivity|]. cbn [mutex trace]. now rewrite syncs_app.
  - assert (Hu : buttonType <> Unknown) by (intros ->; discriminate Hc).
    destruct (getWindow tk q) as [window|] eqn:Hw.
    + rewrite (setSystemButton_run tk q widget buttonType window s Hm Hw Hu).
      eexists. split; [reflexivity|]. cbn [mutex trace]. now rewrite syncs_app.
    + rewrite (setSystemButton_nowindow tk q widget buttonType s Hm Hw Hu).
      eexists. split; [reflexivity|]. cbn [mutex trace]. now rewrite syncs_app.
Qed.

Lemma lockCount_locker c s : constructsLocker c = true -> lockCount tk q c s = 1%nat.
Proof.
  destruct c as [| | [widget|] | | [widget|] | | | | | | | | | | | | | [widget|] buttonType];
    try discriminate; try reflexivity.
  now destruct buttonType.
Qed.

Lemma lockCount_reachesHash c s : reachesHash c = false -> lockCount tk q c s = 0%nat.
Proof. now destruct c. Qed.

Lemma lockCount_le c s : (lockCount tk q c s <= 2)%nat.
Proof.
  destruct c as [| | [widget|] | | [widget|] | | | | ? [button|] | | | button ? | | | | |
                 | [widget|] buttonType];
    cbn [lockCount]; unfold windowSections; try lia.
  - destruct (getWindow tk q); lia.
  - destruct (getWindow tk q); [destruct (attached _)|]; lia.
  - destruct (getWindow tk q); lia.
  - destruct (getWindow tk q); lia.
  - destruct button, (getWindow tk q); lia.
  - destruct buttonType; lia.
Qed.

Lemma windowSections_zero : windowSections tk q = 0%nat -> getWindow tk q = None.
Proof. unfold windowSections. now destruct (getWindow tk q). Qed.

Lemma windowSections_nonzero :
  windowSections tk q <> 0%nat -> exists window, getWindow tk q = Some window.
Proof.
  unfold windowSections. destruct (getWindow tk q) as [window|]; [now exists window|].
  intros H. now elim H.
Qed.

(** With no window [getWindowData] returns before its locker. *)
Lemma lockfree_getWindowData : getWindow tk q = None -> lockfree (getWindowData tk q).
Proof.
  intros Hw s. exists WidgetsHelperData_default, s.
  split; [now apply getWindowData_null | auto].
Qed.

Ltac lockfree_step :=
  first
    [ apply lockfree_ret
    | apply lockfree_get
    | apply lockfree_emit; reflexivity
    | apply lockfree_setProps
    | apply lockfree_bind; [|intros ?]
    | match goal with
      | |- lockfree (match ?x with _ => _ end) => destruct x
      | |- lockfree (if ?x then _ else _) => destruct x
      end ].

(** What the readers do with the entry [getWindowData] gave them touches
    neither the mutex nor the hash. *)
Lemma lockfree_isInSystemButtons_rest pos (d : WidgetsHelperData) :
  lockfree (bind get (fun s : State =>
      if geometryContains s (windowIconButton d) pos then ret (true, Some WindowIcon)
      else if geometryContains s (contextHelpButton d) pos then ret (true, Some Help)
      else if geometryContains s (minimizeButton d) pos then ret (true, Some Minimize)
      else if geometryContains s (maximizeButton d) pos then ret (true, Some Maximize)
      else if geometryContains s (closeButton d) pos then ret (true, Some Close)
      else ret (false, Some Unknown))).
Proof. repeat lockfree_step. Qed.

Lemma lockfree_updateButtonState state btn : lockfree (updateButtonState state btn).
Proof. unfold updateButtonState. repeat lockfree_step. Qed.

(** A reader: [getWindowData], then code that is free of the mutex and of
    the hash. *)
Lemma getWindowData_then {A} (k : WidgetsHelperData -> M A) s :
  (forall d, lockfree (k d)) -> mutex s = false ->
  exists s',
    after (bind (getWindowData tk q) k) s = Some s'
    /\ mutex s' = false
    /\ syncs (trace s') = syncs (trace s) ++ criticalSections (windowSections tk q).
Proof.
  intros Hk Hm. unfold after, bind, windowSections.
  destruct (getWindow tk q) as [window|] eqn:Hw.
  - rewrite (getWindowData_run tk q window s Hw Hm).
    destruct (Hk (windowData tk q s)
                 (mkState false (ensured (data s) (QWidget_winId tk window)) (widgets s)
                          (trace s ++ [MutexLock; MutexUnlock])))
      as (a & s' & Hrun & Hm' & _ & Ht').
    rewrite Hrun. exists s'. split; [reflexivity|]. split; [exact Hm'|].
    rewrite Ht'. cbn [trace]. now rewrite syncs_app.
  - rewrite (getWindowData_null tk q s Hw).
    destruct (Hk WidgetsHelperData_default s) as (a & s' & Hrun & Hm' & _ & Ht').
    rewrite Hrun. exists s'. split; [reflexivity|]. split; [congruence|].
    rewrite Ht'. cbn [criticalSections]. now rewrite app_nil_r.
Qed.

Lemma getWindowData_then_blocked {A} (k : WidgetsHelperData -> M A) s :
  mutex s = true -> windowSections tk q <> 0%nat ->
  after (bind (getWindowData tk q) k) s = None.
Proof.
  intros Hm Hn. destruct (windowSections_nonzero Hn) as [window Hw].
  unfold after, bind. now rewrite (getWindowData_blocked tk q window s Hw Hm).
Qed.

Lemma getWindowData_then_nowindow {A} (k : WidgetsHelperData -> M A) :
  (forall d, lockfree (k d)) -> windowSections tk q = 0%nat ->
  lockfree (bind (getWindowData tk q) k).
Proof.
  intros Hk H0. apply lockfree_bind; [|exact Hk].
  apply lockfree_getWindowData. now apply windowSections_zero.
Qed.

(** A call that makes no critical section returns whatever the mutex is,
    and leaves the mutex, the hash and the record of mutex operations as
    they were. *)
Lemma exec_no_section c s :
  lockCount tk q c s = 0%nat ->
  exists s', exec tk q c s = Some s' /\ mutex s' = mutex s /\ data s' = data s
             /\ syncs (trace s') = syncs (trace s).
Proof.
  intros H0. destruct (reachesHash c) eqn:Hr; [|now apply exec_lockfree].
  destruct c as [| | [widget|] | | [widget|] | | | | pos [button|] | pos | | button state | | | | |
                 | [widget|] buttonType];
    try discriminate Hr; try discriminate H0; cbn [exec lockCount] in *;
    apply lockfree_after.
  - apply lockfree_ret.
  - unfold getTitleBarWidget. apply getWindowData_then_nowindow; [|exact H0].
    intros d. apply lockfree_ret.
  - apply lockfree_ret.
  - unfold attachToWindow. destruct (getWindow tk q); [|apply lockfree_ret].
    destruct (attached _); discriminate H0.
  - unfold isInSystemButtons. apply getWindowData_then_nowindow; [|exact H0].
    intros d. apply lockfree_isInSystemButtons_rest.
  - apply lockfree_ret.
  - unfold isInTitleBarDraggableArea. apply getWindowData_then_nowindow; [|exact H0].
    intros d. cbv zeta. repeat lockfree_step.
  - destruct button; try apply lockfree_ret;
      unfold setSystemButtonState; (apply getWindowData_then_nowindow; [|exact H0]);
      intros d; cbv zeta; repeat lockfree_step; apply lockfree_updateButtonState.
  - destruct buttonType; try discriminate H0. exact (lockfree_ret tt).
  - apply lockfree_ret.
Qed.

(** Called with the mutex free, a call returns with the mutex free, after
    [lockCount] critical sections. *)
Lemma exec_sections c s :
  mutex s = false ->
  exists s', exec tk q c s = Some s' /\ mutex s' = false
             /\ syncs (trace s') = syncs (trace s) ++ criticalSections (lockCount tk q c s).
Proof.
  intros Hm. destruct (constructsLocker c) eqn:Hc.
  { rewrite (lockCount_locker c s Hc). now apply exec_locker. }
  destruct (Nat.eq_dec (lockCount tk q c s) 0%nat) as [H0|Hn].
  { destruct (exec_no_section c s H0) as (s' & Hrun & Hm' & _ & Ht).
    exists s'. split; [exact Hrun|]. split; [congruence|].
    rewrite H0, Ht. cbn [criticalSections]. now rewrite app_nil_r. }
  destruct c as [| | [widget|] | | [widget|] | | | | pos [button|] | pos | | button state | | | | |
                 | [widget|] buttonType];
    try discriminate Hc; try (now elim Hn); cbn [exec lockCount] in *.
  - unfold getTitleBarWidget. apply getWindowData_then; [|exact Hm].
    intros d. apply lockfree_ret.
  - destruct (getWindow tk q) as [window|] eqn:Hw; [|now elim Hn].
    unfold after. destruct (attached (windowData tk q s)) eqn:Ha.
    + rewrite (attachToWindow_attached tk q window s Hm Hw Ha).
      eexists. split; [reflexivity|]. cbn [mutex trace]. now rewrite syncs_app.
    + destruct (attachToWindow_fresh tk q window s Hm Hw Ha) as (W & Hrun & _).
      rewrite Hrun. eexists. split; [reflexivity|]. cbn [mutex trace].
      now rewrite syncs_app.
  - unfold isInSystemButtons. apply getWindowData_then; [|exact Hm].
    intros d. apply lockfree_isInSystemButtons_rest.
  - unfold isInTitleBarDraggableArea. apply getWindowData_then; [|exact Hm].
    intros d. cbv zeta. repeat lockfree_step.
  - destruct button; try (now elim Hn);
      unfold setSystemButtonState; (apply getWindowData_then; [|exact Hm]);
      intros d; cbv zeta; repeat lockfree_step; apply lockfree_updateButtonState.
  - destruct buttonType; try discriminate Hc; now elim Hn.
Qed.

(** Called while the mutex is held, a call that would make a critical
    section gives no result: its first [lock] finds the mutex held. *)
Lemma exec_blocked c s :
  mutex s = true -> lockCount tk q c s <> 0%nat -> exec tk q c s = None.
Proof.
  intros Hm Hn.
  destruct c as [| | [widget|] | | [widget|] | | | | pos [button|] | pos | | button state | | | | |
                 | [widget|] buttonType];
    try (now elim Hn); cbn [exec lockCount] in *.
  - unfold after, setTitleBarWidget, QMutexLocker, bind, lock. now rewrite Hm.
  - unfold getTitleBarWidget. now apply getWindowData_then_blocked.
  - unfold after, setHitTestVisible, QMutexLocker, bind, lock. now rewrite Hm.
  - unfold after, attachToWindow. destruct (getWindow tk q) as [window|]; [|now elim Hn].
    unfold bind, lock. now rewrite Hm.
  - unfold isInSystemButtons. now apply getWindowData_then_blocked.
  - unfold isInTitleBarDraggableArea. now apply getWindowData_then_blocked.
  - destruct button; try (now elim Hn);
      unfold setSystemButtonState; now apply getWindowData_then_blocked.
  - destruct buttonType; try (now elim Hn);
      unfold after, setSystemButton, QMutexLocker, bind, lock; now rewrite Hm.
Qed.

(** C7, as the code has it.  The module does implement synchronisation of
    its own: its operations lock and unlock the global mutex declared
    beside the global hash.  In a run of the calls one after the other,
    with [lockCount] the number read off each operation:
    - a call made with the mutex free returns with the mutex free, and the
      mutex operations it made are [lockCount] critical sections one after
      the other, each a lock followed by its unlock, never a lock inside
      another;
    - a call with [lockCount] 0 returns whatever the mutex is and leaves
      the mutex, the hash and the record of mutex operations as they were:
      the hash changes only in calls that lock;
    - a call with another [lockCount] made while the mutex is held gives no
      result in this model: its first lock finds the non-recursive mutex
      held, and nothing in a run on one thread unlocks it;
    - [lockCount] is 0 for the calls outside [reachesHash], 1 for the three
      setters called with a widget (and a known button type), and never
      more than 2. *)
Theorem mutex_discipline (c : Call) (s : State) :
  (mutex s = false ->
   exists s',
     exec tk q c s = Some s'
     /\ mutex s' = false
     /\ syncs (trace s') = syncs (trace s) ++ criticalSections (lockCount tk q c s))
  /\ (lockCount tk q c s = 0%nat ->
      exists s',
        exec tk q c s = Some s'
        /\ mutex s' = mutex s /\ data s' = data s
        /\ syncs (trace s') = syncs (trace s))
  /\ (mutex s = true -> lockCount tk q c s <> 0%nat -> exec tk q c s = None)
  /\ (reachesHash c = false -> lockCount tk q c s = 0%nat)
  /\ (constructsLocker c = true -> lockCount tk q c s = 1%nat)
  /\ (lockCount tk q c s <= 2)%nat.
Proof.
  split; [apply exec_sections|].
  split; [apply exec_no_section|].
  split; [apply exec_blocked|].
  split; [apply lockCount_reachesHash|].
  split; [apply lockCount_locker | apply lockCount_le].
Qed.

End Mutex.

(** ** The list of hit-test-visible widgets *)

Section HitTestVisible.

Variable tk : Toolkit.

(** Between two calls the mutex is free, and no list of hit-test-visible
    widgets holds a widget twice or a null pointer (the [Q_ASSERT(widget)]
    in the loop of [isInTitleBarDraggableArea] holds). *)
Lemma reachable_invariant s :
  reachable tk s ->
  mutex s = false
  /\ forall wid,
       List.NoDup (hitTestVisibleWidgets (QHash_value (data s) wid))
       /\ ~ In None (hitTestVisibleWidgets (QHash_value (data s) wid)).
Proof.
  induction 1 as [s (Hm & Hd & _) | s q c s' Hr [Hm Hnd] Hrun].
  - split; [exact Hm|]. intros wid. rewrite Hd. unfold QHash_value.
    rewrite lookup_empty. split; [constructor | intros []].
  - destruct (exec_sound tk q c s Hm) as (s1 & Hrun1 & Hm1 & _ & _ & Hg).
    assert (s1 = s') by congruence. subst s1.
    split; [exact Hm1|]. intros wid. destruct (Hg wid) as (_ & Hd & Hn).
    destruct (Hnd wid). auto.
Qed.

(** C8. For a non-null widget and a helper whose window resolves, called
    with the mutex free, [setHitTestVisible] returns; the list of the
    window's entry is unchanged if it held the widget already, and is the
    old list with the widget appended once otherwise; either way it holds
    the widget afterwards.  No call of any helper removes anything: the
    list of every entry before the call is an initial segment of the list
    after it.  In every state reached from the start of the program by
    calls of the module, no list has duplicates. *)
Theorem setHitTestVisible_append_only :
  (forall q widget window s,
     mutex s = false ->
     getWindow tk q = Some window ->
     exists s',
       setHitTestVisible tk q (Some widget) s = Some (tt, s')
       /\ (In (Some widget) (hitTestVisibleWidgets (windowData tk q s)) ->
           hitTestVisibleWidgets (windowData tk q s')
           = hitTestVisibleWidgets (windowData tk q s))
       /\ (~ In (Some widget) (hitTestVisibleWidgets (windowData tk q s)) ->
           hitTestVisibleWidgets (windowData tk q s')
           = hitTestVisibleWidgets (windowData tk q s) ++ [Some widget])
       /\ In (Some widget) (hitTestVisibleWidgets (windowData tk q s')))
  /\ (forall q c s,
        mutex s = false ->
        exists s',
          exec tk q c s = Some s'
          /\ forall wid, exists more,
               hitTestVisibleWidgets (QHash_value (data s') wid)
               = hitTestVisibleWidgets (QHash_value (data s) wid) ++ more)
  /\ (forall s, reachable tk s ->
        forall wid, List.NoDup (hitTestVisibleWidgets (QHash_value (data s) wid))).
Proof.
  split; [|split].
  - intros q widget window s Hm Hw.
    rewrite (setHitTestVisible_run tk q widget window s Hm Hw).
    eexists. split; [reflexivity|].
    set (l := hitTestVisibleWidgets (windowData tk q s)).
    destruct (QList_contains l (Some widget)) eqn:Hc.
    + assert (Hsame : hitTestVisibleWidgets
                        (windowData tk q
                           (mkState false (ensured (data s) (QWidget_winId tk window))
                                    (widgets s) (trace s ++ [MutexLock; MutexUnlock]))) = l).
      { unfold windowData at 1. rewrite Hw. cbn [data]. rewrite QHash_value_ensured.
        unfold l, windowData. now rewrite Hw. }
      apply QList_contains_true in Hc.
      rewrite Hsame. repeat split; [contradiction | exact Hc].
    + match goal with
      | |- context [windowData tk q ?s1] =>
          assert (Hnew : hitTestVisibleWidgets (windowData tk q s1) = l ++ [Some widget])
      end.
      { unfold windowData at 1. rewrite Hw. cbn [data]. now rewrite QHash_value_insert. }
      apply QList_contains_false in Hc.
      rewrite Hnew. repeat split; [contradiction|].
      apply in_or_app. right. now left.
  - intros q c s Hm.
    destruct (exec_sound tk q c s Hm) as (s' & Hrun & _ & _ & _ & Hg).
    exists s'. split; [exact Hrun|]. intros wid. exact (proj1 (Hg wid)).
  - intros s Hr wid. exact (proj1 (proj2 (reachable_invariant s Hr) wid)).
Qed.

End HitTestVisible.

(** ** The theorems at the window of [Demo] *)

(** At the point (100, 10) of the title bar of [Demo.s_titled], which is
    left of every button and of the search box. *)
Lemma isInTitleBarDraggableArea_iff_witness :
  mutex Demo.s_titled = false
  /\ exists b s',
       isInTitleBarDraggableArea Demo.tk 1 (mkQPoint 100 10) Demo.s_titled = Some (b, s')
       /\ (b = true <->
           exists titleBar,
             titleBarWidget (windowData Demo.tk 1 Demo.s_titled) = Some titleBar
             /\ QRect_inside (mapWidgetGeometryToScene Demo.tk 1 (Some titleBar) Demo.s_titled)
                             (mkQPoint 100 10)
             /\ (forall button,
                   In (Some button) (systemButtons (windowData Demo.tk 1 Demo.s_titled)) ->
                   ~ QRect_inside
                       (mapWidgetGeometryToScene Demo.tk 1 (Some button) Demo.s_titled)
                       (mkQPoint 100 10))
             /\ (forall widget,
                   In (Some widget)
                      (hitTestVisibleWidgets (windowData Demo.tk 1 Demo.s_titled)) ->
                   ~ QRect_inside
                       (mapWidgetGeometryToScene Demo.tk 1 (Some widget) Demo.s_titled)
                       (mkQPoint 100 10))).
Proof.
  split; [reflexivity|].
  exact (isInTitleBarDraggableArea_iff Demo.tk 1 (mkQPoint 100 10) Demo.s_titled eq_refl).
Defined.

(** [Restore] and [Clicked] on the maximize button, widget 4. *)
Lemma setSystemButtonState_dispatch_witness :
  exists s',
    setSystemButtonState Demo.tk 1 Restore Clicked Demo.s_titled = Some (tt, s')
    /\ trace s' = trace Demo.s_titled ++ [MutexLock; MutexUnlock] ++
         [InvokeMethod 4 "setPressed" (Some false);
          InvokeMethod 4 "setHovered" (Some true);
          InvokeMethod 4 "clicked" None].
Proof.
  assert (Hin : In (Restore, Some 4%positive)
                   [(WindowIcon, windowIconButton (windowData Demo.tk 1 Demo.s_titled));
                    (Help, contextHelpButton (windowData Demo.tk 1 Demo.s_titled));
                    (Minimize, minimizeButton (windowData Demo.tk 1 Demo.s_titled));
                    (Maximize, maximizeButton (windowData Demo.tk 1 Demo.s_titled));
                    (Restore, maximizeButton (windowData Demo.tk 1 Demo.s_titled));
                    (Close, closeButton (windowData Demo.tk 1 Demo.s_titled))]).
  { right. right. right. right. left. reflexivity. }
  assert (Hexp : exposesButtonInterface Demo.tk 4).
  { unfold exposesButtonInterface. simpl. lia. }
  destruct (setSystemButtonState_dispatch Demo.tk 1 Restore Clicked Demo.s_titled
              1%positive 4%positive eq_refl eq_refl Hin Hexp)
    as [(s' & Hrun & _ & _ & _ & Ht) _].
  exists s'. split; [exact Hrun | exact Ht].
Defined.

(** Helper 2, whose parent is not a widget. *)
Lemma null_guards_witness :
  getWindow Demo.tk 2 = None /\ mutex Demo.s0 = false
  /\ isWindowFixedSize Demo.tk 2 Demo.s0 = false
  /\ (forall widget, exists s',
        setTitleBarWidget Demo.tk 2 widget Demo.s0 = Some (tt, s')
        /\ unchanged Demo.s0 s')
  /\ (forall pos v0,
        isInSystemButtons Demo.tk 2 pos (Some v0) Demo.s0
        = Some ((false, Some Unknown), Demo.s0)).
Proof.
  destruct (null_guards Demo.tk 2 Demo.s0) as [Hnull _].
  destruct (Hnull eq_refl) as (Hfixed & _ & Hset & _ & _ & _ & _ & _ & Hin & _).
  destruct (Hset eq_refl) as (Htitle & _).
  repeat split; try assumption.
Defined.

(** Helper 1 registers its title bar: the entry of window 9 is as before. *)
Lemma per_window_frame_witness :
  mutex Demo.s0 = false
  /\ exists s',
       exec Demo.tk 1 (Call_setTitleBarWidget (Some 2%positive)) Demo.s0 = Some s'
       /\ data s' !! 9%N = data Demo.s0 !! 9%N
       /\ windowData Demo.tk 3 s' = windowData Demo.tk 3 Demo.s0.
Proof.
  split; [reflexivity|].
  destruct (per_window_frame Demo.tk 1 (Call_setTitleBarWidget (Some 2%positive))
              Demo.s0 eq_refl) as (s' & Hrun & Hframe & Hother).
  exists s'. split; [exact Hrun|]. split.
  - apply Hframe. intros window Hw. injection Hw as <-. discriminate.
  - apply Hother. intros window window' Hw Hw'.
    injection Hw as <-. injection Hw' as <-. discriminate.
Defined.

(** The minimize button, widget 3, in window 1. *)
Lemma mapWidgetGeometryToScene_adapter_witness :
  getWindow Demo.tk 1 = Some 1%positive
  /\ QRect_topLeft (mapWidgetGeometryToScene Demo.tk 1 (Some 3%positive) Demo.s0)
     = mkQPoint 710 0
  /\ QRect_size (mapWidgetGeometryToScene Demo.tk 1 (Some 3%positive) Demo.s0)
     = mkQSize 30 30.
Proof.
  split; [reflexivity|].
  exact (proj1 (mapWidgetGeometryToScene_adapter Demo.tk 1 Demo.s0)
               3%positive 1%positive eq_refl).
Defined.

(** At start-up helper 1 registers its title bar: one critical section.
    Bringing its window to the front makes none, and leaves the hash as it
    was.  Were the mutex held, reading the title bar widget would give no
    result. *)
Lemma mutex_discipline_witness :
  (mutex Demo.s0 = false
   /\ constructsLocker (Call_setTitleBarWidget (Some 2%positive)) = true
   /\ exists s',
        exec Demo.tk 1 (Call_setTitleBarWidget (Some 2%positive)) Demo.s0 = Some s'
        /\ mutex s' = false
        /\ syncs (trace s') = syncs (trace Demo.s0) ++ criticalSections 1)
  /\ (reachesHash Call_bringWindowToFront = false
      /\ exists s',
           exec Demo.tk 1 Call_bringWindowToFront Demo.s0 = Some s'
           /\ mutex s' = mutex Demo.s0 /\ data s' = data Demo.s0
           /\ syncs (trace s') = syncs (trace Demo.s0))
  /\ (mutex (mkState true (data Demo.s0) (widgets Demo.s0) (trace Demo.s0)) = true
      /\ lockCount Demo.tk 1 Call_getTitleBarWidget
           (mkState true (data Demo.s0) (widgets Demo.s0) (trace Demo.s0)) = 1%nat
      /\ exec Demo.tk 1 Call_getTitleBarWidget
           (mkState true (data Demo.s0) (widgets Demo.s0) (trace Demo.s0)) = None).
Proof.
  split; [|split].
  - split; [reflexivity|]. split; [reflexivity|].
    destruct (mutex_discipline Demo.tk 1 (Call_setTitleBarWidget (Some 2%positive)) Demo.s0)
      as (Hfree & _).
    destruct (Hfree eq_refl) as (s' & Hrun & Hm & Ht).
    exists s'. auto.
  - split; [reflexivity|].
    destruct (mutex_discipline Demo.tk 1 Call_bringWindowToFront Demo.s0)
      as (_ & Hnone & _ & Hreach & _).
    exact (Hnone (Hreach eq_refl)).
  - split; [reflexivity|]. split; [reflexivity|].
    destruct (mutex_discipline Demo.tk 1 Call_getTitleBarWidget
                (mkState true (data Demo.s0) (widgets Demo.s0) (trace Demo.s0)))
      as (_ & _ & Hheld & _).
    apply Hheld; [reflexivity | vm_compute; discriminate].
Defined.

(** C7 as stated fails: registering the title bar of window 1 at start-up
    locks and unlocks the global mutex, and the same call made while the
    mutex is held gives no result: its lock finds the mutex held. *)
Lemma setTitleBarWidget_locks_the_mutex :
  syncs (trace Demo.s0) = []
  /\ (exists s',
        exec Demo.tk 1 (Call_setTitleBarWidget (Some 2%positive)) Demo.s0 = Some s'
        /\ syncs (trace s') = [MutexLock; MutexUnlock])
  /\ exec Demo.tk 1 (Call_setTitleBarWidget (Some 2%positive))
          (mkState true (data Demo.s0) (widgets Demo.s0) (trace Demo.s0)) = None.
Proof.
  split; [reflexivity|]. split; [|reflexivity].
  eexists. split; reflexivity.
Qed.

(** The search box, widget 8, is made hit-test visible at start-up; the
    state after it is reachable. *)
Lemma setHitTestVisible_append_only_witness :
  mutex Demo.s0 = false /\ getWindow Demo.tk 1 = Some 1%positive
  /\ exists s',
       setHitTestVisible Demo.tk 1 (Some 8%positive) Demo.s0 = Some (tt, s')
       /\ hitTestVisibleWidgets (windowData Demo.tk 1 s') = [Some 8%positive]
       /\ forall wid, List.NoDup (hitTestVisibleWidgets (QHash_value (data s') wid)).
Proof.
  split; [reflexivity|]. split; [reflexivity|].
  destruct (setHitTestVisible_append_only Demo.tk) as (Hset & _ & Hreach).
  destruct (Hset 1%positive 8%positive 1%positive Demo.s0 eq_refl eq_refl)
    as (s' & Hrun & _ & Happ & _).
  exists s'. split; [exact Hrun|]. split.
  - apply Happ. intros [].
  - apply Hreach.
    apply (reachable_exec Demo.tk Demo.s0 1%positive
             (Call_setHitTestVisible (Some 8%positive)) s').
    + apply reachable_initial. repeat split.
    + cbn [exec]. unfold after. now rewrite Hrun.
Defined.

(** The point (720, 10) of [Demo.s_titled] is in the minimize button. *)
Lemma isInSystemButtons_priority_witness :
  mutex Demo.s_titled = false
  /\ exists s',
       isInSystemButtons Demo.tk 1 (mkQPoint 720 10) (Some Close) Demo.s_titled
       = Some ((true, Some Minimize), s').
Proof.
  split; [reflexivity|].
  destruct (isInSystemButtons_priority Demo.tk 1 (mkQPoint 720 10) Close Demo.s_titled
              eq_refl) as (r & out & s' & Hrun & _).
  exists s'. rewrite Hrun. 
  assert (Hv : option_map fst
                 (isInSystemButtons Demo.tk 1 (mkQPoint 720 10) (Some Close) Demo.s_titled)
               = Some (true, Some Minimize)) by reflexivity.
  rewrite Hrun in Hv. injection Hv as -> ->. reflexivity.
Defined.

(** Helper 1 registers widget 2 as title bar at start-up. *)
Lemma setTitleBarWidget_signal_witness :
  mutex Demo.s0 = false /\ getWindow Demo.tk 1 = Some 1%positive
  /\ titleBarWidget (windowData Demo.tk 1 Demo.s0) <> Some 2%positive
  /\ exists s',
       setTitleBarWidget Demo.tk 1 (Some 2%positive) Demo.s0 = Some (tt, s')
       /\ effects (trace s') = effects (trace Demo.s0) ++ [Emit_titleBarWidgetChanged 1]
       /\ exists s'', getTitleBarWidget Demo.tk 1 s' = Some (Some 2%positive, s'').
Proof.
  assert (Hne : titleBarWidget (windowData Demo.tk 1 Demo.s0) <> Some 2%positive)
    by discriminate.
  split; [reflexivity|]. split; [reflexivity|]. split; [exact Hne|].
  destruct (proj2 (setTitleBarWidget_signal Demo.tk 1 2%positive 1%positive Demo.s0
                     eq_refl eq_refl) Hne)
    as (s' & Hrun & _ & _ & _ & Ht & Hget).
  exists s'. auto.
Defined.

(** * Further properties *)

(** ** What no call undoes *)

Lemma persists_refl d : persists d d.
Proof. unfold persists. tauto. Qed.

Lemma persists_trans d1 d2 d3 : persists d1 d2 -> persists d2 d3 -> persists d1 d3.
Proof. unfold persists. tauto. Qed.

Section Keeps.

Variable allowed : Widget -> Prop.
Variable p : Event -> bool.
Hypothesis p_lock : p MutexLock = false.
Hypothesis p_unlock : p MutexUnlock = false.

Lemma step_keeps_refl s : step_keeps allowed p s s.
Proof.
  split; [auto|]. split; [intros wid; apply persists_refl|]. split; reflexivity.
Qed.

Lemma step_keeps_trans s1 s2 s3 :
  step_keeps allowed p s1 s2 -> step_keeps allowed p s2 s3 -> step_keeps allowed p s1 s3.
Proof.
  intros (Hk1 & Hp1 & Hw1 & Ht1) (Hk2 & Hp2 & Hw2 & Ht2).
  split; [auto|]. split; [|split].
  - intros wid. eapply persists_trans; [apply Hp1 | apply Hp2].
  - intros w Hw. now rewrite Hw2, Hw1.
  - now rewrite Ht2.
Qed.

Lemma keeps_ret {A} (a : A) : keeps allowed p (ret a).
Proof. intros s a' s' H. injection H as _ <-. apply step_keeps_refl. Qed.

Lemma keeps_get : keeps allowed p get.
Proof. intros s a' s' H. injection H as _ <-. apply step_keeps_refl. Qed.

Lemma keeps_bind {A B} (m : M A) (k : A -> M B) :
  keeps allowed p m -> (forall a, keeps allowed p (k a)) -> keeps allowed p (bind m k).
Proof.
  intros Hm Hk s b s' H. unfold bind in H.
  destruct (m s) as [[a s1]|] eqn:E; [|discriminate].
  eapply step_keeps_trans; [eapply Hm; exact E | eapply Hk; exact H].
Qed.

(** A step that changes neither the hash nor a widget and adds [t]. *)
Lemma step_keeps_trace s m t :
  List.filter p t = [] ->
  step_keeps allowed p s (mkState m (data s) (widgets s) (trace s ++ t)).
Proof.
  intros Ht. split; [auto|]. split; [intros wid; apply persists_refl|].
  split; [reflexivity|]. cbn [trace]. rewrite List.filter_app, Ht. apply app_nil_r.
Qed.

Lemma keeps_lock : keeps allowed p lock.
Proof.
  intros s a s' H. unfold lock in H. destruct (mutex s); [discriminate|].
  injection H as _ <-. apply step_keeps_trace. cbn. now rewrite p_lock.
Qed.

Lemma keeps_unlock : keeps allowed p unlock.
Proof.
  intros s a s' H. injection H as _ <-. apply step_keeps_trace. cbn. now rewrite p_unlock.
Qed.

Lemma keeps_emit e : p e = false -> keeps allowed p (emit e).
Proof.
  intros He s a s' H. injection H as _ <-. apply step_keeps_trace. cbn. now rewrite He.
Qed.

Lemma keeps_setProps w f : allowed w -> keeps allowed p (setProps w f).
Proof.
  intros Hw s a s' H. injection H as _ <-.
  split; [auto|]. split; [intros wid; apply persists_refl|].
  split; [|reflexivity]. intros w' Hn. cbn [widgets].
  destruct (Pos.eqb_spec w' w) as [->|]; [contradiction | reflexivity].
Qed.

(** Creating a missing entry. *)
Lemma step_keeps_ensured s k m t :
  List.filter p t = [] ->
  step_keeps allowed p s (mkState m (ensured (data s) k) (widgets s) (trace s ++ t)).
Proof.
  intros Ht. split; [|split; [|split]]; cbn [data widgets trace].
  - intros wid Hs. unfold ensured. destruct (QHash_contains (data s) k); [exact Hs|].
    destruct (decide (k = wid)) as [->|Hne].
    + now rewrite lookup_insert_eq.
    + now rewrite lookup_insert_ne.
  - intros wid. rewrite QHash_value_ensured. apply persists_refl.
  - reflexivity.
  - rewrite List.filter_app, Ht. apply app_nil_r.
Qed.

Variable tk : Toolkit.
Variable q : Helper.

Lemma keeps_getWindowDataMutable : keeps allowed p (getWindowDataMutable tk q).
Proof.
  intros s a s' H. destruct (getWindow tk q) as [window|] eqn:Hw.
  - rewrite (getWindowDataMutable_run tk q window s Hw) in H. injection H as _ <-.
    rewrite <- (app_nil_r (trace s)). now apply step_keeps_ensured.
  - rewrite (getWindowDataMutable_null tk q s Hw) in H. injection H as _ <-.
    apply step_keeps_refl.
Qed.

Lemma keeps_getWindowData : keeps allowed p (getWindowData tk q).
Proof.
  intros s a s' H. destruct (getWindow tk q) as [window|] eqn:Hw.
  - destruct (mutex s) eqn:Hm.
    + rewrite (getWindowData_blocked tk q window s Hw Hm) in H. discriminate.
    + rewrite (getWindowData_run tk q window s Hw Hm) in H. injection H as _ <-.
      apply step_keeps_ensured. cbn. now rewrite p_lock, p_unlock.
  - rewrite (getWindowData_null tk q s Hw) in H. injection H as _ <-.
    apply step_keeps_refl.
Qed.

Lemma keeps_deref k : keeps allowed p (deref k).
Proof. intros s a s' H. injection H as _ <-. apply step_keeps_refl. Qed.

Lemma keeps_store k f : (forall d, persists d (f d)) -> keeps allowed p (store k f).
Proof.
  intros Hf s a s' H. injection H as _ <-.
  split; [|split; [|split]]; cbn [data widgets trace]; try reflexivity.
  - intros wid Hs. destruct (decide (k = wid)) as [->|Hne].
    + now rewrite lookup_insert_eq.
    + now rewrite lookup_insert_ne.
  - intros wid. destruct (decide (k = wid)) as [->|Hne].
    + rewrite QHash_value_insert. apply Hf.
    + rewrite QHash_value_insert_ne by exact Hne. apply persists_refl.
Qed.

Lemma keeps_after {A} (m : M A) s s' :
  keeps allowed p m -> after m s = Some s' -> step_keeps allowed p s s'.
Proof.
  intros Hk H. unfold after in H. destruct (m s) as [[a s1]|] eqn:E; [|discriminate].
  injection H as <-. eapply Hk. exact E.
Qed.

End Keeps.

Section ExecKeeps.

Variable tk : Toolkit.
Variable q : Helper.
Variable p : Event -> bool.
Hypothesis p_lock : p MutexLock = false.
Hypothesis p_unlock : p MutexUnlock = false.
Hypothesis p_special : forall e, p e = true -> isSignalOrRegistration e = true.

Ltac solve_p Htitle Hattach :=
  first
    [ eapply Htitle; reflexivity
    | apply (proj1 (Hattach eq_refl _))
    | apply (proj2 (Hattach eq_refl _))
    | match goal with
      | |- p ?e = false =>
          let E := fresh "E" in
          destruct (p e) eqn:E; [apply p_special in E; discriminate E | reflexivity]
      end ].

Ltac solve_persists :=
  let d := fresh "d" in
  intros d; unfold persists; cbn; repeat split; intros; try assumption; try discriminate; auto.

Ltac keeps_step Htitle Hattach :=
  first
    [ apply keeps_ret
    | apply keeps_get
    | apply keeps_lock; assumption
    | apply keeps_unlock; assumption
    | apply keeps_getWindowData; assumption
    | apply keeps_getWindowDataMutable
    | apply keeps_deref
    | apply keeps_store; solve_persists
    | apply keeps_emit; solve_p Htitle Hattach
    | apply keeps_setProps; unfold mayChange;
      (split; [reflexivity | first [left; assumption | right; reflexivity]])
    | apply keeps_bind; [|intros ?]
    | match goal with
      | |- keeps _ _ (match ?x with _ => _ end) => destruct x eqn:?
      | |- keeps _ _ (if ?x then _ else _) => destruct x eqn:?
      end ].

(** Whatever a call returns from: it removed no entry, cleared no
    registration, changed no widget but those of [mayChange], and produced
    no event selected by [p]; [p] may select [titleBarWidgetChanged] only
    if the call is not [setTitleBarWidget], and the two events of
    [attachToWindow] only if the call is not [attachToWindow]. *)
Lemma exec_keeps c s s' :
  (forall widget, c = Call_setTitleBarWidget widget ->
                  p (Emit_titleBarWidgetChanged q) = false) ->
  (c = Call_attachToWindow ->
   forall window, p (AddWindow (ParametersOf q window)) = false
                  /\ p (SingleShot q window) = false) ->
  exec tk q c s = Some s' -> step_keeps (mayChange tk q c) p s s'.
Proof.
  intros Htitle Hattach H.
  destruct c; cbn [exec] in H;
    try (injection H as <-; now apply step_keeps_refl);
    (eapply keeps_after; [|exact H]).
  - unfold setWindowFixedSize, QWidget_setFixedSize, QWidget_setWindowFlags,
      QWidget_setMinimumSize, QWidget_setMaximumSize.
    repeat keeps_step Htitle Hattach.
  - unfold setTitleBarWidget, QMutexLocker. repeat keeps_step Htitle Hattach.
  - unfold getTitleBarWidget. repeat keeps_step Htitle Hattach.
  - unfold setHitTestVisible, QMutexLocker. repeat keeps_step Htitle Hattach.
  - unfold attachToWindow. repeat keeps_step Htitle Hattach.
  - unfold attachToWindow_singleShot, moveWindowToDesktopCenter, QWidget_move.
    repeat keeps_step Htitle Hattach.
  - unfold isInSystemButtons. repeat keeps_step Htitle Hattach.
  - unfold isInTitleBarDraggableArea. repeat keeps_step Htitle Hattach.
  - unfold setSystemButtonState, updateButtonState. repeat keeps_step Htitle Hattach.
  - unfold moveWindowToDesktopCenter, QWidget_move. repeat keeps_step Htitle Hattach.
  - unfold bringWindowToFront. repeat keeps_step Htitle Hattach.
  - unfold showSystemMenu. repeat keeps_step Htitle Hattach.
  - unfold windowStartSystemMove2. repeat keeps_step Htitle Hattach.
  - unfold windowStartSystemResize2. repeat keeps_step Htitle Hattach.
  - unfold setSystemButton, QMutexLocker. repeat keeps_step Htitle Hattach.
Qed.

End ExecKeeps.

Section NeverUndone.

Variable tk : Toolkit.
Variable q : Helper.

(** X1. No call removes an entry of the hash, resets an attached flag, or
    leaves an entry without a title bar or a button it had. *)
Theorem registrations_persist (c : Call) (s : State) :
  mutex s = false ->
  exists s',
    exec tk q c s = Some s'
    /\ (forall wid, data s !! wid <> None -> data s' !! wid <> None)
    /\ (forall wid, persists (QHash_value (data s) wid) (QHash_value (data s') wid)).
Proof.
  intros Hm. destruct (exec_sound tk q c s Hm) as (s' & Hrun & _).
  exists s'. split; [exact Hrun|].
  destruct (exec_keeps tk q (fun _ => false) eq_refl eq_refl
              (fun e H => False_ind _ (Bool.diff_false_true H)) c s s'
              (fun _ _ => eq_refl) (fun _ _ => conj eq_refl eq_refl) Hrun)
    as (Hk & Hp & _ & _).
  split; assumption.
Qed.

(** X2. A call changes the properties of no widget unless it is
    [setWindowFixedSize], [attachToWindow] or its deferred part,
    [moveWindowToDesktopCenter] or [bringWindowToFront], and then only
    those of the helper's window (the deferred part: also of the window it
    was given). *)
Theorem widgets_frame (c : Call) (s : State) :
  mutex s = false ->
  exists s',
    exec tk q c s = Some s'
    /\ (changesWidgets c = false -> forall w, widgets s' w = widgets s w)
    /\ (forall w, getWindow tk q <> Some w -> c <> Call_attachToWindow_singleShot w ->
                  widgets s' w = widgets s w).
Proof.
  intros Hm. destruct (exec_sound tk q c s Hm) as (s' & Hrun & _).
  exists s'. split; [exact Hrun|].
  destruct (exec_keeps tk q (fun _ => false) eq_refl eq_refl
              (fun e H => False_ind _ (Bool.diff_false_true H)) c s s'
              (fun _ _ => eq_refl) (fun _ _ => conj eq_refl eq_refl) Hrun)
    as (_ & _ & Hw & _).
  split.
  - intros Hc w. apply Hw. intros [Hch _]. congruence.
  - intros w Hn Hc. apply Hw. intros [_ [H|H]]; contradiction.
Qed.

(** X3. [titleBarWidgetChanged] is emitted by no call but
    [setTitleBarWidget], and a window is handed to
    [FramelessManager::addWindow], or its first show scheduled, by no call
    but [attachToWindow]. *)
Theorem signal_and_registration_sources (c : Call) (s : State) :
  mutex s = false ->
  exists s',
    exec tk q c s = Some s'
    /\ ((forall widget, c <> Call_setTitleBarWidget widget) ->
        List.filter isTitleBarWidgetChanged (trace s')
        = List.filter isTitleBarWidgetChanged (trace s))
    /\ (c <> Call_attachToWindow ->
        List.filter isRegistration (trace s') = List.filter isRegistration (trace s)).
Proof.
  intros Hm. destruct (exec_sound tk q c s Hm) as (s' & Hrun & _).
  exists s'. split; [exact Hrun|]. split.
  - intros Hc.
    refine (proj2 (proj2 (proj2
      (exec_keeps tk q isTitleBarWidgetChanged eq_refl eq_refl _ c s s' _ _ Hrun)))).
    + intros [] H; try discriminate H; reflexivity.
    + intros widget Heq. now destruct (Hc widget).
    + intros _ window. split; reflexivity.
  - intros Hc.
    refine (proj2 (proj2 (proj2
      (exec_keeps tk q isRegistration eq_refl eq_refl _ c s s' _ _ Hrun)))).
    + intros [] H; try discriminate H; reflexivity.
    + intros widget _. reflexivity.
    + intros Heq. contradiction.
Qed.

End NeverUndone.

(** ** Attaching a window *)

Section Attach.

Variable tk : Toolkit.

Lemma windowData_insert q window s d m W t :
  getWindow tk q = Some window ->
  windowData tk q (mkState m (<[QWidget_winId tk window := d]> (data s)) W t) = d.
Proof.
  intros Hw. unfold windowData. rewrite Hw. cbn [data]. apply QHash_value_insert.
Qed.

(** X4. [attachToWindow] attaches a window once.  For a helper whose
    window resolves, called with the mutex free: if the entry of the window
    is not attached yet, the call sets its attached flag, stores the
    parameters of this helper and window in it, sets
    [WA_DontCreateNativeAncestors] and [WA_NativeWindow] on the window, and
    calls [FramelessManager::addWindow] and then [QTimer::singleShot], and
    makes no other call out of the module; if the entry is attached, it
    changes neither the hash nor a widget and makes no call out.  Either
    way the entry is attached afterwards, so a second call does nothing. *)
Theorem attachToWindow_once (q : Helper) (window : Widget) (s : State) :
  mutex s = false ->
  getWindow tk q = Some window ->
  exists s1,
    attachToWindow tk q s = Some (tt, s1)
    /\ mutex s1 = false
    /\ attached (windowData tk q s1) = true
    /\ (attached (windowData tk q s) = false ->
        params (windowData tk q s1) = ParametersOf q window
        /\ WA_DontCreateNativeAncestors (widgets s1 window) = true
        /\ WA_NativeWindow (widgets s1 window) = true
        /\ effects (trace s1)
           = effects (trace s) ++ [AddWindow (ParametersOf q window); SingleShot q window])
    /\ (attached (windowData tk q s) = true ->
        data s1 = data s /\ widgets s1 = widgets s
        /\ effects (trace s1) = effects (trace s))
    /\ exists s2,
         attachToWindow tk q s1 = Some (tt, s2)
         /\ data s2 = data s1 /\ widgets s2 = widgets s1
         /\ effects (trace s2) = effects (trace s1).
Proof.
  intros Hm Hw.
  assert (Hagain : forall s0, mutex s0 = false -> attached (windowData tk q s0) = true ->
            exists s2, attachToWindow tk q s0 = Some (tt, s2)
                       /\ data s2 = data s0 /\ widgets s2 = widgets s0
                       /\ effects (trace s2) = effects (trace s0)).
  { intros s0 Hm0 Ha0. rewrite (attachToWindow_attached tk q window s0 Hm0 Hw Ha0).
    eexists. split; [reflexivity|]. cbn [data widgets trace]. repeat split.
    - apply ensured_contains. unfold windowData in Ha0. rewrite Hw in Ha0.
      unfold QHash_value, QHash_contains in *.
      destruct (data s0 !! QWidget_winId tk window); [reflexivity | discriminate].
    - rewrite effects_app. cbn. apply app_nil_r. }
  destruct (attached (windowData tk q s)) eqn:Ha.
  - destruct (Hagain s Hm Ha) as (s1 & Hrun & Hd & Hwd & Ht).
    assert (Hm1 : mutex s1 = false).
    { rewrite (attachToWindow_attached tk q window s Hm Hw Ha) in Hrun.
      injection Hrun as <-. reflexivity. }
    assert (Ha1 : attached (windowData tk q s1) = true).
    { unfold windowData in *. rewrite Hw in *. now rewrite Hd. }
    exists s1. split; [exact Hrun|]. split; [exact Hm1|]. split; [exact Ha1|].
    split; [discriminate|]. split; [auto|]. now apply Hagain.
  - destruct (attachToWindow_fresh tk q window s Hm Hw Ha) as (W & Hrun & HW & _).
    rewrite Hrun. eexists. split; [reflexivity|].
    rewrite insert_insert_eq.
    match goal with
    | |- context [mkState false (<[?k := ?d]> (ensured ?h ?k)) ?W ?t] =>
        assert (Hd1 : windowData tk q (mkState false (<[k := d]> (ensured h k)) W t) = d)
          by (unfold windowData; rewrite Hw; cbn [data]; apply QHash_value_insert)
    end.
    split; [reflexivity|]. rewrite Hd1. split; [reflexivity|].
    split.
    + intros _. cbn [params with_attached with_params widgets trace]. rewrite HW.
      repeat split. rewrite effects_app. reflexivity.
    + split; [discriminate|].
      apply Hagain; [reflexivity | now rewrite Hd1].
Qed.

Lemma countAddWindow_app wid t t' :
  countAddWindow tk wid (t ++ t')
  = (countAddWindow tk wid t + countAddWindow tk wid t')%nat.
Proof. unfold countAddWindow. now rewrite List.filter_app, length_app. Qed.

Lemma isAddWindowFor_special wid e :
  isAddWindowFor tk wid e = true -> isSignalOrRegistration e = true.
Proof. destruct e; try discriminate; reflexivity. Qed.

(** X5. In every state reached from the start of the program by calls of
    the module, [FramelessManager::addWindow] has been called at most once
    for each window id, and not at all for a window id whose entry is not
    attached. *)
Theorem addWindow_at_most_once (s : State) :
  reachable tk s ->
  forall wid,
    (countAddWindow tk wid (trace s) <= 1)%nat
    /\ (attached (QHash_value (data s) wid) = false ->
        countAddWindow tk wid (trace s) = 0%nat).
Proof.
  induction 1 as [s (Hm & Hd & Ht) | s q c s' Hr IH Hrun].
  - intros wid. rewrite Ht. cbn. split; [lia | reflexivity].
  - pose proof (proj1 (reachable_invariant tk s Hr)) as Hm.
    assert (Hother : c <> Call_attachToWindow ->
              forall wid,
                (countAddWindow tk wid (trace s') <= 1)%nat
                /\ (attached (QHash_value (data s') wid) = false ->
                    countAddWindow tk wid (trace s') = 0%nat)).
    { intros Hc wid.
      destruct (exec_keeps tk q (isAddWindowFor tk wid) eq_refl eq_refl
                  (isAddWindowFor_special wid) c s s'
                  (fun _ _ => eq_refl) (fun H => False_ind _ (Hc H)) Hrun)
        as (_ & Hp & _ & Hf).
      unfold countAddWindow. rewrite Hf. fold (countAddWindow tk wid (trace s)).
      destruct (IH wid) as [Hle Hz]. split; [exact Hle|].
      intros Ha. apply Hz.
      destruct (attached (QHash_value (data s) wid)) eqn:E; [|reflexivity].
      rewrite (proj1 (Hp wid) E) in Ha. discriminate. }
    destruct c; try (apply Hother; discriminate).
    cbn [exec] in Hrun. unfold after in Hrun.
    destruct (getWindow tk q) as [window|] eqn:Hw.
    + destruct (attached (windowData tk q s)) eqn:Ha.
      * rewrite (attachToWindow_attached tk q window s Hm Hw Ha) in Hrun.
        injection Hrun as <-. intros wid. cbn [data trace].
        rewrite QHash_value_ensured, countAddWindow_app. cbn.
        rewrite Nat.add_0_r. apply IH.
      * destruct (attachToWindow_fresh tk q window s Hm Hw Ha) as (W & Hrun' & _).
        rewrite Hrun' in Hrun. injection Hrun as <-. intros wid. cbn [data trace].
        rewrite insert_insert_eq, countAddWindow_app.
        unfold countAddWindow at 2 4. cbn [List.filter isAddWindowFor].
        destruct (IH wid) as [Hle Hz].
        destruct (N.eqb_spec (QWidget_winId tk window) wid) as [<-|Hne].
        -- assert (H0 : countAddWindow tk (QWidget_winId tk window) (trace s) = 0%nat).
           { apply Hz. unfold windowData in Ha. now rewrite Hw in Ha. }
           rewrite H0, QHash_value_insert. cbn. split; [lia | discriminate].
        -- rewrite QHash_value_insert_ne by exact Hne.
           rewrite QHash_value_ensured. cbn. rewrite Nat.add_0_r. split; assumption.
    + unfold attachToWindow in Hrun. rewrite Hw in Hrun. injection Hrun as <-. apply IH.
Qed.

End Attach.

(** ** Fixed size, again *)

Section FixedSizeMore.

Variable tk : Toolkit.
Variable q : Helper.

(** X6. [setWindowFixedSize(v)] followed by [isWindowFixedSize()] gives [v]
    for [v] true, and for [v] false when the size policy of the window is
    not (Fixed, Fixed) (the default window size not being the largest size
    a widget can have). *)
Theorem setWindowFixedSize_round_trip (value : bool) (window : Widget) (s : State) :
  getWindow tk q = Some window ->
  (value = false ->
   QSizePolicy_eqb (sizePolicy (widgets s window)) (QSizePolicy_make Fixed Fixed) = false
   /\ clampSize (kDefaultWindowSize tk) <> mkQSize QWIDGETSIZE_MAX QWIDGETSIZE_MAX) ->
  exists s',
    setWindowFixedSize tk q value s = Some (tt, s')
    /\ isWindowFixedSize tk q s' = value.
Proof.
  intros Hw Hpol. destruct value.
  - now apply (setWindowFixedSize_true tk q window).
  - destruct (Hpol eq_refl) as [Hp Hk].
    now apply (setWindowFixedSize_false_otherPolicy tk q window).
Qed.

(** X7. What [setWindowFixedSize] touches.  It never locks the mutex,
    writes to the hash, or changes the size policy of the window.  If the
    window already is as asked, it does nothing at all.  Otherwise its one
    call out of the module is [Utils::setAeroSnappingEnabled(winId,
    !value)], made on Windows only; and when it fixes the size, the
    minimum and the maximum size of the window are equal afterwards and the
    hint flag is set. *)
Theorem setWindowFixedSize_effects (value : bool) (window : Widget) (s : State) :
  getWindow tk q = Some window ->
  exists s',
    setWindowFixedSize tk q value s = Some (tt, s')
    /\ mutex s' = mutex s /\ data s' = data s
    /\ sizePolicy (widgets s' window) = sizePolicy (widgets s window)
    /\ (isWindowFixedSize tk q s = value -> s' = s)
    /\ (isWindowFixedSize tk q s <> value ->
        trace s' = trace s ++
                   (if Q_OS_WINDOWS tk
                    then [SetAeroSnappingEnabled (QWidget_winId tk window) (negb value)]
                    else [])
        /\ (value = true ->
            minimumSize (widgets s' window) = maximumSize (widgets s' window)
            /\ QFlags_testAny (windowFlags (widgets s' window))
                              MSWindowsFixedSizeDialogHint = true)).
Proof.
  intros Hw. unfold setWindowFixedSize. rewrite Hw. unfold bind at 1. unfold get at 1.
  destruct (Bool.eqb (isWindowFixedSize tk q s) value) eqn:Heq.
  - apply Bool.eqb_prop in Heq. exists s.
    do 5 (split; [reflexivity|]). intros Hn. contradiction.
  - apply Bool.eqb_false_iff in Heq.
    unfold bind, get, ret, emit, QWidget_setFixedSize, QWidget_setMinimumSize,
      QWidget_setMaximumSize, QWidget_setWindowFlags, setProps.
    cbn [widgets mutex data trace].
    destruct value, (Q_OS_WINDOWS tk); eexists; (split; [reflexivity|]);
      cbn [widgets mutex data trace]; rewrite ?Pos.eqb_refl;
      (split; [reflexivity|]); (split; [reflexivity|]);
      (split; [reflexivity|]); (split; [intros; contradiction|]);
      intros _; (split; [now rewrite ?app_nil_r|]);
      intros Hv; try discriminate Hv;
      (split; [reflexivity | apply QFlags_set_hint]).
Qed.

(** The bits of [windowState] other than [WindowMinimized]. *)
Lemma testbit_clear_minimized st n :
  n <> 0 -> Z.testbit (Z.land st (Z.lnot WindowMinimized)) n = Z.testbit st n.
Proof.
  intros Hn. rewrite Z.land_spec.
  destruct n as [|n|n]; [contradiction| |now rewrite !Z.testbit_neg_r by lia].
  rewrite Z.lnot_spec by lia.
  replace (Z.testbit WindowMinimized (Z.pos n)) with false
    by (destruct n; reflexivity).
  apply andb_true_r.
Qed.

Lemma minimized_cleared st :
  QFlags_testAny (Z.land st (Z.lnot WindowMinimized)) WindowMinimized = false.
Proof.
  unfold QFlags_testAny. apply negb_false_iff, Z.eqb_eq.
  rewrite <- Z.land_assoc, (Z.land_comm (Z.lnot _)), Z.land_lnot_diag.
  apply Z.land_0_r.
Qed.

(** X8. [bringWindowToFront], for a helper whose window resolves, returns
    with the window shown and not minimized, every other bit of its window
    state as it was, after having called [raise()] and then
    [activateWindow()] and made no other call; it touches neither the
    mutex, nor the hash, nor any other widget. *)
Theorem bringWindowToFront_shows (window : Widget) (s : State) :
  getWindow tk q = Some window ->
  exists s',
    bringWindowToFront tk q s = Some (tt, s')
    /\ hidden (widgets s' window) = false
    /\ QWidget_isMinimized s' window = false
    /\ (forall n, n <> 0 ->
          Z.testbit (windowState (widgets s' window)) n
          = Z.testbit (windowState (widgets s window)) n)
    /\ trace s' = trace s ++ [Raise window; ActivateWindow window]
    /\ mutex s' = mutex s /\ data s' = data s
    /\ (forall w, w <> window -> widgets s' w = widgets s w).
Proof.
  intros Hw. unfold bringWindowToFront. rewrite Hw.
  unfold bind, get, ret, emit, setProps, QWidget_isMinimized.
  cbn [widgets mutex data trace].
  assert (Hne : forall w : positive, w <> window -> Pos.eqb w window = false)
    by (intros w; apply Pos.eqb_neq).
  destruct (hidden (widgets s window)) eqn:Hh; cbn [widgets mutex data trace];
    rewrite ?Pos.eqb_refl; cbn [with_hidden windowState hidden];
    destruct (QFlags_testAny (windowState (widgets s window)) WindowMinimized) eqn:Hmin;
    cbn [widgets mutex data trace];
    eexists; (split; [reflexivity|]); cbn [widgets mutex data trace];
    rewrite ?Pos.eqb_refl; cbn [with_hidden with_windowState windowState hidden];
    rewrite ?Pos.eqb_refl; cbn [with_hidden with_windowState windowState hidden];
    repeat split;
    try (rewrite <- app_assoc; reflexivity);
    try exact Hh; try exact Hmin; try apply minimized_cleared;
    try (intros n Hn; now apply testbit_clear_minimized);
    try (intros w Hn; rewrite ?(Hne w Hn); reflexivity).
Qed.

End FixedSizeMore.

(** ** Registering widgets and asking about points *)

Section Registering.

Variable tk : Toolkit.
Variable q : Helper.

Lemma fold_subtractWidget_widgets s1 s l region pos :
  widgets s1 = widgets s ->
  fold_left (subtractWidget tk q s1) l region pos
  = fold_left (subtractWidget tk q s) l region pos.
Proof. intros Hws. destruct s1, s. cbn [widgets] in Hws. subst. reflexivity. Qed.

Lemma draggableArea_widgets d s1 s pos :
  widgets s1 = widgets s -> draggableArea tk q d s1 pos = draggableArea tk q d s pos.
Proof. intros Hws. destruct s1, s. cbn [widgets] in Hws. subst. reflexivity. Qed.

Lemma isInTitleBarDraggableArea_run pos s :
  mutex s = false ->
  exists s',
    isInTitleBarDraggableArea tk q pos s
    = Some (draggableArea tk q (windowData tk q s) s pos, s')
    /\ widgets s' = widgets s /\ mutex s' = false.
Proof.
  intros Hm. unfold isInTitleBarDraggableArea, bind.
  destruct (getWindow tk q) as [window|] eqn:Hw.
  - rewrite (getWindowData_run tk q window s Hw Hm).
    set (d := windowData tk q s). set (s1 := mkState false _ _ _).
    exists s1. split; [|split; reflexivity].
    unfold draggableArea. destruct (titleBarWidget d) eqn:Htb; [|reflexivity].
    unfold get, ret. f_equal. f_equal. unfold QRegion_contains, systemButtons.
    rewrite <- Htb.
    destruct (hitTestVisibleWidgets d) eqn:Hl; reflexivity.
  - rewrite (getWindowData_null tk q s Hw). unfold windowData. rewrite Hw.
    exists s. split; [reflexivity | split; [reflexivity | exact Hm]].
Qed.

Lemma windowData_after_ensured window s m W t :
  getWindow tk q = Some window ->
  windowData tk q (mkState m (ensured (data s) (QWidget_winId tk window)) W t)
  = windowData tk q s.
Proof.
  intros Hw. unfold windowData. rewrite Hw. cbn [data]. apply QHash_value_ensured.
Qed.

Lemma windowData_after_insert window h d m W t :
  getWindow tk q = Some window ->
  windowData tk q (mkState m (<[QWidget_winId tk window := d]> h) W t) = d.
Proof.
  intros Hw. unfold windowData. rewrite Hw. cbn [data]. apply QHash_value_insert.
Qed.

Lemma draggableArea_spec d s pos :
  draggableArea tk q d s pos = true <->
  QRect_inside (mapWidgetGeometryToScene tk q (titleBarWidget d) s) pos
  /\ titleBarWidget d <> None
  /\ (forall w, In (Some w) (systemButtons d) ->
        ~ QRect_inside (mapWidgetGeometryToScene tk q (Some w) s) pos)
  /\ (forall w, In (Some w) (hitTestVisibleWidgets d) ->
        ~ QRect_inside (mapWidgetGeometryToScene tk q (Some w) s) pos).
Proof.
  unfold draggableArea. destruct (titleBarWidget d) as [tb|] eqn:Htb.
  - unfold QRegion_contains.
    rewrite fold_subtractWidget, fold_subtractWidget, QRegion_fromRect_spec.
    split.
    + intros [[Hin Hb] Hh]. split; [exact Hin|]. split; [discriminate|]. split; assumption.
    + intros (Hin & _ & Hb & Hh). auto.
  - split; [intros H; discriminate H|]. intros (_ & Hn & _). now contradiction Hn.
Qed.

(** X9. Making a widget hit-test visible takes its rectangle out of the
    draggable area and adds nothing to it: after [setHitTestVisible(w)], a
    point inside the rectangle of [w], mapped to the window, is not
    draggable, and every point that is draggable was draggable before. *)
Theorem setHitTestVisible_shrinks_draggable (widget window : Widget) (s : State) :
  mutex s = false ->
  getWindow tk q = Some window ->
  exists s1,
    setHitTestVisible tk q (Some widget) s = Some (tt, s1)
    /\ forall pos, exists b b1 s2 s3,
         isInTitleBarDraggableArea tk q pos s = Some (b, s2)
         /\ isInTitleBarDraggableArea tk q pos s1 = Some (b1, s3)
         /\ (b1 = true -> b = true)
         /\ (QRect_inside (mapWidgetGeometryToScene tk q (Some widget) s) pos ->
             b1 = false).
Proof.
  intros Hm Hw.
  rewrite (setHitTestVisible_run tk q widget window s Hm Hw).
  eexists. split; [reflexivity|]. intros pos.
  destruct (isInTitleBarDraggableArea_run pos s Hm) as (s2 & Hrun & _).
  set (d := windowData tk q s) in *.
  assert (Hd1 : exists d1,
             forall m W t,
               windowData tk q
                 (mkState m
                    (if QList_contains (hitTestVisibleWidgets d) (Some widget)
                     then ensured (data s) (QWidget_winId tk window)
                     else <[QWidget_winId tk window :=
                              with_hitTestVisibleWidgets
                                (hitTestVisibleWidgets d ++ [Some widget]) d]>
                            (ensured (data s) (QWidget_winId tk window)))
                    W t) = d1
               /\ titleBarWidget d1 = titleBarWidget d
               /\ systemButtons d1 = systemButtons d
               /\ (forall w, In (Some w) (hitTestVisibleWidgets d) ->
                             In (Some w) (hitTestVisibleWidgets d1))
               /\ In (Some widget) (hitTestVisibleWidgets d1)).
  { destruct (QList_contains (hitTestVisibleWidgets d) (Some widget)) eqn:Hc.
    - exists d. intros m W t. rewrite (windowData_after_ensured window s m W t Hw).
      repeat split; auto. now apply QList_contains_true.
    - eexists. intros m W t. rewrite (windowData_after_insert window _ _ m W t Hw).
      split; [reflexivity|]. cbn. repeat split.
      + intros w Hin. apply in_or_app. now left.
      + apply in_or_app. right. now left. }
  destruct Hd1 as (d1 & Hd1).
  match goal with
  | |- context [isInTitleBarDraggableArea tk q pos ?s1] =>
      destruct (isInTitleBarDraggableArea_run pos s1 eq_refl) as (s3 & Hrun1 & _);
      rewrite (draggableArea_widgets _ s1 s pos eq_refl) in Hrun1
  end.
  destruct (Hd1 false (widgets s) (trace s ++ [MutexLock; MutexUnlock]))
    as (Heq & Htb & Hsb & Hsub & Hin).
  rewrite Heq in Hrun1.
  eexists _, _, s2, s3. split; [exact Hrun|]. split; [exact Hrun1|]. split.
  - intros H1. apply draggableArea_spec in H1 as (Hi & Hn & Hb & Hh).
    apply draggableArea_spec. rewrite <- Htb, <- Hsb.
    split; [exact Hi|]. split; [exact Hn|]. split; [exact Hb|].
    intros w Hin0. apply Hh. now apply Hsub.
  - intros Hpos.
    destruct (draggableArea tk q d1 s pos) eqn:E; [|reflexivity].
    apply draggableArea_spec in E as (_ & _ & _ & Hh).
    exfalso. exact (Hh widget Hin Hpos).
Qed.

(** X10. Registering a system button takes its rectangle out of the
    draggable area: after [setSystemButton(w, type)] with a known type, no
    point inside the rectangle of [w], mapped to the window, is
    draggable. *)
Theorem setSystemButton_excludes_from_draggable
    (widget window : Widget) (buttonType : SystemButtonType) (s : State) :
  mutex s = false ->
  getWindow tk q = Some window ->
  buttonType <> Unknown ->
  exists s1,
    setSystemButton tk q (Some widget) buttonType s = Some (tt, s1)
    /\ forall pos,
         QRect_inside (mapWidgetGeometryToScene tk q (Some widget) s) pos ->
         exists s2, isInTitleBarDraggableArea tk q pos s1 = Some (false, s2).
Proof.
  intros Hm Hw Hu.
  rewrite (setSystemButton_run tk q widget buttonType window s Hm Hw Hu).
  eexists. split; [reflexivity|]. intros pos Hpos.
  match goal with
  | |- context [isInTitleBarDraggableArea tk q pos ?s1] =>
      destruct (isInTitleBarDraggableArea_run pos s1 eq_refl) as (s2 & Hrun1 & _);
      rewrite (draggableArea_widgets _ s1 s pos eq_refl) in Hrun1;
      assert (Hd1 : windowData tk q s1
                    = with_button buttonType (Some widget) (windowData tk q s))
        by (unfold windowData at 1; rewrite Hw; cbn [data]; apply QHash_value_insert);
      rewrite Hd1 in Hrun1
  end.
  exists s2. rewrite Hrun1. f_equal. f_equal.
  destruct (draggableArea tk q _ s pos) eqn:E; [|reflexivity].
  apply draggableArea_spec in E as (_ & _ & Hb & _).
  exfalso. apply (Hb widget); [|exact Hpos].
  destruct buttonType; try congruence; cbn; auto 10.
Qed.

End Registering.

Section Lookups.

Variable tk : Toolkit.
Variable q : Helper.

Lemma buttonOrder_systemButtons d ptr type :
  In (ptr, type) (buttonOrder d) ->
  In ptr (systemButtons d) /\ type <> Restore /\ type <> Unknown.
Proof.
  unfold buttonOrder, systemButtons. cbn [In].
  intros [H|[H|[H|[H|[H|[]]]]]]; injection H as <- <-;
    (split; [auto 10 | split; discriminate]).
Qed.

Lemma isInSystemButtons_true pos v0 s r t s1 :
  mutex s = false ->
  isInSystemButtons tk q pos (Some v0) s = Some ((r, t), s1) ->
  r = true ->
  exists b type,
    t = Some type /\ In (Some b, type) (buttonOrder (windowData tk q s))
    /\ QRect_contains (geometry (widgets s b)) pos = true.
Proof.
  intros Hm Hrun Hr.
  destruct (isInSystemButtons_run tk q pos v0 s Hm) as (s' & Hrun' & _).
  rewrite Hrun' in Hrun.
  destruct (List.find _ _) as [[ptr type]|] eqn:Ef.
  - apply List.find_some in Ef as [Hin Hc]. cbn [fst] in Hc.
    injection Hrun as _ <- _.
    destruct ptr as [b|]; [|discriminate Hc].
    exists b, type. auto.
  - injection Hrun as <- _ _. discriminate Hr.
Qed.

(** X11. [isInSystemButtons] reports a button only as window icon, help,
    minimize, maximize or close: never as [Restore], although a button can
    be registered under that type, and never as [Unknown] when it returns
    true. *)
Theorem isInSystemButtons_never_reports_restore
    (pos : QPoint) (v0 : SystemButtonType) (s : State) :
  mutex s = false ->
  exists r t s1,
    isInSystemButtons tk q pos (Some v0) s = Some ((r, Some t), s1)
    /\ t <> Restore
    /\ (r = true -> t <> Unknown)
    /\ (r = false -> t = Unknown).
Proof.
  intros Hm.
  destruct (isInSystemButtons_run tk q pos v0 s Hm) as (s' & Hrun & _).
  destruct (List.find _ _) as [[ptr type]|] eqn:Ef.
  - apply List.find_some in Ef as [Hin _].
    apply buttonOrder_systemButtons in Hin as (_ & Hr & Hu).
    exists true, type, s'. repeat split; auto. discriminate.
  - exists false, Unknown, s'. repeat split; auto; discriminate.
Qed.

(** X12. Where the geometry of each registered button is its rectangle
    mapped to the window (the button is a child of the window, or its
    ancestors sit at the origin) and its size is not negative, a point that
    [isInSystemButtons] finds in a button is not in the draggable area. *)
Theorem button_point_not_draggable (pos : QPoint) (v0 : SystemButtonType)
    (s : State) (window : Widget) :
  mutex s = false ->
  getWindow tk q = Some window ->
  (forall b, In (Some b) (systemButtons (windowData tk q s)) ->
     geometry (widgets s b) = mapWidgetGeometryToScene tk q (Some b) s
     /\ 0 <= wd (QWidget_size s b) /\ 0 <= ht (QWidget_size s b)) ->
  forall t s1,
    isInSystemButtons tk q pos (Some v0) s = Some ((true, t), s1) ->
    exists s2, isInTitleBarDraggableArea tk q pos s = Some (false, s2).
Proof.
  intros Hm Hw Hgeo t s1 Hrun.
  destruct (isInSystemButtons_true pos v0 s true t s1 Hm Hrun eq_refl)
    as (b & type & _ & Hin & Hc).
  apply buttonOrder_systemButtons in Hin as (Hin & _).
  destruct (Hgeo b Hin) as (Hg & Hwd & Hht).
  destruct (isInTitleBarDraggableArea_run tk q pos s Hm) as (s2 & Hrun2 & _).
  exists s2. rewrite Hrun2. f_equal. f_equal.
  destruct (draggableArea tk q (windowData tk q s) s pos) eqn:E; [|reflexivity].
  apply draggableArea_spec in E as (_ & _ & Hb & _).
  exfalso. apply (Hb b Hin).
  apply QRegion_fromRect_spec.
  rewrite Hg in Hc. unfold mapWidgetGeometryToScene in *. rewrite Hw in *.
  now rewrite <- QRect_contains_fromPointSize.
Qed.

(** X13. Reading creates the entry it misses.  For a helper whose window
    resolves, called with the mutex free, [getWindowData] returns the value
    of the window id's entry, a default-constructed one if there is no
    entry, and leaves an entry with that value in the hash; every other
    entry is untouched.  A second read returns the same and leaves the hash
    as the first one left it. *)
Theorem getWindowData_creates_entry (window : Widget) (s : State) :
  mutex s = false ->
  getWindow tk q = Some window ->
  exists d s1,
    getWindowData tk q s = Some (d, s1)
    /\ d = match data s !! QWidget_winId tk window with
           | Some v => v
           | None => WidgetsHelperData_default
           end
    /\ data s1 !! QWidget_winId tk window = Some d
    /\ (forall k, k <> QWidget_winId tk window -> data s1 !! k = data s !! k)
    /\ widgets s1 = widgets s
    /\ exists s2, getWindowData tk q s1 = Some (d, s2) /\ data s2 = data s1.
Proof.
  intros Hm Hw. rewrite (getWindowData_run tk q window s Hw Hm).
  eexists _, _. split; [reflexivity|]. cbn [data widgets].
  assert (Hl : ensured (data s) (QWidget_winId tk window) !! QWidget_winId tk window
               = Some (windowData tk q s)).
  { unfold ensured, QHash_contains, windowData, QHash_value. rewrite Hw.
    destruct (data s !! QWidget_winId tk window) eqn:E; [exact E|].
    apply lookup_insert_eq. }
  split; [unfold windowData, QHash_value; now rewrite Hw|].
  split; [exact Hl|].
  split; [intros k Hk; apply lookup_ensured_ne; congruence|].
  split; [reflexivity|].
  match goal with
  | |- exists s2, getWindowData tk q ?s1 = _ /\ _ =>
      rewrite (getWindowData_run tk q window s1 Hw eq_refl);
      rewrite (windowData_after_ensured tk q window s _ _ _ Hw)
  end.
  eexists. split; [reflexivity|]. cbn [data].
  apply ensured_contains. unfold QHash_contains. now rewrite Hl.
Qed.

(** X14. A helper whose window has no entry yet answers as for an empty
    entry: no title bar, no button under any point, nothing draggable, and
    no button to drive. *)
Theorem reads_without_entry (window : Widget) (s : State) :
  mutex s = false ->
  getWindow tk q = Some window ->
  data s !! QWidget_winId tk window = None ->
  (exists s', getTitleBarWidget tk q s = Some (None, s'))
  /\ (forall pos v0, exists s',
        isInSystemButtons tk q pos (Some v0) s = Some ((false, Some Unknown), s'))
  /\ (forall pos, exists s', isInTitleBarDraggableArea tk q pos s = Some (false, s'))
  /\ (forall button state, exists s',
        setSystemButtonState tk q button state s = Some (tt, s')
        /\ effects (trace s') = effects (trace s)).
Proof.
  intros Hm Hw Hnone.
  assert (Hd : windowData tk q s = WidgetsHelperData_default).
  { unfold windowData, QHash_value. now rewrite Hw, Hnone. }
  split; [|split; [|split]].
  - destruct (getTitleBarWidget_run tk q s Hm) as (s' & Hrun).
    exists s'. now rewrite Hrun, Hd.
  - intros pos v0. destruct (isInSystemButtons_run tk q pos v0 s Hm) as (s' & Hrun & _).
    exists s'. now rewrite Hrun, Hd.
  - intros pos. destruct (isInTitleBarDraggableArea_run tk q pos s Hm) as (s' & Hrun & _).
    exists s'. now rewrite Hrun, Hd.
  - intros button state.
    destruct button; [exists s; split; reflexivity|..];
      unfold setSystemButtonState, bind;
      rewrite (getWindowData_run tk q window s Hw Hm), Hd;
      cbn; unfold ret; (eexists; split; [reflexivity|]); cbn [trace];
      rewrite effects_app; cbn; apply app_nil_r.
Qed.

(** X15. [setSystemButtonState] invokes nothing unless the button type has
    a stored widget that declares [setPressed(bool)], [setHovered(bool)]
    and [clicked()]: for [Unknown], for a type without registered widget,
    and for a widget lacking one of the three, it makes no call out of the
    module and changes no widget. *)
Theorem setSystemButtonState_silent (button : SystemButtonType) (state : ButtonState)
    (s : State) :
  mutex s = false ->
  (forall btn,
     In (button, Some btn)
        [(WindowIcon, windowIconButton (windowData tk q s));
         (Help, contextHelpButton (windowData tk q s));
         (Minimize, minimizeButton (windowData tk q s));
         (Maximize, maximizeButton (windowData tk q s));
         (Restore, maximizeButton (windowData tk q s));
         (Close, closeButton (windowData tk q s))] ->
     ~ exposesButtonInterface tk btn) ->
  exists s',
    setSystemButtonState tk q button state s = Some (tt, s')
    /\ effects (trace s') = effects (trace s)
    /\ widgets s' = widgets s.
Proof.
  intros Hm Hno.
  assert (Hquiet : forall ptr : QWidgetPtr,
             (forall btn, ptr = Some btn -> ~ exposesButtonInterface tk btn) ->
             forall s1 : State,
             exists s',
               match ptr with
               | Some btn =>
                   if (0 <=? QMetaObject_indexOfSlot tk btn "setPressed(bool)")
                      && (0 <=? QMetaObject_indexOfSlot tk btn "setHovered(bool)")
                      && (0 <=? QMetaObject_indexOfSignal tk btn "clicked()")
                   then updateButtonState state ptr
                   else ret tt
               | None => ret tt
               end s1 = Some (tt, s') /\ s' = s1).
  { intros [btn|] Hp s1; [|exists s1; split; reflexivity].
    destruct (_ && _) eqn:E; [|exists s1; split; reflexivity].
    exfalso. apply (Hp btn eq_refl).
    apply andb_true_iff in E as [E E3]. apply andb_true_iff in E as [E1 E2].
    apply Z.leb_le in E1, E2, E3. repeat split; assumption. }
  destruct (getWindow tk q) as [window|] eqn:Hw.
  - pose proof (getWindowData_run tk q window s Hw Hm) as Hrun.
    set (d := windowData tk q s) in *. cbn [In] in Hno.
    destruct button; [exists s; repeat split; reflexivity|..];
      unfold setSystemButtonState, bind; rewrite Hrun;
      match goal with
      | |- context [match ?ptr with Some _ => _ | None => _ end ?s1] =>
          destruct (Hquiet ptr (fun btn Heq => Hno btn ltac:(rewrite <- Heq; auto 10)) s1)
            as (s' & Hq & ->)
      end;
      (eexists; split; [exact Hq|]); cbn [trace widgets];
      (split; [rewrite effects_app; cbn; apply app_nil_r | reflexivity]).
  - pose proof (getWindowData_null tk q s Hw) as Hrun.
    destruct button; [exists s; repeat split; reflexivity|..];
      unfold setSystemButtonState, bind; rewrite Hrun; cbn; unfold ret;
      (eexists; split; [reflexivity|]); split; reflexivity.
Qed.

End Lookups.

Section Setters.

Variable tk : Toolkit.

Lemma QList_contains_In l w : QList_contains l w = true <-> In w l.
Proof.
  split; [apply QList_contains_true|].
  intros H. destruct (QList_contains l w) eqn:E; [reflexivity|].
  now apply QList_contains_false in E.
Qed.

(** X16. Each setter writes one field of the entry of the helper's window
    and leaves the rest of the entry as it was: [setTitleBarWidget] the
    title bar, [setSystemButton] the button of the given type ([Maximize]
    and [Restore] being the same button), [setHitTestVisible] the list of
    hit-test-visible widgets.  Only [setTitleBarWidget] makes a call out of
    the module. *)
Theorem setters_write_one_field (q : Helper) (widget window : Widget) (s : State) :
  mutex s = false ->
  getWindow tk q = Some window ->
  (exists s1,
     setTitleBarWidget tk q (Some widget) s = Some (tt, s1)
     /\ windowData tk q s1 = with_titleBarWidget (Some widget) (windowData tk q s))
  /\ (forall buttonType, buttonType <> Unknown ->
      exists s1,
        setSystemButton tk q (Some widget) buttonType s = Some (tt, s1)
        /\ windowData tk q s1 = with_button buttonType (Some widget) (windowData tk q s)
        /\ with_button Restore = with_button Maximize
        /\ effects (trace s1) = effects (trace s))
  /\ (exists s1,
        setHitTestVisible tk q (Some widget) s = Some (tt, s1)
        /\ windowData tk q s1
           = with_hitTestVisibleWidgets
               (hitTestVisibleWidgets (windowData tk q s1)) (windowData tk q s)
        /\ effects (trace s1) = effects (trace s)).
Proof.
  intros Hm Hw. split; [|split].
  - rewrite (setTitleBarWidget_run tk q widget window s Hm Hw).
    eexists. split; [reflexivity|].
    destruct (QWidgetPtr_eqb _ _) eqn:E.
    + rewrite (windowData_after_ensured tk q window s _ _ _ Hw).
      unfold QWidgetPtr_eqb in E. apply bool_decide_eq_true_1 in E.
      destruct (windowData tk q s). cbn in *. now subst.
    + apply (windowData_after_insert tk q window _ _ _ _ _ Hw).
  - intros buttonType Hu.
    rewrite (setSystemButton_run tk q widget buttonType window s Hm Hw Hu).
    eexists. split; [reflexivity|].
    split; [apply (windowData_after_insert tk q window _ _ _ _ _ Hw)|].
    split; [reflexivity|]. cbn [trace]. rewrite effects_app. cbn. apply app_nil_r.
  - rewrite (setHitTestVisible_run tk q widget window s Hm Hw).
    eexists. split; [reflexivity|]. split.
    + destruct (QList_contains _ _).
      * rewrite (windowData_after_ensured tk q window s _ _ _ Hw).
        now destruct (windowData tk q s).
      * now rewrite (windowData_after_insert tk q window _ _ _ _ _ Hw).
    + cbn [trace]. rewrite effects_app. cbn. apply app_nil_r.
Qed.

(** X17. A registered button is the one driven.  After
    [setSystemButton(w, type)], for a widget that declares the two slots
    and the signal, [setSystemButtonState] for the same type invokes the
    members on [w]; a button registered as [Maximize] is driven by
    [Restore] too, and the other way round, since the later of the two
    registrations replaces the earlier. *)
Theorem registered_button_is_driven (q : Helper) (widget window : Widget)
    (buttonType button : SystemButtonType) (state : ButtonState) (s : State) :
  mutex s = false ->
  getWindow tk q = Some window ->
  buttonType <> Unknown ->
  exposesButtonInterface tk widget ->
  button = buttonType
  \/ (buttonType = Maximize /\ button = Restore)
  \/ (buttonType = Restore /\ button = Maximize) ->
  exists s1 s2,
    setSystemButton tk q (Some widget) buttonType s = Some (tt, s1)
    /\ setSystemButtonState tk q button state s1 = Some (tt, s2)
    /\ effects (trace s2)
       = effects (trace s) ++
         match state with
         | Unspecified => [InvokeMethod widget "setPressed" (Some false);
                           InvokeMethod widget "setHovered" (Some false)]
         | Hovered => [InvokeMethod widget "setPressed" (Some false);
                       InvokeMethod widget "setHovered" (Some true)]
         | Pressed => [InvokeMethod widget "setHovered" (Some true);
                       InvokeMethod widget "setPressed" (Some true)]
         | Clicked => [InvokeMethod widget "setPressed" (Some false);
                       InvokeMethod widget "setHovered" (Some true);
                       InvokeMethod widget "clicked" None]
         end.
Proof.
  intros Hm Hw Hu Hexp Hsame.
  rewrite (setSystemButton_run tk q widget buttonType window s Hm Hw Hu).
  assert (Hb : button <> Unknown).
  { destruct Hsame as [->|[[_ ->]|[_ ->]]]; [exact Hu | discriminate | discriminate]. }
  match goal with
  | |- exists s1 s2, Some (tt, ?s0) = Some (tt, s1) /\ _ =>
      assert (Hd1 : windowData tk q s0
                    = with_button buttonType (Some widget) (windowData tk q s))
        by apply (windowData_after_insert tk q window _ _ _ _ _ Hw);
      assert (Hrun : setSystemButtonState tk q button state s0
                     = updateButtonState state (Some widget)
                         (mkState false (ensured (data s0) (QWidget_winId tk window))
                                  (widgets s0) (trace s0 ++ [MutexLock; MutexUnlock])))
  end.
  { apply (setSystemButtonState_run tk q button state); auto.
    rewrite Hd1. cbn [In].
    destruct Hsame as [->|[[-> ->]|[-> ->]]];
      [destruct buttonType; try congruence; cbn; auto 10 | cbn; auto 10 | cbn; auto 10]. }
  destruct state; (eexists _, _; split; [reflexivity|]); rewrite Hrun;
    unfold updateButtonState, bind, emit; cbn [mutex data widgets trace];
    (split; [reflexivity|]); cbn [trace];
    rewrite !effects_app; cbn; rewrite ?app_nil_r, <- ?app_assoc; reflexivity.
Qed.

(** X18. Helpers whose windows have the same window id share one entry:
    the title bar one of them registers is the title bar the other reads. *)
Theorem helpers_of_one_window_share (q1 q2 : Helper) (w1 w2 widget : Widget) (s : State) :
  mutex s = false ->
  getWindow tk q1 = Some w1 ->
  getWindow tk q2 = Some w2 ->
  QWidget_winId tk w1 = QWidget_winId tk w2 ->
  exists s1 s2,
    setTitleBarWidget tk q1 (Some widget) s = Some (tt, s1)
    /\ getTitleBarWidget tk q2 s1 = Some (Some widget, s2).
Proof.
  intros Hm H1 H2 Hid.
  assert (Hset : exists s1,
             setTitleBarWidget tk q1 (Some widget) s = Some (tt, s1)
             /\ mutex s1 = false
             /\ titleBarWidget (windowData tk q1 s1) = Some widget).
  { rewrite (setTitleBarWidget_run tk q1 widget w1 s Hm H1).
    eexists. split; [reflexivity|].
    destruct (QWidgetPtr_eqb _ _) eqn:E; (split; [reflexivity|]).
    - rewrite (windowData_after_ensured tk q1 w1 s _ _ _ H1).
      unfold QWidgetPtr_eqb in E. now apply bool_decide_eq_true_1 in E.
    - now rewrite (windowData_after_insert tk q1 w1 _ _ _ _ _ H1). }
  destruct Hset as (s1 & Hrun & Hm1 & Hd).
  destruct (getTitleBarWidget_run tk q2 s1 Hm1) as (s2 & Hget).
  exists s1, s2. split; [exact Hrun|]. rewrite Hget. f_equal. f_equal.
  assert (Hsame : windowData tk q2 s1 = windowData tk q1 s1).
  { unfold windowData. now rewrite H1, H2, Hid. }
  now rewrite Hsame, Hd.
Qed.

End Setters.

(** ** The signal and the mutex *)

Section SignalUnderLock.

Variable tk : Toolkit.
Variable q : Helper.

(** X19. [titleBarWidgetChanged] is emitted inside the critical section:
    when [setTitleBarWidget] stores a new widget, the signal comes after
    the lock and before the unlock.  And while the mutex is held, a helper
    with a window returns from neither [getTitleBarWidget] nor
    [setTitleBarWidget]: a slot run synchronously by the signal that calls
    one of them waits for the mutex its own caller holds. *)
Theorem titleBarWidgetChanged_inside_critical_section
    (widget window : Widget) (s : State) :
  mutex s = false ->
  getWindow tk q = Some window ->
  titleBarWidget (windowData tk q s) <> Some widget ->
  (exists s',
     setTitleBarWidget tk q (Some widget) s = Some (tt, s')
     /\ trace s' = trace s ++ [MutexLock; Emit_titleBarWidgetChanged q; MutexUnlock])
  /\ forall held,
       mutex held = true ->
       getTitleBarWidget tk q held = None
       /\ forall w, setTitleBarWidget tk q (Some w) held = None.
Proof.
  intros Hm Hw Hne. split.
  - rewrite (setTitleBarWidget_run tk q widget window s Hm Hw).
    unfold QWidgetPtr_eqb. rewrite bool_decide_eq_false_2 by exact Hne.
    eexists. split; reflexivity.
  - intros held Hh. split.
    + unfold getTitleBarWidget, bind.
      now rewrite (getWindowData_blocked tk q window held Hw Hh).
    + intros w. unfold setTitleBarWidget, QMutexLocker, bind, lock. now rewrite Hh.
Qed.

End SignalUnderLock.

(** ** The public members *)

(** X20. Every member of the public class gives, in every state and for
    every argument, what the private operation it forwards to gives: the
    guard it repeats on a null widget, an unknown button type or an empty
    set of edges is the one the private operation makes itself. *)
Theorem public_members_forward (tk : Toolkit) (q : Helper) (s : State) :
  FramelessWidgetsHelper.titleBarWidget tk q s = getTitleBarWidget tk q s
  /\ FramelessWidgetsHelper.isWindowFixedSize tk q s = isWindowFixedSize tk q s
  /\ (forall widget,
        FramelessWidgetsHelper.setTitleBarWidget tk q widget s
        = setTitleBarWidget tk q widget s)
  /\ (forall widget buttonType,
        FramelessWidgetsHelper.setSystemButton tk q widget buttonType s
        = setSystemButton tk q widget buttonType s)
  /\ (forall widget,
        FramelessWidgetsHelper.setHitTestVisible tk q widget s
        = setHitTestVisible tk q widget s)
  /\ (forall pos,
        FramelessWidgetsHelper.showSystemMenu tk q pos s = showSystemMenu tk q pos s)
  /\ (forall pos,
        FramelessWidgetsHelper.windowStartSystemMove2 tk q pos s
        = windowStartSystemMove2 tk q pos s)
  /\ (forall edges pos,
        FramelessWidgetsHelper.windowStartSystemResize2 tk q edges pos s
        = windowStartSystemResize2 tk q edges pos s)
  /\ FramelessWidgetsHelper.moveWindowToDesktopCenter tk q s
     = moveWindowToDesktopCenter tk q s
  /\ FramelessWidgetsHelper.bringWindowToFront tk q s = bringWindowToFront tk q s
  /\ (forall value,
        FramelessWidgetsHelper.setWindowFixedSize tk q value s
        = setWindowFixedSize tk q value s)
  /\ FramelessWidgetsHelper.extendsContentIntoTitleBar s = Some (tt, s).
Proof.
  split; [reflexivity|]. split; [reflexivity|].
  split; [now intros [w|]|].
  split; [intros [w|] []; reflexivity|].
  split; [now intros [w|]|].
  split; [reflexivity|]. split; [reflexivity|].
  split.
  { intros edges pos.
    unfold FramelessWidgetsHelper.windowStartSystemResize2, windowStartSystemResize2.
    destruct (edges =? 0) eqn:E; [|reflexivity].
    now destruct (getWindow tk q). }
  repeat split.
Qed.

(** ** The further properties at the windows of [Demo] and [Demo2] *)

Lemma registrations_persist_witness :
  mutex Demo.s_titled = false
  /\ exists s',
       exec Demo.tk 1 (Call_setSystemButton (Some 7%positive) Minimize) Demo.s_titled
       = Some s'
       /\ data s' !! 1%N <> None
       /\ titleBarWidget (QHash_value (data s') 1%N) <> None
       /\ closeButton (QHash_value (data s') 1%N) <> None.
Proof.
  split; [reflexivity|].
  destruct (registrations_persist Demo.tk 1
              (Call_setSystemButton (Some 7%positive) Minimize) Demo.s_titled eq_refl)
    as (s' & Hrun & Hk & Hp).
  exists s'. split; [exact Hrun|].
  destruct (Hp 1%N) as (_ & Htb & _ & _ & _ & _ & Hcl).
  split; [apply Hk; vm_compute; discriminate|].
  split; [apply Htb | apply Hcl]; vm_compute; discriminate.
Defined.

Lemma widgets_frame_witness :
  mutex Demo.s0 = false
  /\ exists s',
       exec Demo.tk 1 Call_bringWindowToFront Demo.s0 = Some s'
       /\ widgets s' 9%positive = widgets Demo.s0 9%positive.
Proof.
  split; [reflexivity|].
  destruct (widgets_frame Demo.tk 1 Call_bringWindowToFront Demo.s0 eq_refl)
    as (s' & Hrun & _ & Hw).
  exists s'. split; [exact Hrun|]. apply Hw; discriminate.
Defined.

Lemma signal_and_registration_sources_witness :
  mutex Demo.s0 = false
  /\ exists s',
       exec Demo.tk 1 (Call_setHitTestVisible (Some 8%positive)) Demo.s0 = Some s'
       /\ List.filter isTitleBarWidgetChanged (trace s') = []
       /\ List.filter isRegistration (trace s') = [].
Proof.
  split; [reflexivity|].
  destruct (signal_and_registration_sources Demo.tk 1
              (Call_setHitTestVisible (Some 8%positive)) Demo.s0 eq_refl)
    as (s' & Hrun & Ht & Hr).
  exists s'. split; [exact Hrun|]. split.
  - apply Ht. discriminate.
  - apply Hr. discriminate.
Defined.

Lemma attachToWindow_once_witness :
  mutex Demo.s0 = false /\ getWindow Demo.tk 1 = Some 1%positive
  /\ exists s1,
       attachToWindow Demo.tk 1 Demo.s0 = Some (tt, s1)
       /\ attached (windowData Demo.tk 1 s1) = true
       /\ effects (trace s1)
          = [AddWindow (ParametersOf 1 1); SingleShot 1 1]
       /\ exists s2,
            attachToWindow Demo.tk 1 s1 = Some (tt, s2)
            /\ effects (trace s2) = effects (trace s1).
Proof.
  split; [reflexivity|]. split; [reflexivity|].
  destruct (attachToWindow_once Demo.tk 1 1%positive Demo.s0 eq_refl eq_refl)
    as (s1 & Hrun & _ & Ha & Hfresh & _ & (s2 & Hrun2 & _ & _ & Ht2)).
  destruct (Hfresh eq_refl) as (_ & _ & _ & Ht).
  exists s1. split; [exact Hrun|]. split; [exact Ha|]. split; [exact Ht|].
  exists s2. split; assumption.
Defined.

Lemma addWindow_at_most_once_witness :
  reachable Demo.tk Demo2.s_attached
  /\ (countAddWindow Demo.tk 1%N (trace Demo2.s_attached) <= 1)%nat
  /\ countAddWindow Demo.tk 9%N (trace Demo2.s_attached) = 0%nat.
Proof.
  assert (Hr : reachable Demo.tk Demo2.s_attached).
  { apply (reachable_exec Demo.tk Demo.s0 1%positive Call_attachToWindow).
    - apply reachable_initial. repeat split.
    - reflexivity. }
  split; [exact Hr|].
  split.
  - exact (proj1 (addWindow_at_most_once Demo.tk Demo2.s_attached Hr 1%N)).
  - exact (proj2 (addWindow_at_most_once Demo.tk Demo2.s_attached Hr 9%N) eq_refl).
Defined.

Lemma setWindowFixedSize_round_trip_witness :
  getWindow Demo.tk 1 = Some 1%positive
  /\ exists s',
       setWindowFixedSize Demo.tk 1 false Demo.s0 = Some (tt, s')
       /\ isWindowFixedSize Demo.tk 1 s' = false.
Proof.
  split; [reflexivity|].
  apply (setWindowFixedSize_round_trip Demo.tk 1 false 1%positive Demo.s0 eq_refl).
  intros _. split; [reflexivity | discriminate].
Defined.

Lemma setWindowFixedSize_effects_witness :
  getWindow Demo.tk 1 = Some 1%positive
  /\ isWindowFixedSize Demo.tk 1 Demo.s0 <> true
  /\ exists s',
       setWindowFixedSize Demo.tk 1 true Demo.s0 = Some (tt, s')
       /\ trace s' = [SetAeroSnappingEnabled 1 false]
       /\ minimumSize (widgets s' 1%positive) = maximumSize (widgets s' 1%positive).
Proof.
  split; [reflexivity|]. split; [discriminate|].
  destruct (setWindowFixedSize_effects Demo.tk 1 true 1%positive Demo.s0 eq_refl)
    as (s' & Hrun & _ & _ & _ & _ & Hch).
  assert (Hne : isWindowFixedSize Demo.tk 1 Demo.s0 <> true) by discriminate.
  destruct (Hch Hne) as (Ht & Hfix).
  exists s'. split; [exact Hrun|]. split; [exact Ht|]. exact (proj1 (Hfix eq_refl)).
Defined.

Lemma bringWindowToFront_shows_witness :
  getWindow Demo.tk 1 = Some 1%positive
  /\ exists s',
       bringWindowToFront Demo.tk 1 Demo.s0 = Some (tt, s')
       /\ hidden (widgets s' 1%positive) = false
       /\ QWidget_isMinimized s' 1%positive = false
       /\ trace s' = [Raise 1; ActivateWindow 1].
Proof.
  split; [reflexivity|].
  destruct (bringWindowToFront_shows Demo.tk 1 1%positive Demo.s0 eq_refl)
    as (s' & Hrun & Hh & Hmin & _ & Ht & _).
  exists s'. auto.
Defined.

Lemma setHitTestVisible_shrinks_draggable_witness :
  mutex Demo.s_titled = false /\ getWindow Demo.tk 1 = Some 1%positive
  /\ QRect_inside (mapWidgetGeometryToScene Demo.tk 1 (Some 7%positive) Demo.s_titled)
                  (mkQPoint 690 10)
  /\ exists s1,
       setHitTestVisible Demo.tk 1 (Some 7%positive) Demo.s_titled = Some (tt, s1)
       /\ exists s3,
            isInTitleBarDraggableArea Demo.tk 1 (mkQPoint 690 10) s1 = Some (false, s3).
Proof.
  assert (Hin : QRect_inside
                  (mapWidgetGeometryToScene Demo.tk 1 (Some 7%positive) Demo.s_titled)
                  (mkQPoint 690 10)).
  { vm_compute. repeat split; discriminate. }
  split; [reflexivity|]. split; [reflexivity|]. split; [exact Hin|].
  destruct (setHitTestVisible_shrinks_draggable Demo.tk 1 7%positive 1%positive
              Demo.s_titled eq_refl eq_refl) as (s1 & Hrun & Hall).
  destruct (Hall (mkQPoint 690 10)) as (b & b1 & s2 & s3 & _ & Hrun1 & _ & Hout).
  exists s1. split; [exact Hrun|]. exists s3. now rewrite Hrun1, (Hout Hin).
Defined.

Lemma setSystemButton_excludes_from_draggable_witness :
  mutex Demo.s_titled = false /\ getWindow Demo.tk 1 = Some 1%positive
  /\ exists s1,
       setSystemButton Demo.tk 1 (Some 7%positive) Help Demo.s_titled = Some (tt, s1)
       /\ exists s2,
            isInTitleBarDraggableArea Demo.tk 1 (mkQPoint 690 10) s1 = Some (false, s2).
Proof.
  split; [reflexivity|]. split; [reflexivity|].
  assert (Hu : Help <> Unknown) by discriminate.
  destruct (setSystemButton_excludes_from_draggable Demo.tk 1 7%positive 1%positive
              Help Demo.s_titled eq_refl eq_refl Hu) as (s1 & Hrun & Hall).
  exists s1. split; [exact Hrun|]. apply Hall.
  vm_compute. repeat split; discriminate.
Defined.

Lemma isInSystemButtons_never_reports_restore_witness :
  mutex Demo.s_titled = false
  /\ exists r t s1,
       isInSystemButtons Demo.tk 1 (mkQPoint 750 10) (Some Restore) Demo.s_titled
       = Some ((r, Some t), s1)
       /\ t <> Restore.
Proof.
  split; [reflexivity|].
  destruct (isInSystemButtons_never_reports_restore Demo.tk 1 (mkQPoint 750 10)
              Restore Demo.s_titled eq_refl) as (r & t & s1 & Hrun & Hr & _).
  exists r, t, s1. auto.
Defined.

Lemma button_point_not_draggable_witness :
  mutex Demo.s_titled = false /\ getWindow Demo.tk 1 = Some 1%positive
  /\ exists s2,
       isInTitleBarDraggableArea Demo.tk 1 (mkQPoint 720 10) Demo.s_titled
       = Some (false, s2).
Proof.
  split; [reflexivity|]. split; [reflexivity|].
  destruct (isInSystemButtons_run Demo.tk 1 (mkQPoint 720 10) Close Demo.s_titled eq_refl)
    as (s1 & Hrun & _).
  match type of Hrun with
  | _ = Some (?r, _) =>
      assert (Hf : r = (true, Some Minimize)) by (vm_compute; reflexivity);
      rewrite Hf in Hrun
  end.
  apply (button_point_not_draggable Demo.tk 1 (mkQPoint 720 10) Close Demo.s_titled
           1%positive eq_refl eq_refl) with (t := Some Minimize) (s1 := s1);
    [|exact Hrun].
  intros b Hin. vm_compute in Hin.
  destruct Hin as [H|[H|[H|[H|[H|[]]]]]]; try discriminate H;
    injection H as <-; vm_compute; repeat split; discriminate.
Defined.

Lemma getWindowData_creates_entry_witness :
  mutex Demo.s0 = false /\ getWindow Demo.tk 1 = Some 1%positive
  /\ exists s1,
       getWindowData Demo.tk 1 Demo.s0 = Some (WidgetsHelperData_default, s1)
       /\ data s1 !! 1%N = Some WidgetsHelperData_default
       /\ data s1 !! 9%N = None.
Proof.
  split; [reflexivity|]. split; [reflexivity|].
  destruct (getWindowData_creates_entry Demo.tk 1 1%positive Demo.s0 eq_refl eq_refl)
    as (d & s1 & Hrun & Hd & Hl & Hother & _).
  assert (Hdef : d = WidgetsHelperData_default) by exact Hd. subst d.
  exists s1. split; [exact Hrun|]. split; [exact Hl|].
  now rewrite Hother by discriminate.
Defined.

Lemma reads_without_entry_witness :
  mutex Demo.s0 = false /\ getWindow Demo.tk 1 = Some 1%positive
  /\ data Demo.s0 !! 1%N = None
  /\ (exists s', getTitleBarWidget Demo.tk 1 Demo.s0 = Some (None, s'))
  /\ (exists s',
        isInTitleBarDraggableArea Demo.tk 1 (mkQPoint 100 10) Demo.s0 = Some (false, s')).
Proof.
  split; [reflexivity|]. split; [reflexivity|]. split; [reflexivity|].
  destruct (reads_without_entry Demo.tk 1 1%positive Demo.s0 eq_refl eq_refl eq_refl)
    as (Ht & _ & Hd & _).
  split; [exact Ht | apply Hd].
Defined.

Lemma setSystemButtonState_silent_witness :
  mutex Demo.s_titled = false
  /\ exists s',
       setSystemButtonState Demo.tk 1 Help Pressed Demo.s_titled = Some (tt, s')
       /\ effects (trace s') = effects (trace Demo.s_titled).
Proof.
  split; [reflexivity|].
  destruct (setSystemButtonState_silent Demo.tk 1 Help Pressed Demo.s_titled eq_refl)
    as (s' & Hrun & Ht & _).
  - intros btn Hin. vm_compute in Hin.
    destruct Hin as [H|[H|[H|[H|[H|[H|[]]]]]]]; discriminate H.
  - exists s'. auto.
Defined.

Lemma setters_write_one_field_witness :
  mutex Demo.s_titled = false /\ getWindow Demo.tk 1 = Some 1%positive
  /\ exists s1,
       setSystemButton Demo.tk 1 (Some 7%positive) Restore Demo.s_titled = Some (tt, s1)
       /\ maximizeButton (windowData Demo.tk 1 s1) = Some 7%positive
       /\ titleBarWidget (windowData Demo.tk 1 s1) = Some 2%positive
       /\ hitTestVisibleWidgets (windowData Demo.tk 1 s1) = [Some 8%positive].
Proof.
  split; [reflexivity|]. split; [reflexivity|].
  assert (Hu : Restore <> Unknown) by discriminate.
  destruct (proj1 (proj2 (setters_write_one_field Demo.tk 1 7%positive 1%positive
                            Demo.s_titled eq_refl eq_refl)) Restore Hu)
    as (s1 & Hrun & Hd & _).
  exists s1. split; [exact Hrun|]. rewrite Hd. repeat split.
Defined.

Lemma registered_button_is_driven_witness :
  mutex Demo.s0 = false /\ getWindow Demo.tk 1 = Some 1%positive
  /\ exposesButtonInterface Demo.tk 4
  /\ exists s1 s2,
       setSystemButton Demo.tk 1 (Some 4%positive) Maximize Demo.s0 = Some (tt, s1)
       /\ setSystemButtonState Demo.tk 1 Restore Clicked s1 = Some (tt, s2)
       /\ effects (trace s2)
          = [InvokeMethod 4 "setPressed" (Some false);
             InvokeMethod 4 "setHovered" (Some true);
             InvokeMethod 4 "clicked" None].
Proof.
  assert (Hexp : exposesButtonInterface Demo.tk 4).
  { unfold exposesButtonInterface. simpl. lia. }
  assert (Hu : Maximize <> Unknown) by discriminate.
  split; [reflexivity|]. split; [reflexivity|]. split; [exact Hexp|].
  exact (registered_button_is_driven Demo.tk 1 4%positive 1%positive Maximize Restore
           Clicked Demo.s0 eq_refl eq_refl Hu Hexp
           (or_intror (or_introl (conj eq_refl eq_refl)))).
Defined.

Lemma helpers_of_one_window_share_witness :
  mutex Demo.s0 = false
  /\ getWindow Demo2.tk 1 = Some 1%positive /\ getWindow Demo2.tk 4 = Some 1%positive
  /\ exists s1 s2,
       setTitleBarWidget Demo2.tk 1 (Some 2%positive) Demo.s0 = Some (tt, s1)
       /\ getTitleBarWidget Demo2.tk 4 s1 = Some (Some 2%positive, s2).
Proof.
  split; [reflexivity|]. split; [reflexivity|]. split; [reflexivity|].
  exact (helpers_of_one_window_share Demo2.tk 1 4 1%positive 1%positive 2%positive
           Demo.s0 eq_refl eq_refl eq_refl eq_refl).
Defined.

Lemma titleBarWidgetChanged_inside_critical_section_witness :
  mutex Demo.s0 = false /\ getWindow Demo.tk 1 = Some 1%positive
  /\ titleBarWidget (windowData Demo.tk 1 Demo.s0) <> Some 2%positive
  /\ exists s',
       setTitleBarWidget Demo.tk 1 (Some 2%positive) Demo.s0 = Some (tt, s')
       /\ trace s' = [MutexLock; Emit_titleBarWidgetChanged 1; MutexUnlock].
Proof.
  assert (Hne : titleBarWidget (windowData Demo.tk 1 Demo.s0) <> Some 2%positive)
    by discriminate.
  split; [reflexivity|]. split; [reflexivity|]. split; [exact Hne|].
  exact (proj1 (titleBarWidgetChanged_inside_critical_section Demo.tk 1 2%positive
                  1%positive Demo.s0 eq_refl eq_refl Hne)).
Defined.
